(** * qris-dynamicify: the TLV codec, the CRC engine and the dynamic-field
    mutator, embedded in Rocq.

    The development follows the TypeScript sources:
    - [src/utils/DynamicUtils.ts]: [setPrice], [setTax], [computeCRC16];
    - [src/parser/emvParser.ts]: [parseEmv];
    - [src/metadata/metadata.ts]: [extractMetadata];
    - [src/index.ts]: the class [DynamicQris] and [fromString].

    JavaScript strings are modelled as Rocq strings (sequences of 8-bit
    characters; a QRIS payload is ASCII text), JavaScript numbers that hold
    integers as [Z] (with [NaN] added where the code can produce it), the
    numbers that the class divides and multiplies as IEEE 754 doubles, and
    the 32-bit integer operators [<<], [^], [&] with their wrap-around.
    A function that throws returns a [result]; the parser, whose loop
    need not end, takes the number of turns it may make. *)

From Stdlib Require Import ZArith Lia Ascii List Bool.
From Stdlib Require Floats.SpecFloat.
From stdpp Require Import gmap strings.

Local Open Scope Z_scope.

(** ** JavaScript's 32-bit integer operators *)

Module Int32.

(** [ToInt32]: reduce modulo 2^32 into the signed range. *)
Definition ToInt32 (z : Z) : Z :=
  let m := z mod 2 ^ 32 in
  if 2 ^ 31 <=? m then m - 2 ^ 32 else m.

(** [a << b]: the shift count is taken modulo 32. *)
Definition shl (a b : Z) : Z :=
  ToInt32 (Z.shiftl (ToInt32 a) (Z.land b 31)).

(** [a ^ b] *)
Definition xor (a b : Z) : Z :=
  ToInt32 (Z.lxor (ToInt32 a) (ToInt32 b)).

(** [a & b] *)
Definition and (a b : Z) : Z :=
  ToInt32 (Z.land (ToInt32 a) (ToInt32 b)).

End Int32.

(** ** Characters and number rendering *)

(** [str.charCodeAt(c)] for a character of the string.  The characters
    of the strings here are 8-bit, so the code is below 256; a
    JavaScript string is made of 16-bit code units, and [crc_unit]
    below gives the loop of [computeCRC16] on any such unit. *)
Definition charCode (c : ascii) : Z := Z.of_N (N_of_ascii c).

(** The digit characters of [Number.prototype.toString(radix)]:
    [0-9] then lowercase [a-z]. *)
Definition digit_char (d : Z) : ascii :=
  if d <? 10 then ascii_of_N (Z.to_N (48 + d))
  else ascii_of_N (Z.to_N (87 + d)).

Fixpoint digits_fuel (radix : Z) (fuel : nat) (n : Z) (acc : string) : string :=
  match fuel with
  | O => acc
  | S fuel' =>
      let acc' := String (digit_char (n mod radix)) acc in
      if n / radix =? 0 then acc' else digits_fuel radix fuel' (n / radix) acc'
  end.

(** [n.toString(radix)] for an integer [n >= 0]: no leading zeros, and
    the single digit 0 for zero. *)
Definition toStringRadix (radix : Z) (n : Z) : string :=
  digits_fuel radix (S (Z.to_nat (Z.log2 n))) n EmptyString.

(** [String.prototype.toUpperCase] on the 8-bit characters: the ASCII
    letters a-z and the Latin-1 letters 224-254 (247 apart) move down by
    32.  Three Latin-1 characters are left as they are: 181 and 255,
    whose upper case is no 8-bit character, and 223, whose upper case is
    the two letters SS.  The only comparison made with an upper-cased
    text is with ID.CO.QRIS.WWW, which holds no doubled S and no
    character above 127: a text with one of the three differs from it
    here as it does in JavaScript. *)
Definition upper_char (c : ascii) : ascii :=
  let n := charCode c in
  if ((97 <=? n) && (n <=? 122)) || ((224 <=? n) && (n <=? 254) && negb (n =? 247))
  then ascii_of_N (Z.to_N (n - 32)) else c.

Fixpoint toUpperCase (s : string) : string :=
  match s with
  | EmptyString => EmptyString
  | String c rest => String (upper_char c) (toUpperCase rest)
  end.

(** ** The CRC engine: [computeCRC16] (DynamicUtils.ts, lines 109-125) *)

(** One turn of the inner loop: lines 114-119. *)
Definition crc_bit (crc : Z) : Z :=
  let crc :=
    if negb (Int32.and crc 0x8000 =? 0)
    then Int32.xor (Int32.shl crc 1) 0x1021
    else Int32.shl crc 1 in
  Int32.and crc 0xffff.

(** One turn of the outer loop: lines 112-120. *)
Definition crc_char (crc : Z) (c : ascii) : Z :=
  Nat.iter 8 crc_bit (Int32.xor crc (Int32.shl (charCode c) 8)).

(** A loop over the characters of a string, in order, from [acc]. *)
Fixpoint fold_string {A : Type} (f : A -> ascii -> A) (s : string) (acc : A) : A :=
  match s with
  | EmptyString => acc
  | String c rest => fold_string f rest (f acc c)
  end.

(** The outer loop, lines 111-121, over the characters of [str], from
    register [crc]. *)
Definition crc_loop (str : string) (crc : Z) : Z := fold_string crc_char str crc.

(** Lines 122-124: the register in hex, upper case, and one "0" in front
    when that has three characters. *)
Definition crc_hex (crc : Z) : string :=
  let hex := toUpperCase (toStringRadix 16 crc) in
  if (String.length hex =? 3)%nat then "0" +:+ hex else hex.

Definition computeCRC16 (str : string) : string :=
  crc_hex (crc_loop str 0xffff).

(** The same loop on a text given by its 16-bit code units, as
    [charCodeAt] returns them: lines 112-120 for one unit, lines 111-121
    for the text, and the function. *)
Definition crc_unit (crc code : Z) : Z :=
  Nat.iter 8 crc_bit (Int32.xor crc (Int32.shl code 8)).

Definition crc_loop_units (codes : list Z) (crc : Z) : Z :=
  fold_left crc_unit codes crc.

Definition computeCRC16_units (codes : list Z) : string :=
  crc_hex (crc_loop_units codes 0xffff).

(** ** The CRC of the specification

    The specification names the algorithm by its catalogue parameters
    (width, polynomial, initial register, reflection of input and
    output, final XOR).  [CRCModel.crc] is the bit-serial CRC with these
    parameters, on plain integers; [CRCModel.CCITT_FALSE] is the
    instance the specification asks for. *)

Module CRCModel.

Record params := {
  width : Z;      (* register width in bits *)
  poly : Z;       (* generator polynomial, top bit omitted *)
  init : Z;       (* initial register *)
  refin : bool;   (* input bytes reflected *)
  refout : bool;  (* register reflected before the final XOR *)
  xorout : Z      (* final XOR *)
}.

(** The low [n] bits of [v] in reverse order. *)
Fixpoint reflect (n : nat) (v : Z) : Z :=
  match n with
  | O => 0
  | S n' => Z.lor (Z.shiftl (Z.land v 1) (Z.of_nat n')) (reflect n' (Z.shiftr v 1))
  end.

(** Feed one message bit: shift the register left by one, and subtract
    (XOR) the polynomial when the bit shifted out differs from the
    message bit. *)
Definition feed_bit (p : params) (reg : Z) (b : bool) : Z :=
  let top := Z.testbit reg (width p - 1) in
  let reg' := (2 * reg) mod 2 ^ width p in
  if xorb top b then Z.lxor reg' (poly p) else reg'.

(** Feed the low [n] bits of [byte], most significant first. *)
Fixpoint feed_bits (p : params) (n : nat) (byte : Z) (reg : Z) : Z :=
  match n with
  | O => reg
  | S n' => feed_bits p n' byte (feed_bit p reg (Z.testbit byte (Z.of_nat n')))
  end.

Definition feed_byte (p : params) (reg : Z) (byte : Z) : Z :=
  feed_bits p 8 (if refin p then reflect 8 byte else byte) reg.

Definition crc (p : params) (msg : list Z) : Z :=
  let reg := fold_left (feed_byte p) msg (init p) in
  let reg := if refout p then reflect (Z.to_nat (width p)) reg else reg in
  Z.lxor reg (xorout p).

(** CRC-16/CCITT-FALSE: initial register 0xFFFF, polynomial 0x1021, no
    reflection, no final XOR. *)
Definition CCITT_FALSE : params :=
  {| width := 16; poly := 0x1021; init := 0xFFFF;
     refin := false; refout := false; xorout := 0 |}.

End CRCModel.

(** The char codes of a string, in order. *)
Fixpoint charCodes (s : string) : list Z :=
  match s with
  | EmptyString => nil
  | String c rest => charCode c :: charCodes rest
  end.


(** ** JavaScript numbers and strings *)

(** The numbers the code computes with: [Num z] is the double whose
    value is the integer [z], and [NaN] is what [parseInt] returns on a
    text without digits, which then spreads through [+].  Fractions and
    infinities are left out: amounts are documented as integers, and
    positions in a string are integers. *)
Inductive number := Num (z : Z) | NaN.

Module JS.

Definition add (a b : number) : number :=
  match a, b with
  | Num x, Num y => Num (x + y)
  | _, _ => NaN
  end.

(** [a < b]: false as soon as one side is [NaN]. *)
Definition lt (a b : number) : bool :=
  match a, b with
  | Num x, Num y => x <? y
  | _, _ => false
  end.

Fixpoint take (n : nat) (s : string) : string :=
  match n, s with
  | S n', String c rest => String c (take n' rest)
  | _, _ => EmptyString
  end.

Fixpoint drop (n : nat) (s : string) : string :=
  match n, s with
  | S n', String _ rest => drop n' rest
  | _, _ => s
  end.

(** An argument of [substring]: [NaN] counts as 0, and the index is
    clamped to [0, len]. *)
Definition clamp (len : nat) (n : number) : nat :=
  match n with
  | NaN => O
  | Num z => Z.to_nat (Z.min (Z.max z 0) (Z.of_nat len))
  end.

(** [s.substring(a, b)]: the two clamped indices are swapped when the
    first is the larger. *)
Definition substring (s : string) (a b : number) : string :=
  let ia := clamp (String.length s) a in
  let ib := clamp (String.length s) b in
  take (Nat.max ia ib - Nat.min ia ib) (drop (Nat.min ia ib) s).

(** An argument of [slice]: a negative index counts from the end. *)
Definition slice_index (len : nat) (z : Z) : nat :=
  if z <? 0 then Z.to_nat (Z.max (Z.of_nat len + z) 0)
  else Z.to_nat (Z.min z (Z.of_nat len)).

(** [s.slice(a, b)]: empty when the first index is not below the
    second. *)
Definition slice (s : string) (a b : Z) : string :=
  let from := slice_index (String.length s) a in
  let to := slice_index (String.length s) b in
  take (to - from) (drop from s).

(** [s.startsWith(p)] *)
Fixpoint startsWith (p s : string) : bool :=
  match p, s with
  | EmptyString, _ => true
  | String a p', String b s' => Ascii.eqb a b && startsWith p' s'
  | String _ _, EmptyString => false
  end.

(** [s.endsWith(p)] *)
Definition endsWith (s p : string) : bool :=
  (String.length p <=? String.length s)%nat
  && String.eqb (drop (String.length s - String.length p) s) p.

(** [s.indexOf(p)], with [None] for -1. *)
Fixpoint indexOf (p s : string) : option nat :=
  if startsWith p s then Some O
  else match s with
       | EmptyString => None
       | String _ rest => option_map S (indexOf p rest)
       end.

(** The replacement text of [replace] with a string pattern
    (GetSubstitution without captures): [$$] is a dollar sign, [$&] the
    matched text, [$`] and [$'] the text before and after the match;
    every other character stands for itself. *)
Fixpoint substitution (matched before after rep : string) : string :=
  match rep with
  | EmptyString => EmptyString
  | String c rest =>
      if Ascii.eqb c "$" then
        match rest with
        | EmptyString => String c EmptyString
        | String d rest' =>
            if Ascii.eqb d "$" then String "$" (substitution matched before after rest')
            else if Ascii.eqb d "&" then matched +:+ substitution matched before after rest'
            else if Ascii.eqb d "`" then before +:+ substitution matched before after rest'
            else if Ascii.eqb d "'" then after +:+ substitution matched before after rest'
            else String c (substitution matched before after rest)
        end
      else String c (substitution matched before after rest)
  end.

(** [s.replace(p, rep)] with a string pattern: the first occurrence
    only. *)
Definition replace (s p rep : string) : string :=
  match indexOf p s with
  | None => s
  | Some i =>
      let before := take i s in
      let after := drop (i + String.length p) s in
      before +:+ substitution p before after rep +:+ after
  end.

Fixpoint split_fuel (fuel : nat) (s sep : string) : list string :=
  match fuel with
  | O => [s]
  | S fuel' =>
      match indexOf sep s with
      | None => [s]
      | Some i => take i s :: split_fuel fuel' (drop (i + String.length sep) s) sep
      end
  end.

(** [s.split(sep)] for a separator that is not empty: every cut
    removes at least one character, so [length s] cuts suffice. *)
Definition split (s sep : string) : list string :=
  split_fuel (String.length s) s sep.

(** [n] characters of the filler repeated, [cur] being what is left of
    the repetition in progress. *)
Fixpoint fill_to (n : nat) (fill cur : string) : string :=
  match n with
  | O => EmptyString
  | S n' =>
      match cur with
      | String c rest => String c (fill_to n' fill rest)
      | EmptyString =>
          match fill with
          | String c rest => String c (fill_to n' fill rest)
          | EmptyString => EmptyString
          end
      end
  end.

(** [s.padStart(n, fill)] *)
Definition padStart (s : string) (n : nat) (fill : string) : string :=
  if (n <=? String.length s)%nat then s
  else fill_to (n - String.length s) fill fill +:+ s.

Definition is_digit (c : ascii) : bool :=
  (48 <=? charCode c) && (charCode c <=? 57).

(** The white space [parseInt] skips, among the 8-bit characters: TAB,
    LF, VT, FF, CR, space and the no-break space. *)
Definition is_whitespace (c : ascii) : bool :=
  let n := charCode c in
  ((9 <=? n) && (n <=? 13)) || (n =? 32) || (n =? 160).

Fixpoint skip_whitespace (s : string) : string :=
  match s with
  | String c rest => if is_whitespace c then skip_whitespace rest else s
  | EmptyString => s
  end.

(** The value of the longest run of decimal digits in front of [s];
    [acc] is [None] until a digit has been read. *)
Fixpoint parse_digits (s : string) (acc : option Z) : option Z :=
  match s with
  | String c rest =>
      if is_digit c
      then parse_digits rest (Some (10 * default 0 acc + (charCode c - 48)))
      else acc
  | EmptyString => acc
  end.

(** [parseInt(s, 10)]: white space, an optional sign, then digits;
    [NaN] when there is no digit.  (Exact below 2^53; the parser only
    passes strings of at most two characters.) *)
Definition parseInt (s : string) : number :=
  let s := skip_whitespace s in
  let '(neg, s) :=
    match s with
    | String c rest =>
        if Ascii.eqb c "-" then (true, rest)
        else if Ascii.eqb c "+" then (false, rest)
        else (false, s)
    | EmptyString => (false, s)
    end in
  match parse_digits s None with
  | None => NaN
  | Some v => Num (if neg then - v else v)
  end.

(** *** [String(n)] for a number *)

(** The IEEE double nearest to the integer [v >= 0], ties to even
    (below the overflow threshold). *)
Definition round_double (v : Z) : Z :=
  let bits := Z.log2 v + 1 in
  if bits <=? 53 then v
  else
    let sh := bits - 53 in
    let q := Z.shiftr v sh in
    let r := v - Z.shiftl q sh in
    let half := Z.shiftl 1 (sh - 1) in
    let q' := if (half <? r) || ((r =? half) && Z.odd q) then q + 1 else q in
    Z.shiftl q' sh.

Definition decimal (n : Z) : string := toStringRadix 10 n.

(** The candidates [(s, n)] with [k] digits: [s] has [k] digits and
    [s * 10^(n-k)] reads back as [x]. *)
Definition candidates (x : Z) (k : Z) : list (Z * Z) :=
  let d := Z.of_nat (String.length (decimal x)) in
  flat_map (fun n =>
    let e := n - k in
    if e <? 0 then []
    else
      flat_map (fun s =>
        if (10 ^ (k - 1) <=? s) && (s <? 10 ^ k)
           && (round_double (s * 10 ^ e) =? x)
        then [(s, n)] else [])
        [x / 10 ^ e; x / 10 ^ e + 1])
    [d; d + 1].

(** Of several candidates, the one whose value is closest to [x]. *)
Definition closest (x k : Z) (cs : list (Z * Z)) : option (Z * Z) :=
  fold_left (fun best c =>
    match best with
    | None => Some c
    | Some b =>
        if Z.abs (fst c * 10 ^ (snd c - k) - x) <? Z.abs (fst b * 10 ^ (snd b - k) - x)
        then Some c else Some b
    end) cs None.

(** The shortest digit string [s] (with its count [k] and the position
    [n] of the decimal point) that reads back as [x]; [ks] are the
    digit counts still to try. *)
Fixpoint shortest (x : Z) (ks : list Z) : option (Z * Z * Z) :=
  match ks with
  | [] => None
  | k :: ks' =>
      match closest x k (candidates x k) with
      | Some (s, n) => Some (s, k, n)
      | None => shortest x ks'
      end
  end.

Fixpoint zeros (n : nat) : string :=
  match n with
  | O => EmptyString
  | S n' => String "0" (zeros n')
  end.

(** Number::toString for an integer [x >= 0] that is a double.  Below
    2^53 every integer is a double and prints in full; above, the
    shortest digit string that reads back as [x] is printed, followed
    by zeros up to 21 digits and in exponent notation beyond. *)
Definition toString_nonneg (x : Z) : string :=
  if x <? 2 ^ 53 then decimal x
  else
    match shortest x (map Z.of_nat (seq 1 17)) with
    | None => decimal x
    | Some (s, k, n) =>
        if n <=? 21 then decimal s +:+ zeros (Z.to_nat (n - k))
        else
          match decimal s with
          | String c EmptyString => String c ("e+" +:+ decimal (n - 1))
          | String c rest => String c ("." +:+ rest +:+ "e+" +:+ decimal (n - 1))
          | EmptyString => EmptyString
          end
    end.

(** [String(n)], also what a template literal does with a number. *)
Definition String_ (n : number) : string :=
  match n with
  | NaN => "NaN"
  | Num z => if z <? 0 then "-" +:+ toString_nonneg (- z) else toString_nonneg z
  end.

(** [n.toString()] for a length. *)
Definition nat_toString (n : nat) : string := decimal (Z.of_nat n).

End JS.


(** ** The dynamic-field mutator (DynamicUtils.ts) *)

(** The four places where the mutator throws. *)
Inductive error :=
| PriceNegative       (* line 13: Price must be >= 0 *)
| MissingCountryCode  (* lines 24 and 82: Invalid QRIS format (missing 5802ID) *)
| InvalidTaxFormat    (* line 70: Invalid tax format *)
| MissingAmount.      (* line 88: QRIS does not contain a transaction amount (tag 54) *)

Inductive result (A : Type) :=
| Ok (a : A)
| Throw (e : error).
Arguments Ok {A} a.
Arguments Throw {A} e.

(** The second argument of [setTax]: [number | string]. *)
Inductive tax_arg :=
| TaxNumber (n : number)
| TaxString (s : string).

(** The length prefix of a field: [value.length.toString().padStart(2, "0")]. *)
Definition length_prefix (value : string) : string :=
  JS.padStart (JS.nat_toString (String.length value)) 2 "0".

(** Lines 28-30: the amount field. *)
Definition priceTag (price : number) : string :=
  "54" +:+ length_prefix (JS.String_ price) +:+ JS.String_ price.

(** Lines 12-37. *)
Definition setPrice (staticQris : string) (price : number) : result string :=
  if JS.lt price (Num 0) then Throw PriceNegative
  else
    let qris := JS.slice staticQris 0 (-4) in
    let qris := JS.replace qris "010211" "010212" in
    let parts := JS.split qris "5802ID" in
    if negb (length parts =? 2)%nat then Throw MissingCountryCode
    else
      let result :=
        nth 0 parts EmptyString +:+ priceTag price +:+ "5802ID"
        +:+ nth 1 parts EmptyString in
      Ok (result +:+ computeCRC16 result).

(** Lines 60-73: the text inserted for the fee. *)
Definition taxTag (tax : tax_arg) : result string :=
  match tax with
  | TaxNumber n =>
      Ok ("55020256" +:+ length_prefix (JS.String_ n) +:+ JS.String_ n)
  | TaxString s =>
      if JS.endsWith s "%" then
        let percent := JS.replace s "%" EmptyString in
        Ok ("55020357" +:+ length_prefix percent +:+ percent)
      else Throw InvalidTaxFormat
  end.

(** The regular expression of line 86, [/54\d{2}\d+/], anchored at the
    start of [s]: the characters 5 and 4, then every digit that follows,
    of which there must be three at least.  The result is the matched
    text. *)
Fixpoint leading_digits (s : string) : string :=
  match s with
  | String c rest => if JS.is_digit c then String c (leading_digits rest) else EmptyString
  | EmptyString => EmptyString
  end.

Definition amount_at (s : string) : option string :=
  match s with
  | String c1 (String c2 rest) =>
      if Ascii.eqb c1 "5" && Ascii.eqb c2 "4"
         && (3 <=? String.length (leading_digits rest))%nat
      then Some ("54" +:+ leading_digits rest)
      else None
  | _ => None
  end.

(** [s.match(/54\d{2}\d+/)]: the leftmost match, [None] for [null]. *)
Fixpoint match_amount (s : string) : option string :=
  match amount_at s with
  | Some m => Some m
  | None =>
      match s with
      | EmptyString => None
      | String _ rest => match_amount rest
      end
  end.

(** Lines 59-98. *)
Definition setTax (staticQris : string) (tax : tax_arg) : result string :=
  match taxTag tax with
  | Throw e => Throw e
  | Ok tag =>
      let qris := JS.slice staticQris 0 (-4) in
      let qris := JS.replace qris "010211" "010212" in
      let parts := JS.split qris "5802ID" in
      if negb (length parts =? 2)%nat then Throw MissingCountryCode
      else
        match match_amount (nth 0 parts EmptyString) with
        | None => Throw MissingAmount
        | Some m =>
            let withTax := JS.replace (nth 0 parts EmptyString) m (m +:+ tag) in
            let result := withTax +:+ "5802ID" +:+ nth 1 parts EmptyString in
            Ok (result +:+ computeCRC16 result)
        end
  end.

(** [setPrice] then [setTax], as the chained calls of the class do. *)
Definition setPriceThenTax (staticQris : string) (price : number) (tax : tax_arg)
  : result string :=
  match setPrice staticQris price with
  | Ok withPrice => setTax withPrice tax
  | Throw e => Throw e
  end.

(** ** The TLV parser (emvParser.ts) *)

(** The body of the loop, lines 12-16, at cursor [i]: the new cursor and
    the new record. *)
Definition parseEmv_step (qris : string) (i : Z) (result : gmap string string)
  : number * gmap string string :=
  let tag := JS.substring qris (Num i) (Num (i + 2)) in
  let len := JS.parseInt (JS.substring qris (Num (i + 2)) (Num (i + 4))) in
  let value := JS.substring qris (Num (i + 4)) (JS.add (Num (i + 4)) len) in
  (JS.add (Num i) (JS.add (Num 4) len), <[tag := value]> result).

(** The loop of lines 11-17, for at most [fuel] turns; [None] when the
    loop is still running after them. *)
Fixpoint parseEmv_loop (fuel : nat) (qris : string) (i : number)
    (result : gmap string string) : option (gmap string string) :=
  match i with
  | NaN => Some result
  | Num z =>
      if z <? Z.of_nat (String.length qris) then
        match fuel with
        | O => None
        | S fuel' =>
            let '(i', result') := parseEmv_step qris z result in
            parseEmv_loop fuel' qris i' result'
        end
      else Some result
  end.

Definition parseEmv (fuel : nat) (qris : string) : option (gmap string string) :=
  parseEmv_loop fuel qris (Num 0) ∅.

(** [parseEmv qris] returns [m]: some number of turns is enough. *)
Definition parseEmv_returns (qris : string) (m : gmap string string) : Prop :=
  exists fuel, parseEmv fuel qris = Some m.

(** ** The metadata extractor (metadata.ts) *)

Record QrisMetadata := {
  merchant : string;
  company : string;
  region : string;
  country : string;
  postal_code : string;
  merchant_pan : string;
  price : option string;
  tax : option string
}.

(** [emv[tag] || d]: the default also replaces an empty value. *)
Definition get_or (emv : gmap string string) (tag : string) (d : string) : string :=
  match emv !! tag with
  | Some v => if String.eqb v EmptyString then d else v
  | None => d
  end.

(** [emv[tag] || null] *)
Definition get_or_null (emv : gmap string string) (tag : string) : option string :=
  match emv !! tag with
  | Some v => if String.eqb v EmptyString then None else Some v
  | None => None
  end.

(** The loop of lines 41-53 over the candidate tags: the company and the
    merchant PAN found, [None] when a nested parse is still running
    after [fuel] turns. *)
Fixpoint find_company (fuel : nat) (emv : gmap string string) (tags : list string)
  : option (string * string) :=
  match tags with
  | [] => Some (EmptyString, EmptyString)
  | tag :: tags' =>
      if String.eqb (get_or emv tag EmptyString) EmptyString
      then find_company fuel emv tags'
      else
        match parseEmv fuel (get_or emv tag EmptyString) with
        | None => None
        | Some nested =>
            let gui := get_or nested "00" EmptyString in
            let acc := get_or nested "01" EmptyString in
            if negb (String.eqb gui EmptyString)
               && negb (String.eqb (toUpperCase gui) "ID.CO.QRIS.WWW")
            then Some (gui, acc)
            else find_company fuel emv tags'
        end
  end.

(** Lines 31-68. *)
Definition extractMetadata (fuel : nat) (qris : string) : option QrisMetadata :=
  match parseEmv fuel qris with
  | None => None
  | Some emv =>
      match find_company fuel emv ["26"; "27"; "51"] with
      | None => None
      | Some (company, merchant_pan) =>
          Some {| merchant := get_or emv "59" EmptyString;
                  company := company;
                  region := get_or emv "60" EmptyString;
                  country := get_or emv "58" "ID";
                  postal_code := get_or emv "61" EmptyString;
                  merchant_pan := merchant_pan;
                  price := get_or_null emv "54";
                  tax := get_or_null emv "55" |}
      end
  end.


(** ** Sample payloads *)

(** A sealed static payload: tags 00, 01, 26 (a merchant account with
    sub-tags 00 to 03), 51, 52, 53, 58, 59, 60, 61, 62 and the CRC in
    tag 63. *)
Definition sample_static : string :=
  "00020101021126620015COM.EXAMPLE.WWW01189360091431234567890210G1234567890303UMI51440014ID.CO.QRIS.WWW0215ID10200123456780303UMI5204581253033605802ID5917MERCHANT NATIONAL6011JAKARTA SEL61051215062070703A016304B37B".

(** The double nearest to 10^100; its decimal expansion has 101 digits. *)
Definition huge_amount : Z :=
  10000000000000000159028911097599180468360808563945281389781327557747838772170381060813469985856815104.

(** The same merchant under another name. *)
Definition sample_warung : string :=
  "00020101021126620015COM.EXAMPLE.WWW01189360091431234567890210G1234567890303UMI51440014ID.CO.QRIS.WWW0215ID10200123456780303UMI5204581253033605802ID5908WARUNG 96011JAKARTA SEL61051215062070703A016304C19B".

(** A merchant whose account number (tag 26, sub-tag 01) holds the
    digits 54321234567. *)
Definition sample_pan54 : string :=
  "00020101021126620015COM.EXAMPLE.WWW01189360091543212345670210G1234567890303UMI51440014ID.CO.QRIS.WWW0215ID10200123456780303UMI5204581253033605802ID5917MERCHANT NATIONAL6011JAKARTA SEL61051215062070703A016304F4E7".

(** What the model computes from the samples (each is checked below). *)

(** [setPrice sample_warung 10000] *)
Definition warung_10000 : string :=
  "00020101021226620015COM.EXAMPLE.WWW01189360091431234567890210G1234567890303UMI51440014ID.CO.QRIS.WWW0215ID10200123456780303UMI5204581253033605405100005802ID5908WARUNG 96011JAKARTA SEL61051215062070703A0163046C".


(** [setPrice sample_static 50000], then [setTax] at 5000 *)
Definition static_50000_5000 : string :=
  "00020101021226620015COM.EXAMPLE.WWW01189360091431234567890210G1234567890303UMI51440014ID.CO.QRIS.WWW0215ID10200123456780303UMI520458125303360540550000550202560450005802ID5917MERCHANT NATIONAL6011JAKARTA SEL61051215062070703A016304B99C".

(** [setPrice sample_pan54 50000] *)
Definition pan54_50000 : string :=
  "00020101021226620015COM.EXAMPLE.WWW01189360091543212345670210G1234567890303UMI51440014ID.CO.QRIS.WWW0215ID10200123456780303UMI5204581253033605405500005802ID5917MERCHANT NATIONAL6011JAKARTA SEL61051215062070703A0163040DDC".

(** [setPrice sample_pan54 50000], then [setTax] at 5000 *)
Definition pan54_50000_5000 : string :=
  "00020101021226620015COM.EXAMPLE.WWW0118936009154321234567021055020256045000G1234567890303UMI51440014ID.CO.QRIS.WWW0215ID10200123456780303UMI5204581253033605405500005802ID5917MERCHANT NATIONAL6011JAKARTA SEL61051215062070703A0163043062".

(** [setTax sample_pan54 5000], without [setPrice] *)
Definition pan54_5000 : string :=
  "00020101021226620015COM.EXAMPLE.WWW0118936009154321234567021055020256045000G1234567890303UMI51440014ID.CO.QRIS.WWW0215ID10200123456780303UMI5204581253033605802ID5917MERCHANT NATIONAL6011JAKARTA SEL61051215062070703A01630472A9".

(** The fields of [sample_static] before and after the anchor, tag 01
    already rewritten and tag 63 left out. *)
Definition sample_fields_before : list (string * string) :=
  [("00", "01"); ("01", "12");
   ("26", "0015COM.EXAMPLE.WWW01189360091431234567890210G1234567890303UMI");
   ("51", "0014ID.CO.QRIS.WWW0215ID10200123456780303UMI");
   ("52", "5812"); ("53", "360")].

Definition sample_fields_after : list (string * string) :=
  [("59", "MERCHANT NATIONAL"); ("60", "JAKARTA SEL"); ("61", "12150");
   ("62", "0703A01")].

(** ** JavaScript numbers with fractions

    The class [DynamicQris] divides and multiplies numbers, so its
    numbers are modelled in full: IEEE 754 binary64, as the Standard
    Library specifies it (precision 53, exponent bound 1024, round to
    nearest, ties to even). *)

Module Double.

Definition prec : Z := 53.
Definition emax : Z := 1024.

Definition nan : SpecFloat.spec_float := SpecFloat.S754_nan.
Definition zero : SpecFloat.spec_float := SpecFloat.S754_zero false.

(** The double nearest to an integer. *)
Definition of_Z (z : Z) : SpecFloat.spec_float :=
  SpecFloat.binary_normalize prec emax z 0 false.

(** A number of the integer model as a double. *)
Definition of_number (n : number) : SpecFloat.spec_float :=
  match n with
  | Num z => of_Z z
  | NaN => nan
  end.

(** [a / b], [a * b], [a < b] and [isNaN(a)] *)
Definition div (a b : SpecFloat.spec_float) : SpecFloat.spec_float :=
  SpecFloat.SFdiv prec emax a b.

Definition mul (a b : SpecFloat.spec_float) : SpecFloat.spec_float :=
  SpecFloat.SFmul prec emax a b.

Definition lt (a b : SpecFloat.spec_float) : bool := SpecFloat.SFltb a b.

Definition isNaN (a : SpecFloat.spec_float) : bool :=
  match a with
  | SpecFloat.S754_nan => true
  | _ => false
  end.

(** [Math.round(x)]: the nearest integer, a tie going up; zeros,
    infinities and [NaN] are returned as they are, and a result of zero
    keeps the sign of [x]. *)
Definition round (x : SpecFloat.spec_float) : SpecFloat.spec_float :=
  match x with
  | SpecFloat.S754_finite s m e =>
      if 0 <=? e then x
      else
        let v := if s then Z.neg m else Z.pos m in
        let r := (2 * v + 2 ^ (- e)) / 2 ^ (1 - e) in
        if r =? 0 then SpecFloat.S754_zero s else of_Z r
  | _ => x
  end.

(** The double nearest to [m * 10^scale], with the sign [neg]. *)
Definition of_decimal (neg : bool) (m scale : Z) : SpecFloat.spec_float :=
  match m with
  | Z.pos p =>
      if 0 <=? scale
      then SpecFloat.binary_round prec emax neg (p * Z.to_pos (10 ^ scale)) 0
      else div (SpecFloat.S754_finite neg p 0)
               (SpecFloat.S754_finite false (Z.to_pos (10 ^ (- scale))) 0)
  | _ => SpecFloat.S754_zero neg
  end.

(** The leading decimal digits of [s], and what follows them. *)
Fixpoint span_digits (s : string) : string * string :=
  match s with
  | String c rest =>
      if JS.is_digit c
      then let '(d, r) := span_digits rest in (String c d, r)
      else (EmptyString, s)
  | EmptyString => (EmptyString, EmptyString)
  end.

(** The value of a string of decimal digits. *)
Definition digits_value (s : string) : Z :=
  fold_string (fun acc c => 10 * acc + (charCode c - 48)) s 0.

(** An optional sign in front of [s]: whether it is a minus, and what
    follows it. *)
Definition span_sign (s : string) : bool * string :=
  match s with
  | String c rest =>
      if Ascii.eqb c "-" then (true, rest)
      else if Ascii.eqb c "+" then (false, rest)
      else (false, s)
  | EmptyString => (false, s)
  end.

(** The exponent part in front of [s], if there is one: [e] or [E], an
    optional sign, and one digit at least. *)
Definition exponent_part (s : string) : Z :=
  match s with
  | String c rest =>
      if Ascii.eqb c "e" || Ascii.eqb c "E" then
        let '(neg, rest) := span_sign rest in
        let '(d, _) := span_digits rest in
        match d with
        | EmptyString => 0
        | _ => if neg then - digits_value d else digits_value d
        end
      else 0
  | EmptyString => 0
  end.

(** [parseFloat(s)]: white space is skipped, then the longest prefix
    that is a decimal literal is read (a sign, then [Infinity], or
    digits with an optional fraction and an optional exponent part);
    [NaN] when there is none. *)
Definition parseFloat (s : string) : SpecFloat.spec_float :=
  let '(neg, s) := span_sign (JS.skip_whitespace s) in
  if JS.startsWith "Infinity" s then SpecFloat.S754_infinity neg
  else
    let '(int, rest) := span_digits s in
    let '(frac, rest) :=
      match rest with
      | String c rest' => if Ascii.eqb c "." then span_digits rest' else (EmptyString, rest)
      | EmptyString => (EmptyString, rest)
      end in
    match int +:+ frac with
    | EmptyString => nan
    | digits =>
        of_decimal neg (digits_value digits)
                   (exponent_part rest - Z.of_nat (String.length frac))
    end.

End Double.

(** ** The class [DynamicQris] and [fromString] (index.ts) *)

Module DynamicQris.

(** The places where the class and [fromString] throw, and what the
    functions of DynamicUtils.ts throw through them. *)
Inductive exn :=
| PriceMustBeNonneg      (* line 31: Price must be >= 0 *)
| TaxMustBeNonneg        (* line 48: Tax must be >= 0 *)
| TaxPercentageInvalid   (* line 53: Invalid tax percentage *)
| TaxFormatInvalid       (* line 57: Invalid tax format *)
| QrisInputInvalid       (* line 158: Invalid QRIS input *)
| FromUtils (e : error). (* thrown by setPriceQR or setTaxQR *)

(** How a call ends. *)
Inductive outcome (A : Type) :=
| Returned (a : A)
| Thrown (e : exn).
Arguments Returned {A} a.
Arguments Thrown {A} e.

(** The fields of an instance, lines 11-13. *)
Record t := {
  qris : string;
  price : number;
  taxAmount : SpecFloat.spec_float
}.

(** The constructor, lines 19-21, with the initial values of lines 12
    and 13. *)
Definition new (initialQris : string) : t :=
  {| qris := initialQris; price := Num 0; taxAmount := Double.zero |}.

(** The two functions of DynamicUtils.ts, under the names of the
    import of lines 3-6. *)
Definition setPriceQR := setPrice.
Definition setTaxQR := setTax.

(** A method changes the instance and returns it, or throws: the model
    gives the instance after the call, whatever its end. *)

(** Lines 30-35. *)
Definition setPrice (this : t) (price' : number) : t * outcome unit :=
  if JS.lt price' (Num 0) then (this, Thrown PriceMustBeNonneg)
  else
    let this := {| qris := qris this; price := price'; taxAmount := taxAmount this |} in
    match setPriceQR (qris this) price' with
    | Throw e => (this, Thrown (FromUtils e))
    | Ok q =>
        ({| qris := q; price := price this; taxAmount := taxAmount this |}, Returned tt)
    end.

(** Line 60, after [taxAmount] has been assigned. *)
Definition setTax_write (this : t) (tax : tax_arg) : t * outcome unit :=
  match setTaxQR (qris this) tax with
  | Throw e => (this, Thrown (FromUtils e))
  | Ok q =>
      ({| qris := q; price := price this; taxAmount := taxAmount this |}, Returned tt)
  end.

(** Lines 46-62. *)
Definition setTax (this : t) (tax : tax_arg) : t * outcome unit :=
  match tax with
  | TaxNumber n =>
      if JS.lt n (Num 0) then (this, Thrown TaxMustBeNonneg)
      else
        setTax_write
          {| qris := qris this; price := price this; taxAmount := Double.of_number n |}
          tax
  | TaxString s =>
      if JS.endsWith s "%" then
        let percent := Double.parseFloat s in
        if Double.isNaN percent || Double.lt percent Double.zero
        then (this, Thrown TaxPercentageInvalid)
        else
          setTax_write
            {| qris := qris this; price := price this;
               taxAmount :=
                 Double.round
                   (Double.mul (Double.div percent (Double.of_Z 100))
                               (Double.of_number (price this))) |}
            tax
      else (this, Thrown TaxFormatInvalid)
  end.

(** Lines 79-81; [fuel] bounds the turns of each parse. *)
Definition getMetadata (fuel : nat) (this : t) : option QrisMetadata :=
  extractMetadata fuel (qris this).

(** Lines 142-144. *)
Definition toString (this : t) : string := qris this.

(** Lines 156-162, for a string argument: the empty string is the only
    one that [!staticQris] refuses. *)
Definition fromString (staticQris : string) : outcome t :=
  if String.eqb staticQris EmptyString then Thrown QrisInputInvalid
  else Returned (new staticQris).

(** A chained call [a.m(...)], [a] being the result of a call: it is
    not made when that call has thrown. *)
Definition chain (r : t * outcome unit) (m : t -> t * outcome unit) : t * outcome unit :=
  match r with
  | (this, Returned _) => m this
  | (this, Thrown e) => (this, Thrown e)
  end.

End DynamicQris.

(** ** Auxiliary definitions of the proofs *)

(** The inner-loop turn on a 16-bit register, without the 32-bit
    wrappers. *)
Definition crc_shift (x : Z) : Z :=
  Z.land (if Z.testbit x 15 then Z.lxor (Z.shiftl x 1) 0x1021 else Z.shiftl x 1)
         (Z.ones 16).

(** A message bit placed at the top of the 16-bit register. *)
Definition bit_at_15 (b : bool) : Z := if b then 2 ^ 15 else 0.

(** The number of positions of [s] at which [p] occurs. *)
Fixpoint count_occurrences (p s : string) : nat :=
  ((if JS.startsWith p s then 1 else 0)
   + match s with
     | EmptyString => 0
     | String _ rest => count_occurrences p rest
     end)%nat.

(** Two characters that line 86 cannot tell apart: equal, or both among
    the digits 1 and 2 (which line 19 exchanges). *)
Definition same_class (a b : ascii) : bool :=
  Ascii.eqb a b
  || ((Ascii.eqb a "1" || Ascii.eqb a "2") && (Ascii.eqb b "1" || Ascii.eqb b "2")).

Fixpoint similar (s t : string) : bool :=
  match s, t with
  | EmptyString, EmptyString => true
  | String a s', String b t' => same_class a b && similar s' t'
  | _, _ => false
  end.

(** A TLV field as the data model has it: the tag, the length of the
    value in two decimal digits, the value. *)
Definition tlv_field (tag value : string) : string :=
  tag +:+ length_prefix value +:+ value.

(** The two-digit rendering of a length, as [length_prefix] computes it. *)
Definition two_digits (n : nat) : string :=
  JS.padStart (JS.nat_toString n) 2 "0".

(** [f] holds of the [n] integers from [z] on. *)
Fixpoint all_from (n : nat) (z : Z) (f : Z -> bool) : bool :=
  match n with
  | O => true
  | S n' => f z && all_from n' (z + 1) f
  end.

(** Every character of [s] is a decimal digit. *)
Fixpoint all_digits (s : string) : bool :=
  match s with
  | EmptyString => true
  | String c rest => JS.is_digit c && all_digits rest
  end.

(** A sequence of fields written one after the other. *)
Fixpoint serialize (fields : list (string * string)) : string :=
  match fields with
  | [] => EmptyString
  | (tag, value) :: rest => tlv_field tag value +:+ serialize rest
  end.

(** The record after the fields have been stored in order. *)
Definition store_fields (fields : list (string * string)) (result : gmap string string)
  : gmap string string :=
  fold_left (fun r f => <[fst f := snd f]> r) fields result.

(** A field the format can hold: a tag of two characters and a value
    shorter than 100. *)
Definition field_ok (f : string * string) : Prop :=
  String.length (fst f) = 2%nat /\ (String.length (snd f) < 100)%nat.

(** ** Auxiliary definitions of the further properties *)

(** The turn of [crc_shift] undone: the bit that left the register at
    the top is the bit 0 of the result. *)
Definition crc_unshift (y : Z) : Z :=
  if Z.testbit y 0
  then Z.lor (Z.shiftr (Z.lxor y 0x1021) 1) 0x8000
  else Z.shiftr y 1.

(** The value of an uppercase hexadecimal digit. *)
Definition hex_digit_value (c : ascii) : option Z :=
  let n := charCode c in
  if (48 <=? n) && (n <=? 57) then Some (n - 48)
  else if (65 <=? n) && (n <=? 70) then Some (n - 55)
  else None.

Fixpoint hex_value_from (s : string) (acc : Z) : option Z :=
  match s with
  | EmptyString => Some acc
  | String c rest =>
      match hex_digit_value c with
      | Some d => hex_value_from rest (16 * acc + d)
      | None => None
      end
  end.

(** The number that a text of uppercase hexadecimal digits writes;
    [None] for the empty text and for a text with another character. *)
Definition hex_value (s : string) : option Z :=
  match s with
  | EmptyString => None
  | _ => hex_value_from s 0
  end.

(** The value of the last field of [fields] that bears the tag [t]. *)
Fixpoint last_value (t : string) (fields : list (string * string)) : option string :=
  match fields with
  | [] => None
  | (t', v) :: rest =>
      match last_value t rest with
      | Some v' => Some v'
      | None => if String.eqb t' t then Some v else None
      end
  end.

(** No character of [s] is the minus sign. *)
Fixpoint no_minus (s : string) : bool :=
  match s with
  | EmptyString => true
  | String c rest => negb (Ascii.eqb c "-") && no_minus rest
  end.

(** A character that cannot begin what [parseFloat] reads: no white
    space, no sign, no digit, no dot, and not the I of Infinity. *)
Definition cannot_start_number (c : ascii) : bool :=
  negb (JS.is_whitespace c || JS.is_digit c || Ascii.eqb c "+" || Ascii.eqb c "-"
        || Ascii.eqb c "." || Ascii.eqb c "I").

(** What the extractor reports of [sample_static]. *)
Definition sample_static_metadata : QrisMetadata :=
  {| merchant := "MERCHANT NATIONAL"; company := "COM.EXAMPLE.WWW";
     region := "JAKARTA SEL"; country := "ID"; postal_code := "12150";
     merchant_pan := "936009143123456789"; price := None; tax := None |}.

(** The two fields that open a payload: the format indicator, and the
    point of initiation [poi] (11 for a static payload, 12 for a
    dynamic one). *)
Definition header (poi : string) : list (string * string) :=
  [("00", "01"); ("01", poi)].

(** The body of a payload made of fields: the header, the fields
    [before] the country code, the country code, the fields [after] it,
    and the tag and length of the checksum, which follows the body. *)
Definition body_of (poi : string) (before after : list (string * string)) : string :=
  serialize (header poi ++ before) +:+ "5802ID" +:+ serialize after +:+ "6304".

(** The fields of such a body, the country code among them. *)
Definition all_fields (poi : string) (before after : list (string * string))
  : list (string * string) :=
  header poi ++ before ++ [("58", "ID")] ++ after.

(** [v || null] *)
Definition or_null (v : option string) : option string :=
  match v with
  | Some v => if String.eqb v EmptyString then None else Some v
  | None => None
  end.

(** A report with another price and another tax. *)
Definition set_price_tax (md : QrisMetadata) (p t : option string) : QrisMetadata :=
  {| merchant := merchant md; company := company md; region := region md;
     country := country md; postal_code := postal_code md;
     merchant_pan := merchant_pan md; price := p; tax := t |}.

(** The fields of [sample_static] between the header and the country
    code. *)
Definition sample_fields_middle : list (string * string) :=
  [("26", "0015COM.EXAMPLE.WWW01189360091431234567890210G1234567890303UMI");
   ("51", "0014ID.CO.QRIS.WWW0215ID10200123456780303UMI");
   ("52", "5812"); ("53", "360")].

(** [v || d] *)
Definition or_else (v : option string) (d : string) : string :=
  match v with
  | Some v => if String.eqb v EmptyString then d else v
  | None => d
  end.


(** * Proofs *)

(** Split a conjunction into its parts, and nothing else. *)
Ltac split_all := repeat match goal with |- _ /\ _ => split end.

(** A check made on a range of integers holds of each of them. *)
Lemma all_from_spec n z f :
  all_from n z f = true -> forall k, z <= k < z + Z.of_nat n -> f k = true.
Proof.
  revert z. induction n as [|n IH]; intros z H k Hk; [lia|].
  cbn [all_from] in H. apply andb_prop in H as [H1 H2].
  destruct (Z.eq_dec k z) as [->|Hne]; [exact H1|].
  apply (IH (z + 1) H2). lia.
Qed.

(** ** The 32-bit operators on small values *)

Lemma ToInt32_small z : 0 <= z < 2 ^ 31 -> Int32.ToInt32 z = z.
Proof.
  intros H. unfold Int32.ToInt32.
  rewrite Z.mod_small by lia.
  destruct (Z.leb_spec (2 ^ 31) z); lia.
Qed.

Lemma charCode_range c : 0 <= charCode c < 256.
Proof.
  unfold charCode. pose proof (N_ascii_bounded c) as H.
  lia.
Qed.

Lemma land_ones_range a n : 0 <= n -> 0 <= Z.land a (Z.ones n) < 2 ^ n.
Proof.
  intros Hn. rewrite Z.land_ones by assumption.
  apply Z.mod_pos_bound. apply Z.pow_pos_nonneg; lia.
Qed.

Lemma lxor_range a b n : 0 < n -> 0 <= a < 2 ^ n -> 0 <= b < 2 ^ n -> 0 <= Z.lxor a b < 2 ^ n.
Proof.
  intros Hn [Ha1 Ha2] [Hb1 Hb2].
  assert (H0 : 0 <= Z.lxor a b) by (apply Z.lxor_nonneg; lia).
  split; [assumption|].
  destruct (Z.eq_dec (Z.lxor a b) 0) as [->|Hne]; [apply Z.pow_pos_nonneg; lia|].
  apply Z.log2_lt_pow2; [lia|].
  eapply Z.le_lt_trans; [apply Z.log2_lxor; assumption|].
  apply Z.max_lub_lt.
  - destruct (Z.eq_dec a 0) as [->|]; [simpl; lia|apply Z.log2_lt_pow2; lia].
  - destruct (Z.eq_dec b 0) as [->|]; [simpl; lia|apply Z.log2_lt_pow2; lia].
Qed.

Lemma crc_shift_range x : 0 <= crc_shift x < 2 ^ 16.
Proof. unfold crc_shift. apply land_ones_range. lia. Qed.

Lemma land_0x8000 x : 0 <= x -> Z.land x 0x8000 = if Z.testbit x 15 then 0x8000 else 0.
Proof.
  intros Hx. change 0x8000 with (2 ^ 15) at 1.
  apply Z.bits_inj'. intros n Hn.
  rewrite Z.land_spec, Z.pow2_bits_eqb by lia.
  destruct (Z.eqb_spec 15 n) as [<-|Hne].
  - rewrite andb_true_r. destruct (Z.testbit x 15); reflexivity.
  - rewrite andb_false_r. destruct (Z.testbit x 15).
    + change 0x8000 with (2 ^ 15). rewrite Z.pow2_bits_eqb by lia.
      symmetry. apply Z.eqb_neq. assumption.
    + rewrite Z.bits_0. reflexivity.
Qed.

(** On a 16-bit register the loop body never leaves the 32-bit range. *)
Lemma crc_bit_shift x : 0 <= x < 2 ^ 16 -> crc_bit x = crc_shift x.
Proof.
  intros Hx. unfold crc_bit, crc_shift, Int32.and, Int32.xor, Int32.shl.
  change (Z.land 1 31) with 1.
  rewrite (ToInt32_small x) by lia.
  rewrite (ToInt32_small 0x8000) by lia.
  rewrite (ToInt32_small 0x1021) by lia.
  rewrite (ToInt32_small 0xffff) by lia.
  assert (Hs : 0 <= Z.shiftl x 1 < 2 ^ 17).
  { rewrite Z.shiftl_mul_pow2 by lia. lia. }
  rewrite !(ToInt32_small (Z.shiftl x 1)) by lia.
  assert (Hl : 0 <= Z.lxor (Z.shiftl x 1) 0x1021 < 2 ^ 17).
  { apply lxor_range; lia. }
  rewrite land_0x8000 by lia.
  change 0xffff with (Z.ones 16).
  destruct (Z.testbit x 15).
  - rewrite (ToInt32_small 0x8000) by lia. change (negb (0x8000 =? 0)) with true. cbv iota.
    repeat rewrite (ToInt32_small (Z.lxor (Z.shiftl x 1) 0x1021)) by lia.
    apply ToInt32_small. pose proof (land_ones_range (Z.lxor (Z.shiftl x 1) 0x1021) 16). lia.
  - rewrite (ToInt32_small 0) by lia. change (negb (0 =? 0)) with false. cbv iota.
    repeat rewrite (ToInt32_small (Z.shiftl x 1)) by lia.
    apply ToInt32_small. pose proof (land_ones_range (Z.shiftl x 1) 16). lia.
Qed.

(** ** The inner loop is linear in the bits that lie below the top one *)

Ltac by_bits n Hn :=
  apply Z.bits_inj'; intros n Hn;
  repeat first
    [ rewrite Z.land_spec | rewrite Z.lxor_spec
    | rewrite Z.shiftl_spec by lia
    | rewrite Z.testbit_ones_nonneg by lia ].

Lemma testbit_above a k n : 0 <= a < 2 ^ k -> k <= n -> Z.testbit a n = false.
Proof.
  intros [Ha1 Ha2] Hk.
  destruct (Z.eq_dec a 0) as [->|Hne]; [apply Z.bits_0|].
  apply Z.bits_above_log2; [assumption|].
  assert (0 <= k).
  { destruct (Z.le_gt_cases 0 k); [assumption|]. rewrite Z.pow_neg_r in Ha2; lia. }
  assert (Z.log2 a < k) by (apply Z.log2_lt_pow2; lia). lia.
Qed.

Lemma crc_shift_lxor a low :
  0 <= low < 2 ^ 15 ->
  crc_shift (Z.lxor a low) = Z.lxor (crc_shift a) (Z.shiftl low 1).
Proof.
  intros Hlow. unfold crc_shift.
  rewrite Z.lxor_spec, (testbit_above low 15 15), xorb_false_r by lia.
  destruct (Z.testbit a 15); by_bits n Hn.
  - destruct (Z.ltb_spec n 16).
    + rewrite !andb_true_r.
      destruct (Z.testbit a (n - 1)), (Z.testbit low (n - 1)), (Z.testbit 0x1021 n);
        reflexivity.
    + rewrite !andb_false_r. rewrite (testbit_above low 15 (n - 1)) by lia.
      reflexivity.
  - destruct (Z.ltb_spec n 16).
    + rewrite !andb_true_r. reflexivity.
    + rewrite !andb_false_r. rewrite (testbit_above low 15 (n - 1)) by lia.
      reflexivity.
Qed.

Lemma testbit_bit_at_15 b n : Z.testbit (bit_at_15 b) n = b && (n =? 15).
Proof.
  destruct b; unfold bit_at_15.
  - destruct (Z.le_gt_cases 0 n).
    + rewrite Z.pow2_bits_eqb by lia. rewrite Z.eqb_sym. reflexivity.
    + rewrite Z.testbit_neg_r by lia. symmetry. apply Z.eqb_neq. lia.
  - apply Z.bits_0.
Qed.

(** Feeding one message bit is the loop body applied to the register
    with the bit XORed into its top position. *)
Lemma feed_bit_shift reg b :
  0 <= reg < 2 ^ 16 ->
  CRCModel.feed_bit CRCModel.CCITT_FALSE reg b = crc_shift (Z.lxor reg (bit_at_15 b)).
Proof.
  intros Hreg. unfold CRCModel.feed_bit, crc_shift, CRCModel.CCITT_FALSE.
  cbn [CRCModel.width CRCModel.poly].
  change (16 - 1) with 15.
  rewrite Z.lxor_spec, testbit_bit_at_15. change (15 =? 15) with true.
  rewrite andb_true_r.
  replace ((2 * reg) mod 2 ^ 16) with (Z.land (Z.shiftl reg 1) (Z.ones 16)).
  2:{ rewrite Z.land_ones, Z.shiftl_mul_pow2 by lia. f_equal. lia. }
  destruct (xorb (Z.testbit reg 15) b); by_bits n Hn.
  - rewrite testbit_bit_at_15.
    destruct (Z.ltb_spec n 16).
    + rewrite !andb_true_r.
      replace (n - 1 =? 15) with false by (symmetry; apply Z.eqb_neq; lia).
      rewrite andb_false_r, xorb_false_r.
      reflexivity.
    + rewrite !andb_false_r. simpl.
      apply (testbit_above _ 16); lia.
  - rewrite testbit_bit_at_15.
    destruct (Z.ltb_spec n 16).
    + rewrite !andb_true_r.
      replace (n - 1 =? 15) with false by (symmetry; apply Z.eqb_neq; lia).
      rewrite andb_false_r, xorb_false_r. reflexivity.
    + rewrite !andb_false_r. reflexivity.
Qed.

Lemma feed_bit_range reg b :
  0 <= reg < 2 ^ 16 -> 0 <= CRCModel.feed_bit CRCModel.CCITT_FALSE reg b < 2 ^ 16.
Proof. intros H. rewrite feed_bit_shift by assumption. apply crc_shift_range. Qed.

(** ** A whole character: XOR into the high byte, then eight turns *)

Lemma shift_split byte n :
  0 <= n <= 15 ->
  Z.shiftl (byte mod 2 ^ (n + 1)) (15 - n)
  = Z.lxor (bit_at_15 (Z.testbit byte n)) (Z.shiftl (byte mod 2 ^ n) (15 - n)).
Proof.
  intros Hn. apply Z.bits_inj'. intros i Hi.
  rewrite Z.lxor_spec, testbit_bit_at_15, !Z.shiftl_spec by lia.
  rewrite !Z.testbit_mod_pow2 by lia.
  destruct (Z.eqb_spec i 15) as [->|Hne].
  - replace (15 - (15 - n)) with n by lia.
    replace (n <? n + 1) with true by (symmetry; apply Z.ltb_lt; lia).
    replace (n <? n) with false by (symmetry; apply Z.ltb_ge; lia).
    simpl. rewrite andb_true_r, xorb_false_r. reflexivity.
  - rewrite andb_false_r, xorb_false_l.
    destruct (Z.ltb_spec (i - (15 - n)) n).
    + replace (i - (15 - n) <? n + 1) with true by (symmetry; apply Z.ltb_lt; lia).
      reflexivity.
    + replace (i - (15 - n) <? n + 1) with false by (symmetry; apply Z.ltb_ge; lia).
      reflexivity.
Qed.

Lemma iter_crc_shift_range n x : 0 <= x < 2 ^ 16 -> 0 <= Nat.iter n crc_shift x < 2 ^ 16.
Proof.
  intros Hx. destruct n as [|n]; [exact Hx|]. rewrite Nat.iter_succ. apply crc_shift_range.
Qed.

Lemma feed_bits_shift n byte reg :
  (n <= 8)%nat -> 0 <= reg < 2 ^ 16 ->
  CRCModel.feed_bits CRCModel.CCITT_FALSE n byte reg
  = Nat.iter n crc_shift
      (Z.lxor reg (Z.shiftl (byte mod 2 ^ Z.of_nat n) (16 - Z.of_nat n))).
Proof.
  revert reg. induction n as [|n IH]; intros reg Hn Hreg.
  - cbn [CRCModel.feed_bits Z.of_nat]. change (Nat.iter 0 crc_shift) with (fun x : Z => x). cbv beta. change (2 ^ 0) with 1. rewrite Z.mod_1_r. rewrite Z.shiftl_0_l, Z.lxor_0_r. reflexivity.
  - cbn [CRCModel.feed_bits]. rewrite IH by (try apply feed_bit_range; auto; lia).
    rewrite Nat.iter_succ_r. f_equal.
    replace (Z.of_nat (S n)) with (Z.of_nat n + 1) by lia.
    replace (16 - (Z.of_nat n + 1)) with (15 - Z.of_nat n) by lia.
    rewrite shift_split by lia.
    rewrite <- Z.lxor_assoc.
    rewrite crc_shift_lxor.
    + rewrite <- feed_bit_shift by assumption.
      rewrite Z.shiftl_shiftl by lia.
      replace (15 - Z.of_nat n + 1) with (16 - Z.of_nat n) by lia.
      reflexivity.
    + split.
      * apply Z.shiftl_nonneg. apply Z.mod_pos_bound. apply Z.pow_pos_nonneg; lia.
      * rewrite Z.shiftl_mul_pow2 by lia.
        assert (Hm : 0 <= byte mod 2 ^ Z.of_nat n < 2 ^ Z.of_nat n)
          by (apply Z.mod_pos_bound; apply Z.pow_pos_nonneg; lia).
        replace (2 ^ 15) with (2 ^ Z.of_nat n * 2 ^ (15 - Z.of_nat n))
          by (rewrite <- Z.pow_add_r by lia; f_equal; lia).
        apply Z.mul_lt_mono_pos_r; [apply Z.pow_pos_nonneg; lia|lia].
Qed.

Lemma iter_crc_bit_shift n x :
  0 <= x < 2 ^ 16 -> Nat.iter n crc_bit x = Nat.iter n crc_shift x.
Proof.
  intros Hx. induction n as [|n IH]; [reflexivity|].
  rewrite !Nat.iter_succ, IH. apply crc_bit_shift. apply iter_crc_shift_range. assumption.
Qed.

(** Lines 112-120 feed one byte to the reference register. *)
Lemma crc_char_feed_byte crc c :
  0 <= crc < 2 ^ 16 ->
  crc_char crc c = CRCModel.feed_byte CRCModel.CCITT_FALSE crc (charCode c).
Proof.
  intros Hcrc. pose proof (charCode_range c) as Hc.
  unfold crc_char, CRCModel.feed_byte. cbn [CRCModel.refin CRCModel.CCITT_FALSE].
  rewrite feed_bits_shift by (auto; lia).
  change (Z.of_nat 8) with 8. change (16 - 8) with 8.
  rewrite (Z.mod_small (charCode c)) by lia.
  assert (Hs : 0 <= Z.shiftl (charCode c) 8 < 2 ^ 16).
  { rewrite Z.shiftl_mul_pow2 by lia. lia. }
  unfold Int32.xor, Int32.shl. change (Z.land 8 31) with 8.
  rewrite (ToInt32_small (charCode c)) by lia.
  rewrite (ToInt32_small crc) by lia.
  repeat rewrite (ToInt32_small (Z.shiftl (charCode c) 8)) by lia.
  assert (Hx : 0 <= Z.lxor crc (Z.shiftl (charCode c) 8) < 2 ^ 16)
    by (apply lxor_range; lia).
  rewrite ToInt32_small by lia.
  apply iter_crc_bit_shift. assumption.
Qed.

Lemma feed_byte_range crc byte :
  0 <= crc < 2 ^ 16 ->
  0 <= CRCModel.feed_byte CRCModel.CCITT_FALSE crc byte < 2 ^ 16.
Proof.
  intros Hcrc. unfold CRCModel.feed_byte. cbn [CRCModel.refin CRCModel.CCITT_FALSE].
  rewrite feed_bits_shift by (auto; lia).
  apply (iter_crc_shift_range 8).
  apply lxor_range; [lia|assumption|].
  change (Z.of_nat 8) with 8. change (16 - 8) with 8.
  assert (Hm : 0 <= byte mod 2 ^ 8 < 2 ^ 8) by (apply Z.mod_pos_bound; lia).
  rewrite Z.shiftl_mul_pow2 by lia. lia.
Qed.

Lemma fold_string_cons {A : Type} (f : A -> ascii -> A) c rest acc :
  fold_string f (String c rest) acc = fold_string f rest (f acc c).
Proof. reflexivity. Qed.

Lemma crc_loop_nil crc : crc_loop EmptyString crc = crc.
Proof. reflexivity. Qed.

Lemma crc_loop_cons c rest crc :
  crc_loop (String c rest) crc = crc_loop rest (crc_char crc c).
Proof. exact (fold_string_cons crc_char c rest crc). Qed.

Lemma fold_left_cons_eq {A B : Type} (f : A -> B -> A) b l a :
  fold_left f (b :: l) a = fold_left f l (f a b).
Proof. reflexivity. Qed.

Lemma charCodes_cons c rest : charCodes (String c rest) = charCode c :: charCodes rest.
Proof. reflexivity. Qed.

Lemma crc_loop_fold str crc :
  0 <= crc < 2 ^ 16 ->
  crc_loop str crc
  = fold_left (CRCModel.feed_byte CRCModel.CCITT_FALSE) (charCodes str) crc.
Proof.
  revert crc. induction str as [|c rest IH]; intros crc Hcrc; [reflexivity|].
  rewrite crc_loop_cons, charCodes_cons, fold_left_cons_eq, crc_char_feed_byte by assumption.
  apply IH. apply feed_byte_range. assumption.
Qed.

Lemma crc_loop_range str crc : 0 <= crc < 2 ^ 16 -> 0 <= crc_loop str crc < 2 ^ 16.
Proof.
  revert crc. induction str as [|c rest IH]; intros crc Hcrc; [rewrite crc_loop_nil; exact Hcrc|].
  rewrite crc_loop_cons. apply IH. rewrite crc_char_feed_byte by assumption.
  apply feed_byte_range. assumption.
Qed.

(** The reference reproduces the check values of the catalogue for other
    parameters too (XMODEM, KERMIT, CRC-32), reflection included. *)
Lemma CRCModel_check_values :
  CRCModel.crc {| CRCModel.width := 16; CRCModel.poly := 0x1021; CRCModel.init := 0;
                  CRCModel.refin := false; CRCModel.refout := false;
                  CRCModel.xorout := 0 |} (charCodes "123456789") = 0x31C3
  /\ CRCModel.crc {| CRCModel.width := 16; CRCModel.poly := 0x1021; CRCModel.init := 0;
                     CRCModel.refin := true; CRCModel.refout := true;
                     CRCModel.xorout := 0 |} (charCodes "123456789") = 0x2189
  /\ CRCModel.crc {| CRCModel.width := 32; CRCModel.poly := 0x04C11DB7;
                     CRCModel.init := 0xFFFFFFFF;
                     CRCModel.refin := true; CRCModel.refout := true;
                     CRCModel.xorout := 0xFFFFFFFF |} (charCodes "123456789")
     = 0xCBF43926.
Proof. split_all; vm_compute; reflexivity. Qed.

(** Lines 122-124 lose nothing of the register: the text read as a
    hexadecimal numeral is the register again. *)
Lemma hex_value_crc_hex crc : 0 <= crc < 2 ^ 16 -> hex_value (crc_hex crc) = Some crc.
Proof.
  intros H.
  assert (Hall : all_from (Z.to_nat 65536) 0
                   (fun x => match hex_value (crc_hex x) with
                             | Some v => v =? x
                             | None => false
                             end) = true)
    by (vm_compute; reflexivity).
  assert (Hk : 0 <= crc < 0 + Z.of_nat (Z.to_nat 65536)) by lia.
  pose proof (all_from_spec _ _ _ Hall crc Hk) as Hc. cbv beta in Hc.
  destruct (hex_value (crc_hex crc)) as [v|]; [|discriminate Hc].
  f_equal. apply Z.eqb_eq. exact Hc.
Qed.

Lemma computeCRC16_reads_back_register str :
  hex_value (computeCRC16 str) = Some (crc_loop str 0xffff).
Proof.
  unfold computeCRC16. apply hex_value_crc_hex. apply crc_loop_range. lia.
Qed.

(** C1. [computeCRC16] is CRC-16/CCITT-FALSE (initial register 0xFFFF,
    polynomial 0x1021, no reflection, no final XOR) over the char codes
    of its input: the register at the end of the loop of lines 111-121
    is the CRC of the reference, and the text returned, read as a
    hexadecimal numeral, is that CRC.  The check value of the catalogue,
    for the input 123456789, is 0x29B1, returned as 29B1. *)
Theorem computeCRC16_is_CCITT_FALSE :
  (forall str : string,
     crc_loop str 0xffff = CRCModel.crc CRCModel.CCITT_FALSE (charCodes str))
  /\ (forall str : string,
        hex_value (computeCRC16 str)
        = Some (CRCModel.crc CRCModel.CCITT_FALSE (charCodes str)))
  /\ CRCModel.crc CRCModel.CCITT_FALSE (charCodes "123456789") = 0x29B1
  /\ computeCRC16 "123456789" = "29B1".
Proof.
  assert (Hreg : forall str : string,
             crc_loop str 0xffff
             = CRCModel.crc CRCModel.CCITT_FALSE (charCodes str)).
  { intros str. unfold CRCModel.crc.
    cbn [CRCModel.refout CRCModel.xorout CRCModel.init CRCModel.CCITT_FALSE].
    rewrite Z.lxor_0_r. apply crc_loop_fold. lia. }
  split; [exact Hreg|]. split; [|split; vm_compute; reflexivity].
  intros str. rewrite <- Hreg. apply computeCRC16_reads_back_register.
Qed.

(** ** Strings: [take], [drop], [startsWith], [indexOf] *)

Lemma append_nil_l s : EmptyString +:+ s = s.
Proof. reflexivity. Qed.

Lemma append_cons c a b : String c a +:+ b = String c (a +:+ b).
Proof. reflexivity. Qed.

(** Push [+:+] inside the leading characters. *)
Ltac norm_app := rewrite ?append_cons, ?append_nil_l.
Ltac norm_app_in H := rewrite ?append_cons, ?append_nil_l in H.

Lemma append_nil_r s : s +:+ EmptyString = s.
Proof. induction s as [|c s IH]; [reflexivity|]. norm_app. rewrite IH. reflexivity. Qed.

Lemma append_assoc a b c : (a +:+ b) +:+ c = a +:+ (b +:+ c).
Proof. induction a as [|x a IH]; [reflexivity|]. norm_app. rewrite IH. reflexivity. Qed.

Lemma length_append a b :
  String.length (a +:+ b) = (String.length a + String.length b)%nat.
Proof. induction a as [|x a IH]; [reflexivity|]. norm_app. cbn. rewrite IH. reflexivity. Qed.

Lemma take_drop n s : JS.take n s +:+ JS.drop n s = s.
Proof.
  revert s. induction n as [|n IH]; intros [|c s]; try reflexivity.
  cbn. norm_app. rewrite IH. reflexivity.
Qed.

Lemma length_take n s : String.length (JS.take n s) = Nat.min n (String.length s).
Proof.
  revert s. induction n as [|n IH]; intros [|c s]; try reflexivity.
  cbn. rewrite IH. reflexivity.
Qed.

Lemma take_append a b : JS.take (String.length a) (a +:+ b) = a.
Proof. induction a as [|x a IH]; [destruct b; reflexivity|]. norm_app. cbn. rewrite IH. reflexivity. Qed.

Lemma drop_append a b : JS.drop (String.length a) (a +:+ b) = b.
Proof. induction a as [|x a IH]; [destruct b; reflexivity|]. norm_app. cbn. exact IH. Qed.

Lemma drop_append_add a b n :
  JS.drop (String.length a + n) (a +:+ b) = JS.drop n b.
Proof. induction a as [|x a IH]; [reflexivity|]. norm_app. cbn. exact IH. Qed.

Lemma take_all s n : (String.length s <= n)%nat -> JS.take n s = s.
Proof.
  revert n. induction s as [|c s IH]; intros [|n] H; cbn in *; try reflexivity; try lia.
  rewrite IH by lia. reflexivity.
Qed.

Lemma take_append_le a b n :
  (n <= String.length a)%nat -> JS.take n (a +:+ b) = JS.take n a.
Proof.
  revert n. induction a as [|x a IH]; intros n H.
  - destruct n; [|cbn in H; lia]. destruct b; reflexivity.
  - destruct n as [|n]; [reflexivity|]. norm_app. cbn in *.
    rewrite IH by lia. reflexivity.
Qed.

Lemma startsWith_append p r : JS.startsWith p (p +:+ r) = true.
Proof.
  induction p as [|c p IH]; [reflexivity|]. norm_app. cbn. rewrite Ascii.eqb_refl. exact IH.
Qed.

Lemma startsWith_inv p s :
  JS.startsWith p s = true -> s = p +:+ JS.drop (String.length p) s.
Proof.
  revert s. induction p as [|c p IH]; intros s H.
  - destruct s; reflexivity.
  - destruct s as [|d s]; [discriminate|]. cbn in H.
    apply andb_prop in H as [H1 H2]. apply Ascii.eqb_eq in H1. subst d.
    norm_app. cbn. f_equal. apply IH. exact H2.
Qed.

Lemma startsWith_take p s :
  JS.startsWith p s = JS.startsWith p (JS.take (String.length p) s).
Proof.
  revert s. induction p as [|c p IH]; intros s; [reflexivity|].
  destruct s as [|d s]; [reflexivity|]. cbn. rewrite <- IH. reflexivity.
Qed.

Lemma indexOf_cons p c s :
  JS.indexOf p (String c s)
  = if JS.startsWith p (String c s) then Some O else option_map S (JS.indexOf p s).
Proof. reflexivity. Qed.

(** [indexOf] finds an occurrence, and the leftmost one. *)
Lemma indexOf_Some p s i :
  JS.indexOf p s = Some i ->
  s = JS.take i s +:+ p +:+ JS.drop (i + String.length p) s
  /\ (i + String.length p <= String.length s)%nat.
Proof.
  revert i. induction s as [|c s IH]; intros i H.
  - cbn in H. destruct (JS.startsWith p EmptyString) eqn:E; [|discriminate].
    injection H as <-. destruct p; [|discriminate]. split; reflexivity.
  - rewrite indexOf_cons in H. destruct (JS.startsWith p (String c s)) eqn:E.
    + injection H as <-. cbn [JS.take Nat.add]. split.
      * apply startsWith_inv in E. exact E.
      * apply startsWith_inv in E. rewrite E, length_append. lia.
    + destruct (JS.indexOf p s) as [j|] eqn:Ej; [|discriminate].
      injection H as <-. destruct (IH j eq_refl) as [H1 H2].
      cbn [JS.take JS.drop Nat.add String.length]. split; [|lia].
      norm_app. f_equal. exact H1.
Qed.

Lemma count_occurrences_cons p c s :
  count_occurrences p (String c s)
  = ((if JS.startsWith p (String c s) then 1 else 0) + count_occurrences p s)%nat.
Proof. reflexivity. Qed.

Lemma indexOf_None_count p s :
  JS.indexOf p s = None -> count_occurrences p s = O.
Proof.
  induction s as [|c s IH]; intros H.
  - cbn in *. destruct (JS.startsWith p EmptyString); [discriminate|reflexivity].
  - rewrite indexOf_cons in H. rewrite count_occurrences_cons.
    destruct (JS.startsWith p (String c s)); [discriminate|].
    destruct (JS.indexOf p s); [discriminate|]. rewrite IH by reflexivity. reflexivity.
Qed.

Lemma count_zero_indexOf p s :
  count_occurrences p s = O -> JS.indexOf p s = None.
Proof.
  induction s as [|c s IH]; intros H.
  - cbn in *. destruct (JS.startsWith p EmptyString); [discriminate|reflexivity].
  - rewrite indexOf_cons. rewrite count_occurrences_cons in H.
    destruct (JS.startsWith p (String c s)); [discriminate|].
    rewrite IH by exact H. reflexivity.
Qed.

(** ** The country-code anchor and the rewriting of tag 01 *)

(** Evaluate [startsWith] and [count_occurrences] on leading literal
    characters. *)
Ltac step_literal :=
  norm_app;
  repeat (rewrite ?count_occurrences_cons, ?indexOf_cons;
          cbn [JS.startsWith Ascii.eqb Bool.eqb andb]).

Lemma count_after_anchor r :
  count_occurrences "5802ID" ("5802ID" +:+ r) = S (count_occurrences "5802ID" r).
Proof. step_literal. reflexivity. Qed.

Lemma count_anchor_ge p0 p1 :
  (1 <= count_occurrences "5802ID" (p0 +:+ "5802ID" +:+ p1))%nat.
Proof.
  induction p0 as [|c p0 IH].
  - rewrite append_nil_l, count_after_anchor. lia.
  - rewrite append_cons, count_occurrences_cons. lia.
Qed.

(** With a single occurrence, [indexOf] finds it and nothing follows. *)
Lemma unique_anchor p0 p1 :
  count_occurrences "5802ID" (p0 +:+ "5802ID" +:+ p1) = 1%nat ->
  JS.indexOf "5802ID" (p0 +:+ "5802ID" +:+ p1) = Some (String.length p0)
  /\ count_occurrences "5802ID" p1 = O.
Proof.
  induction p0 as [|c p0 IH]; intros H.
  - rewrite append_nil_l in *. rewrite count_after_anchor in H.
    split; [|congruence]. step_literal. reflexivity.
  - rewrite (append_cons c p0) in *. rewrite count_occurrences_cons in H.
    pose proof (count_anchor_ge p0 p1) as Hge.
    rewrite indexOf_cons.
    destruct (JS.startsWith "5802ID" (String c (p0 +:+ "5802ID" +:+ p1)));
      cbv iota in H; [lia|].
    destruct IH as [IH1 IH2]; [lia|]. rewrite IH1. split; [reflexivity|exact IH2].
Qed.

Lemma count_one_decompose s :
  count_occurrences "5802ID" s = 1%nat ->
  exists p0 p1, s = p0 +:+ "5802ID" +:+ p1.
Proof.
  intros H. destruct (JS.indexOf "5802ID" s) as [i|] eqn:E.
  - apply indexOf_Some in E as [E _]. eauto.
  - apply indexOf_None_count in E. lia.
Qed.

(** [split] on a string with a single anchor gives the two sides. *)
Lemma split_unique p0 p1 :
  count_occurrences "5802ID" (p0 +:+ "5802ID" +:+ p1) = 1%nat ->
  JS.split (p0 +:+ "5802ID" +:+ p1) "5802ID" = [p0; p1].
Proof.
  intros H. destruct (unique_anchor p0 p1 H) as [Hi Hc].
  unfold JS.split.
  rewrite !length_append. change (String.length "5802ID") with 6%nat.
  replace (String.length p0 + (6 + String.length p1))%nat
    with (S (String.length p0 + (5 + String.length p1)))%nat by lia.
  cbn [JS.split_fuel]. rewrite Hi.
  rewrite take_append.
  change (String.length "5802ID") with 6%nat.
  rewrite drop_append_add.
  change 6%nat with (String.length "5802ID" + 0)%nat.
  rewrite drop_append_add. cbn [JS.drop].
  f_equal.
  apply count_zero_indexOf in Hc.
  destruct (String.length p0 + (5 + String.length p1))%nat; cbn [JS.split_fuel];
    [reflexivity|]. rewrite Hc. reflexivity.
Qed.

(** *** Line 19: the first run 010211 becomes 010212 *)

Lemma replace_tag01 s :
  JS.replace s "010211" "010212" = s
  \/ exists pre post,
       s = pre +:+ "010211" +:+ post
       /\ JS.replace s "010211" "010212" = pre +:+ "010212" +:+ post.
Proof.
  unfold JS.replace. destruct (JS.indexOf "010211" s) as [i|] eqn:E; [right|left; reflexivity].
  apply indexOf_Some in E as [E _].
  exists (JS.take i s), (JS.drop (i + String.length "010211") s).
  split; [exact E|]. reflexivity.
Qed.

Lemma take6_patch c pre post x y :
  JS.take 6 (String c (pre +:+ String "0" (String "1" (String "0" (String "2" (String "1" (String x post)))))))
  = JS.take 6 (String c (pre +:+ String "0" (String "1" (String "0" (String "2" (String "1" (String y post))))))).
Proof.
  destruct pre as [|a1 [|a2 [|a3 [|a4 [|a5 pre]]]]]; norm_app; reflexivity.
Qed.

Lemma startsWith_anchor_patch c pre post :
  JS.startsWith "5802ID" (String c (pre +:+ "010211" +:+ post))
  = JS.startsWith "5802ID" (String c (pre +:+ "010212" +:+ post)).
Proof.
  rewrite (startsWith_take "5802ID" (String c (pre +:+ "010211" +:+ post))).
  rewrite (startsWith_take "5802ID" (String c (pre +:+ "010212" +:+ post))).
  change (String.length "5802ID") with 6%nat.
  norm_app. rewrite (take6_patch c pre post "1" "2"). reflexivity.
Qed.

(** The rewriting neither creates nor destroys nor moves an anchor. *)
Lemma count_anchor_patch pre post :
  count_occurrences "5802ID" (pre +:+ "010211" +:+ post)
  = count_occurrences "5802ID" (pre +:+ "010212" +:+ post).
Proof.
  induction pre as [|c pre IH].
  - step_literal. reflexivity.
  - rewrite !(append_cons c pre), !count_occurrences_cons, IH.
    rewrite startsWith_anchor_patch. reflexivity.
Qed.

Lemma indexOf_anchor_patch pre post :
  JS.indexOf "5802ID" (pre +:+ "010211" +:+ post)
  = JS.indexOf "5802ID" (pre +:+ "010212" +:+ post).
Proof.
  induction pre as [|c pre IH].
  - step_literal. reflexivity.
  - rewrite !(append_cons c pre), !indexOf_cons, IH.
    rewrite startsWith_anchor_patch. reflexivity.
Qed.

Lemma count_anchor_replace s :
  count_occurrences "5802ID" (JS.replace s "010211" "010212")
  = count_occurrences "5802ID" s.
Proof.
  destruct (replace_tag01 s) as [->|(pre & post & Hs & ->)]; [reflexivity|].
  rewrite Hs. symmetry. apply count_anchor_patch.
Qed.

Lemma indexOf_anchor_replace s :
  JS.indexOf "5802ID" (JS.replace s "010211" "010212") = JS.indexOf "5802ID" s.
Proof.
  destruct (replace_tag01 s) as [->|(pre & post & Hs & ->)]; [reflexivity|].
  rewrite Hs. symmetry. apply indexOf_anchor_patch.
Qed.

(** ** [setPrice] *)

(** What [setPrice] returns once the anchor has been found: the amount
    field stands right before the anchor, the CRC of the whole at the
    end. *)
Lemma setPrice_shape payload price p0 p1 :
  JS.lt price (Num 0) = false ->
  JS.replace (JS.slice payload 0 (-4)) "010211" "010212" = p0 +:+ "5802ID" +:+ p1 ->
  count_occurrences "5802ID" (JS.slice payload 0 (-4)) = 1%nat ->
  setPrice payload price
  = Ok ((p0 +:+ ("54" +:+ length_prefix (JS.String_ price) +:+ JS.String_ price)
            +:+ "5802ID" +:+ p1)
        +:+ computeCRC16
              (p0 +:+ ("54" +:+ length_prefix (JS.String_ price) +:+ JS.String_ price)
                  +:+ "5802ID" +:+ p1)).
Proof.
  intros Hneg Hq Hc. unfold setPrice. rewrite Hneg.
  rewrite <- count_anchor_replace in Hc. rewrite Hq in *.
  rewrite (split_unique p0 p1 Hc).
  cbn [length Nat.eqb negb nth]. unfold priceTag. reflexivity.
Qed.

(** C8 (amended). [setPrice] has no check on the size of the amount:
    for every payload whose body holds the anchor once and every amount
    that is not negative, whatever its digit count, it returns a payload
    with the amount field before the anchor. *)
Theorem setPrice_no_size_check payload price :
  JS.lt price (Num 0) = false ->
  count_occurrences "5802ID" (JS.slice payload 0 (-4)) = 1%nat ->
  exists p0 p1,
    JS.replace (JS.slice payload 0 (-4)) "010211" "010212" = p0 +:+ "5802ID" +:+ p1
    /\ setPrice payload price
       = Ok ((p0 +:+ ("54" +:+ length_prefix (JS.String_ price) +:+ JS.String_ price)
                 +:+ "5802ID" +:+ p1)
             +:+ computeCRC16
                   (p0 +:+ ("54" +:+ length_prefix (JS.String_ price) +:+ JS.String_ price)
                       +:+ "5802ID" +:+ p1)).
Proof.
  intros Hneg Hc.
  destruct (count_one_decompose (JS.replace (JS.slice payload 0 (-4)) "010211" "010212"))
    as (p0 & p1 & Hq).
  { rewrite count_anchor_replace. exact Hc. }
  exists p0, p1. split; [exact Hq|]. apply setPrice_shape; assumption.
Qed.

Lemma setPrice_no_size_check_witness :
  exists p0 p1,
    JS.replace (JS.slice sample_static 0 (-4)) "010211" "010212" = p0 +:+ "5802ID" +:+ p1
    /\ setPrice sample_static (Num huge_amount)
       = Ok ((p0 +:+ ("54" +:+ length_prefix (JS.String_ (Num huge_amount))
                          +:+ JS.String_ (Num huge_amount))
                 +:+ "5802ID" +:+ p1)
             +:+ computeCRC16
                   (p0 +:+ ("54" +:+ length_prefix (JS.String_ (Num huge_amount))
                                +:+ JS.String_ (Num huge_amount))
                       +:+ "5802ID" +:+ p1)).
Proof.
  apply (setPrice_no_size_check sample_static (Num huge_amount)).
  - vm_compute. reflexivity.
  - vm_compute. reflexivity.
Defined.

(** C8 (counterexample). The double nearest to 10^100 is an amount of
    101 decimal digits; [setPrice] does not fail on it: the amount is
    written as 1e+100, a field of length 06. *)
Lemma setPrice_accepts_101_digits :
  0 <= huge_amount
  /\ JS.round_double huge_amount = huge_amount
  /\ (100 <= String.length (JS.decimal huge_amount))%nat
  /\ ~ (exists e, setPrice sample_static (Num huge_amount) = Throw e)
  /\ setPrice sample_static (Num huge_amount)
     = Ok "00020101021226620015COM.EXAMPLE.WWW01189360091431234567890210G1234567890303UMI51440014ID.CO.QRIS.WWW0215ID10200123456780303UMI52045812530336054061e+1005802ID5917MERCHANT NATIONAL6011JAKARTA SEL61051215062070703A016304D07A".
Proof.
  assert (H : setPrice sample_static (Num huge_amount)
     = Ok "00020101021226620015COM.EXAMPLE.WWW01189360091431234567890210G1234567890303UMI51440014ID.CO.QRIS.WWW0215ID10200123456780303UMI52045812530336054061e+1005802ID5917MERCHANT NATIONAL6011JAKARTA SEL61051215062070703A016304D07A")
    by (vm_compute; reflexivity).
  split; [vm_compute; discriminate|].
  split; [vm_compute; reflexivity|].
  split; [vm_compute; apply Nat.leb_le; reflexivity|].
  split; [|exact H].
  intros [e He]. rewrite H in He. discriminate.
Qed.

(** ** Line 86: the search for an amount field *)

Lemma match_amount_cons c s :
  match_amount (String c s)
  = match amount_at (String c s) with
    | Some m => Some m
    | None => match_amount s
    end.
Proof. reflexivity. Qed.

Lemma same_class_inv a b :
  same_class a b = true ->
  a = b \/ ((a = "1" \/ a = "2") /\ (b = "1" \/ b = "2"))%char.
Proof.
  unfold same_class. intros H. apply orb_prop in H as [H|H].
  - left. apply Ascii.eqb_eq. exact H.
  - right. apply andb_prop in H as [Ha Hb].
    apply orb_prop in Ha. apply orb_prop in Hb.
    split; [destruct Ha as [Ha|Ha]|destruct Hb as [Hb|Hb]];
      apply Ascii.eqb_eq in Ha || apply Ascii.eqb_eq in Hb; auto.
Qed.

Lemma same_class_digit a b : same_class a b = true -> JS.is_digit a = JS.is_digit b.
Proof.
  intros H. destruct (same_class_inv a b H) as [->|[[->| ->] [->| ->]]]; reflexivity.
Qed.

Lemma same_class_eqb a b c :
  same_class a b = true -> c <> "1"%char -> c <> "2"%char ->
  Ascii.eqb a c = Ascii.eqb b c.
Proof.
  intros H H1 H2.
  destruct (same_class_inv a b H) as [->|[[->| ->] [->| ->]]]; try reflexivity;
    repeat match goal with
           | |- context [Ascii.eqb ?x ?y] =>
               destruct (Ascii.eqb_spec x y); try congruence
           end.
Qed.

Lemma similar_refl s : similar s s = true.
Proof.
  induction s as [|c s IH]; [reflexivity|]. cbn [similar].
  unfold same_class. rewrite Ascii.eqb_refl, IH. reflexivity.
Qed.

Lemma similar_append a b c d :
  similar a b = true -> similar c d = true -> similar (a +:+ c) (b +:+ d) = true.
Proof.
  revert b. induction a as [|x a IH]; intros [|y b] Hab Hcd; try discriminate.
  - exact Hcd.
  - norm_app. cbn [similar] in *. apply andb_prop in Hab as [H1 H2].
    rewrite H1, (IH b H2 Hcd). reflexivity.
Qed.

Lemma similar_take n s t : similar s t = true -> similar (JS.take n s) (JS.take n t) = true.
Proof.
  revert s t. induction n as [|n IH]; intros [|a s] [|b t] H; try discriminate;
    try reflexivity.
  cbn [JS.take similar] in *. apply andb_prop in H as [H1 H2].
  rewrite H1, (IH s t H2). reflexivity.
Qed.

Lemma similar_patch pre post :
  similar (pre +:+ "010211" +:+ post) (pre +:+ "010212" +:+ post) = true.
Proof.
  apply similar_append; [apply similar_refl|].
  norm_app. cbn [similar]. rewrite similar_refl. reflexivity.
Qed.

Lemma similar_replace s : similar s (JS.replace s "010211" "010212") = true.
Proof.
  destruct (replace_tag01 s) as [->|(pre & post & Hs & ->)]; [apply similar_refl|].
  rewrite Hs at 1. apply similar_patch.
Qed.

Lemma similar_leading_digits s t :
  similar s t = true ->
  String.length (leading_digits s) = String.length (leading_digits t).
Proof.
  revert t. induction s as [|a s IH]; intros [|b t] H; try discriminate; [reflexivity|].
  cbn [similar] in H. apply andb_prop in H as [H1 H2].
  cbn [leading_digits]. rewrite (same_class_digit a b H1).
  destruct (JS.is_digit b); [|reflexivity]. cbn [String.length]. rewrite (IH t H2).
  reflexivity.
Qed.

Lemma similar_amount_at s t :
  similar s t = true -> amount_at s = None -> amount_at t = None.
Proof.
  intros H.
  destruct s as [|a1 [|a2 s]], t as [|b1 [|b2 t]]; cbn [similar] in H;
    rewrite ?andb_false_r in H; try discriminate; try reflexivity.
  apply andb_prop in H as [H1 H]. apply andb_prop in H as [H2 H3].
  unfold amount_at.
  rewrite (same_class_eqb a1 b1 "5" H1) by discriminate.
  rewrite (same_class_eqb a2 b2 "4" H2) by discriminate.
  rewrite (similar_leading_digits s t H3).
  destruct (Ascii.eqb b1 "5" && Ascii.eqb b2 "4"
            && (3 <=? String.length (leading_digits t))%nat);
    [discriminate|reflexivity].
Qed.

(** Exchanging digits 1 and 2 does not create a match. *)
Lemma similar_match_amount s t :
  similar s t = true -> match_amount s = None -> match_amount t = None.
Proof.
  revert t. induction s as [|a s IH]; intros [|b t] H Hs; try discriminate;
    [reflexivity|].
  rewrite match_amount_cons in *.
  destruct (amount_at (String a s)) eqn:E; [discriminate|].
  rewrite (similar_amount_at _ _ H E).
  cbn [similar] in H. apply andb_prop in H as [_ H]. apply IH; assumption.
Qed.

(** ** [setTax] without an amount field *)

(** X19. When the body holds the anchor once and the prefix before the
    anchor holds no run that line 86 matches, [setTax] returns no
    payload, and with a fee of a valid form it fails on the missing
    amount. *)
Lemma setTax_requires_amount payload tax p0 p1 :
  JS.slice payload 0 (-4) = p0 +:+ "5802ID" +:+ p1 ->
  count_occurrences "5802ID" (JS.slice payload 0 (-4)) = 1%nat ->
  match_amount p0 = None ->
  (forall out, setTax payload tax <> Ok out)
  /\ (forall tag, taxTag tax = Ok tag -> setTax payload tax = Throw MissingAmount).
Proof.
  intros Hb Hc Hm.
  assert (Hcq : count_occurrences "5802ID"
                  (JS.replace (JS.slice payload 0 (-4)) "010211" "010212") = 1%nat)
    by (rewrite count_anchor_replace; exact Hc).
  destruct (count_one_decompose _ Hcq) as (q0 & q1 & Hq).
  assert (Hi : String.length q0 = String.length p0).
  { pose proof (indexOf_anchor_replace (JS.slice payload 0 (-4))) as Hidx.
    rewrite Hq in Hcq. rewrite Hb in Hc.
    destruct (unique_anchor q0 q1 Hcq) as [Hiq _].
    destruct (unique_anchor p0 p1 Hc) as [Hip _].
    rewrite Hq, Hb, Hiq, Hip in Hidx. congruence. }
  assert (Hsim : similar p0 q0 = true).
  { pose proof (similar_replace (JS.slice payload 0 (-4))) as Hs.
    apply (similar_take (String.length p0)) in Hs.
    rewrite Hq in Hs. rewrite Hb in Hs at 1.
    rewrite take_append in Hs. rewrite <- Hi in Hs. rewrite take_append in Hs.
    exact Hs. }
  assert (Hmq : match_amount q0 = None) by (apply (similar_match_amount p0); assumption).
  assert (Hthrow : forall tag, taxTag tax = Ok tag -> setTax payload tax = Throw MissingAmount).
  { intros tag Ht. unfold setTax. rewrite Ht, Hq.
    rewrite Hq in Hcq. rewrite (split_unique q0 q1 Hcq).
    cbn [length Nat.eqb negb nth]. rewrite Hmq. reflexivity. }
  split; [|exact Hthrow].
  intros out Hout. destruct (taxTag tax) as [tag|e] eqn:Ht.
  - rewrite (Hthrow tag eq_refl) in Hout. discriminate.
  - unfold setTax in Hout. rewrite Ht in Hout. discriminate.
Qed.

(** So it is on the static sample. *)
Lemma setTax_requires_amount_sample :
  JS.slice sample_static 0 (-4)
  = "00020101021126620015COM.EXAMPLE.WWW01189360091431234567890210G1234567890303UMI51440014ID.CO.QRIS.WWW0215ID10200123456780303UMI520458125303360"
    +:+ "5802ID" +:+ "5917MERCHANT NATIONAL6011JAKARTA SEL61051215062070703A016304"
  /\ count_occurrences "5802ID" (JS.slice sample_static 0 (-4)) = 1%nat
  /\ match_amount "00020101021126620015COM.EXAMPLE.WWW01189360091431234567890210G1234567890303UMI51440014ID.CO.QRIS.WWW0215ID10200123456780303UMI520458125303360" = None
  /\ (forall out, setTax sample_static (TaxNumber (Num 5000)) <> Ok out)
  /\ (forall tag, taxTag (TaxNumber (Num 5000)) = Ok tag ->
                  setTax sample_static (TaxNumber (Num 5000)) = Throw MissingAmount).
Proof.
  split; [vm_compute; reflexivity|].
  split; [vm_compute; reflexivity|].
  split; [vm_compute; reflexivity|].
  apply (setTax_requires_amount sample_static (TaxNumber (Num 5000))
           "00020101021126620015COM.EXAMPLE.WWW01189360091431234567890210G1234567890303UMI51440014ID.CO.QRIS.WWW0215ID10200123456780303UMI520458125303360"
           "5917MERCHANT NATIONAL6011JAKARTA SEL61051215062070703A016304").
  - vm_compute. reflexivity.
  - vm_compute. reflexivity.
  - vm_compute. reflexivity.
Defined.

(** C7. [sample_pan54] is a static payload: it has no tag-54 field (the
    parser finds none at the root nor inside tags 26 and 51, and the
    extractor reports no amount), and its body holds the anchor once.
    Line 86 matches the digits 543212345670210 of the merchant account,
    and [setTax] returns a payload, with the fee field inside tag 26,
    instead of failing on the missing amount. *)
Theorem setTax_accepts_payload_without_amount :
  ((fun emv => (emv !! "54", emv !! "26", emv !! "51")) <$> parseEmv 20 sample_pan54)
  = Some (None,
          Some "0015COM.EXAMPLE.WWW01189360091543212345670210G1234567890303UMI",
          Some "0014ID.CO.QRIS.WWW0215ID10200123456780303UMI")
  /\ ((fun emv => emv !! "54")
       <$> parseEmv 20 "0015COM.EXAMPLE.WWW01189360091543212345670210G1234567890303UMI")
     = Some None
  /\ ((fun emv => emv !! "54")
       <$> parseEmv 20 "0014ID.CO.QRIS.WWW0215ID10200123456780303UMI")
     = Some None
  /\ (price <$> extractMetadata 20 sample_pan54) = Some None
  /\ count_occurrences "5802ID" (JS.slice sample_pan54 0 (-4)) = 1%nat
  /\ match_amount "00020101021226620015COM.EXAMPLE.WWW01189360091543212345670210G1234567890303UMI51440014ID.CO.QRIS.WWW0215ID10200123456780303UMI520458125303360"
     = Some "543212345670210"
  /\ setTax sample_pan54 (TaxNumber (Num 5000)) = Ok pan54_5000.
Proof. split_all; vm_compute; reflexivity. Qed.

(** ** The fee field written by [setTax] *)

Lemma two_digits_below_100 n :
  (n < 100)%nat ->
  String.length (two_digits n) = 2%nat
  /\ JS.parseInt (two_digits n) = Num (Z.of_nat n).
Proof.
  intros H.
  assert (Hall : forallb (fun k =>
            (String.length (two_digits k) =? 2)%nat
            && match JS.parseInt (two_digits k) with
               | Num z => z =? Z.of_nat k
               | NaN => false
               end) (seq 0 100) = true) by (vm_compute; reflexivity).
  rewrite forallb_forall in Hall.
  assert (Hin : In n (seq 0 100)) by (apply in_seq; lia).
  specialize (Hall n Hin). apply andb_prop in Hall as [H1 H2].
  split; [apply Nat.eqb_eq; exact H1|].
  destruct (JS.parseInt (two_digits n)); [|discriminate].
  apply Z.eqb_eq in H2. congruence.
Qed.

Lemma length_prefix_ge_2 v : (2 <= String.length (length_prefix v))%nat.
Proof.
  unfold length_prefix, JS.padStart.
  destruct (Nat.leb_spec 2 (String.length (JS.nat_toString (String.length v))));
    [assumption|].
  rewrite length_append.
  destruct (String.length (JS.nat_toString (String.length v))) as [|[|k]]; cbn; lia.
Qed.

(** ** The parser loop *)

Lemma parseEmv_loop_NaN fuel qris result :
  parseEmv_loop fuel qris NaN result = Some result.
Proof. destruct fuel; reflexivity. Qed.

Lemma parseEmv_loop_end fuel qris z result :
  Z.of_nat (String.length qris) <= z ->
  parseEmv_loop fuel qris (Num z) result = Some result.
Proof.
  intros H. destruct fuel; cbn [parseEmv_loop];
    destruct (Z.ltb_spec z (Z.of_nat (String.length qris))); try lia; reflexivity.
Qed.

Lemma parseEmv_loop_turn fuel qris z result :
  z < Z.of_nat (String.length qris) ->
  parseEmv_loop (S fuel) qris (Num z) result
  = parseEmv_loop fuel qris (fst (parseEmv_step qris z result))
                            (snd (parseEmv_step qris z result)).
Proof.
  intros H. cbn [parseEmv_loop].
  destruct (Z.ltb_spec z (Z.of_nat (String.length qris))); [|lia].
  destruct (parseEmv_step qris z result). reflexivity.
Qed.

Lemma length_substring_le s a b :
  (String.length (JS.substring s a b)
   <= Nat.max (JS.clamp (String.length s) a) (JS.clamp (String.length s) b)
      - Nat.min (JS.clamp (String.length s) a) (JS.clamp (String.length s) b))%nat.
Proof. unfold JS.substring. rewrite length_take. lia. Qed.

(** Of a slice of one character at most, [parseInt] makes [NaN] or a
    digit. *)
Lemma parseInt_short s :
  (String.length s <= 1)%nat ->
  JS.parseInt s = NaN \/ exists d, JS.parseInt s = Num d /\ 0 <= d.
Proof.
  intros H. destruct s as [|c [|c' s]]; [left; reflexivity| |cbn in H; lia].
  destruct (JS.parseInt (String c EmptyString)) as [d|] eqn:E; [right|left; reflexivity].
  exists d. split; [reflexivity|].
  revert E. destruct c as [[] [] [] [] [] [] [] []]; vm_compute; intros E;
    first [discriminate E | injection E as <-; discriminate].
Qed.

(** C5 (amended). The parser has no failure.  In each of the three
    malformed situations at a cursor [i] inside the input (fewer than 4
    characters left, a length slice that is no number, a declared length
    that passes the end) the loop records the field it reads, with a
    value cut at the end of the input (or, for a length that is no
    number, the text from the start of the input to [i + 4]), and
    returns the record. *)
Theorem parseEmv_malformed_returns qris i result fuel :
  0 <= i < Z.of_nat (String.length qris) ->
  Z.of_nat (String.length qris) < i + 4
  \/ JS.parseInt (JS.substring qris (Num (i + 2)) (Num (i + 4))) = NaN
  \/ (exists n, JS.parseInt (JS.substring qris (Num (i + 2)) (Num (i + 4))) = Num n
                /\ Z.of_nat (String.length qris) < i + 4 + n) ->
  parseEmv_loop (S fuel) qris (Num i) result
  = Some (<[JS.substring qris (Num i) (Num (i + 2)) :=
            JS.substring qris (Num (i + 4))
              (JS.add (Num (i + 4))
                 (JS.parseInt (JS.substring qris (Num (i + 2)) (Num (i + 4)))))]>
          result).
Proof.
  intros Hi Hbad. rewrite parseEmv_loop_turn by lia.
  unfold parseEmv_step. cbn [fst snd].
  assert (Hcases : JS.parseInt (JS.substring qris (Num (i + 2)) (Num (i + 4))) = NaN
          \/ exists n, JS.parseInt (JS.substring qris (Num (i + 2)) (Num (i + 4))) = Num n
                       /\ Z.of_nat (String.length qris) < i + 4 + n).
  { destruct Hbad as [Hshort|[Hnan|Hover]]; [|left; exact Hnan|right; exact Hover].
    destruct (parseInt_short (JS.substring qris (Num (i + 2)) (Num (i + 4))))
      as [Hn|(d & Hd & Hd0)].
    - pose proof (length_substring_le qris (Num (i + 2)) (Num (i + 4))) as Hl.
      unfold JS.clamp in Hl. lia.
    - left. exact Hn.
    - right. exists d. split; [exact Hd|lia]. }
  destruct Hcases as [Hn|(n & Hn & Hover)]; rewrite Hn; cbn [JS.add].
  - apply parseEmv_loop_NaN.
  - apply parseEmv_loop_end. lia.
Qed.

Lemma parseEmv_malformed_returns_witness :
  0 <= 0 < Z.of_nat (String.length "0005ab")
  /\ JS.parseInt (JS.substring "0005ab" (Num (0 + 2)) (Num (0 + 4))) = Num 5
  /\ Z.of_nat (String.length "0005ab") < 0 + 4 + 5
  /\ parseEmv_loop 1 "0005ab" (Num 0) ∅
     = Some (<[JS.substring "0005ab" (Num 0) (Num (0 + 2)) :=
               JS.substring "0005ab" (Num (0 + 4))
                 (JS.add (Num (0 + 4))
                    (JS.parseInt (JS.substring "0005ab" (Num (0 + 2)) (Num (0 + 4)))))]>
             ∅).
Proof.
  split; [vm_compute; split; [discriminate|reflexivity]|].
  split; [vm_compute; reflexivity|].
  split; [vm_compute; reflexivity|].
  apply (parseEmv_malformed_returns "0005ab" 0 ∅ 0).
  - vm_compute. split; [discriminate|reflexivity].
  - right. right. exists 5. split; vm_compute; reflexivity.
Defined.

(** C5 (counterexample). Three malformed inputs on which the parser
    returns a record instead of failing: two characters only; a length
    slice xx; a declared length of 5 with two characters left. *)
Lemma parseEmv_returns_on_malformed :
  parseEmv 1 "00" = Some {["00" := "00"]}
  /\ JS.parseInt "xx" = NaN
  /\ parseEmv 1 "00xx" = Some {["00" := "00xx"]}
  /\ JS.parseInt "05" = Num 5
  /\ parseEmv 1 "0005ab" = Some {["00" := "ab"]}.
Proof. split_all; vm_compute; reflexivity. Qed.

(** *** Where the loop ends, and where it does not *)

(** When no length slice reads as a number below -3, the cursor moves
    forward at every turn and the loop ends. *)
Lemma parseEmv_loop_terminates qris :
  (forall i n, 0 <= i < Z.of_nat (String.length qris) ->
               JS.parseInt (JS.substring qris (Num (i + 2)) (Num (i + 4))) = Num n ->
               -3 <= n) ->
  forall fuel i result,
    0 <= i ->
    Z.of_nat (String.length qris) - i <= Z.of_nat fuel ->
    exists m, parseEmv_loop fuel qris (Num i) result = Some m.
Proof.
  intros Hlen. induction fuel as [|fuel IH]; intros i result Hi Hfuel.
  - exists result. apply parseEmv_loop_end. lia.
  - destruct (Z.lt_ge_cases i (Z.of_nat (String.length qris))) as [Hlt|Hge].
    + rewrite parseEmv_loop_turn by lia. unfold parseEmv_step. cbn [fst snd].
      destruct (JS.parseInt (JS.substring qris (Num (i + 2)) (Num (i + 4))))
        as [n|] eqn:E; cbn [JS.add].
      * apply IH; specialize (Hlen i n (conj Hi Hlt) E); lia.
      * eexists. apply parseEmv_loop_NaN.
    + exists result. apply parseEmv_loop_end. lia.
Qed.

Lemma parseEmv_step_stuck result :
  parseEmv_step "00-4" 0 result = (Num 0, <["00" := "00-4"]> result).
Proof. reflexivity. Qed.

(** C10. The length slice -4 reads as the number -4: the cursor moves
    by 4 + (-4) = 0, and the loop of [parseEmv] turns for ever on the
    input 00-4, whatever the number of turns allowed. *)
Theorem parseEmv_does_not_terminate :
  JS.parseInt "-4" = Num (-4)
  /\ parseEmv_step "00-4" 0 ∅ = (Num 0, {["00" := "00-4"]})
  /\ (forall fuel, parseEmv fuel "00-4" = None)
  /\ ~ (exists m, parseEmv_returns "00-4" m).
Proof.
  assert (Hloop : forall fuel result, parseEmv_loop fuel "00-4" (Num 0) result = None).
  { induction fuel as [|fuel IH]; intros result; [reflexivity|].
    rewrite parseEmv_loop_turn by (vm_compute; reflexivity).
    rewrite parseEmv_step_stuck. cbn [fst snd]. apply IH. }
  split; [reflexivity|]. split; [reflexivity|]. split.
  - intros fuel. apply Hloop.
  - intros [m [fuel H]]. unfold parseEmv in H. rewrite Hloop in H. discriminate.
Qed.

(** ** The rendering of the register, lines 122-124 *)

(** The output has four characters exactly when the register is 0x100
    at least; below, it has two characters, or one. *)
Lemma crc_hex_length crc :
  0 <= crc < 2 ^ 16 ->
  String.length (crc_hex crc)
  = if crc <? 0x10 then 1%nat else if crc <? 0x100 then 2%nat else 4%nat.
Proof.
  intros H.
  assert (Hall : all_from (Z.to_nat 65536) 0 (fun k =>
            Nat.eqb (String.length (crc_hex k))
                    (if k <? 0x10 then 1%nat
                     else if k <? 0x100 then 2%nat else 4%nat)) = true)
    by (vm_compute; reflexivity).
  apply Nat.eqb_eq. apply (all_from_spec _ _ _ Hall). lia.
Qed.

(** C6. On the input 0E the register ends at 0xFB and [computeCRC16]
    returns the two characters FB; on HM it returns the single
    character 3; on the body that [setPrice] at 10000 makes of
    [sample_warung] it returns 6C.  Only a rendering of three characters
    is padded. *)
Theorem computeCRC16_short_output :
  crc_loop "0E" 0xffff = 0xFB
  /\ computeCRC16 "0E" = "FB"
  /\ String.length (computeCRC16 "0E") = 2%nat
  /\ computeCRC16 "HM" = "3"
  /\ computeCRC16 "00020101021226620015COM.EXAMPLE.WWW01189360091431234567890210G1234567890303UMI51440014ID.CO.QRIS.WWW0215ID10200123456780303UMI5204581253033605405100005802ID5908WARUNG 96011JAKARTA SEL61051215062070703A016304"
     = "6C"
  /\ String.length (computeCRC16 "HM") = 1%nat.
Proof. split_all; vm_compute; reflexivity. Qed.

(** ** [setPrice] at 10000 *)

Lemma slice_body a c :
  String.length c = 4%nat -> JS.slice (a +:+ c) 0 (-4) = a.
Proof.
  intros Hc. unfold JS.slice, JS.slice_index. rewrite length_append, Hc.
  change (0 <? 0) with false. change (-4 <? 0) with true. cbv iota.
  replace (Z.to_nat (Z.min 0 (Z.of_nat (String.length a + 4)))) with O by lia.
  replace (Z.to_nat (Z.max (Z.of_nat (String.length a + 4) + -4) 0) - 0)%nat
    with (String.length a) by lia.
  cbn [JS.drop]. apply take_append.
Qed.

Lemma slice_tail a c :
  String.length c = 4%nat ->
  JS.slice (a +:+ c) (-4) (Z.of_nat (String.length (a +:+ c))) = c.
Proof.
  intros Hc. unfold JS.slice, JS.slice_index. rewrite length_append, Hc.
  change (-4 <? 0) with true. cbv iota.
  destruct (Z.ltb_spec (Z.of_nat (String.length a + 4)) 0); [lia|].
  replace (Z.to_nat (Z.max (Z.of_nat (String.length a + 4) + -4) 0))
    with (String.length a) by lia.
  replace (Z.to_nat (Z.min (Z.of_nat (String.length a + 4))
                           (Z.of_nat (String.length a + 4))) - String.length a)%nat
    with 4%nat by lia.
  rewrite drop_append. apply take_all. lia.
Qed.

(** What [setPrice] at 10000 does on every payload whose body holds the
    run 010211 and the anchor once: the first 010211 becomes 010212, the
    field 540510000 stands right before the anchor, and the CRC of the
    new body is appended; when the register is 0x100 at least the last
    four characters are that CRC. *)
Lemma setPrice_10000_static payload :
  JS.indexOf "010211" (JS.slice payload 0 (-4)) <> None ->
  count_occurrences "5802ID" (JS.slice payload 0 (-4)) = 1%nat ->
  exists pre post p0 p1,
    JS.slice payload 0 (-4) = pre +:+ "010211" +:+ post
    /\ pre +:+ "010212" +:+ post = p0 +:+ "5802ID" +:+ p1
    /\ setPrice payload (Num 10000)
       = Ok ((p0 +:+ "540510000" +:+ "5802ID" +:+ p1)
             +:+ computeCRC16 (p0 +:+ "540510000" +:+ "5802ID" +:+ p1))
    /\ (0x100 <= crc_loop (p0 +:+ "540510000" +:+ "5802ID" +:+ p1) 0xffff ->
        forall out, setPrice payload (Num 10000) = Ok out ->
                    JS.slice out (-4) (Z.of_nat (String.length out))
                    = computeCRC16 (JS.slice out 0 (-4))).
Proof.
  intros Hrun Hc.
  destruct (JS.indexOf "010211" (JS.slice payload 0 (-4))) as [i|] eqn:Ei; [|congruence].
  pose proof (indexOf_Some _ _ _ Ei) as [Hb _].
  set (pre := JS.take i (JS.slice payload 0 (-4))) in *.
  set (post := JS.drop (i + String.length "010211") (JS.slice payload 0 (-4))) in *.
  assert (Hr : JS.replace (JS.slice payload 0 (-4)) "010211" "010212"
               = pre +:+ "010212" +:+ post).
  { unfold JS.replace. rewrite Ei. reflexivity. }
  destruct (count_one_decompose (JS.replace (JS.slice payload 0 (-4)) "010211" "010212"))
    as (p0 & p1 & Hq).
  { rewrite count_anchor_replace. exact Hc. }
  pose proof (setPrice_shape payload (Num 10000) p0 p1 eq_refl Hq Hc) as Hout.
  exists pre, post, p0, p1.
  split; [exact Hb|]. split; [rewrite <- Hr; exact Hq|].
  assert (Hout' : setPrice payload (Num 10000)
       = Ok ((p0 +:+ "540510000" +:+ "5802ID" +:+ p1)
             +:+ computeCRC16 (p0 +:+ "540510000" +:+ "5802ID" +:+ p1)))
    by exact Hout.
  split; [exact Hout'|].
  intros Hwide out Ho. rewrite Hout' in Ho. injection Ho as <-.
  assert (Hlen : String.length (computeCRC16 (p0 +:+ "540510000" +:+ "5802ID" +:+ p1)) = 4%nat).
  { unfold computeCRC16. rewrite crc_hex_length by (apply crc_loop_range; lia).
    destruct (Z.ltb_spec (crc_loop (p0 +:+ "540510000" +:+ "5802ID" +:+ p1) 0xffff) 0x10);
      [lia|].
    destruct (Z.ltb_spec (crc_loop (p0 +:+ "540510000" +:+ "5802ID" +:+ p1) 0xffff) 0x100);
      [lia|reflexivity]. }
  rewrite (slice_tail _ _ Hlen), (slice_body _ _ Hlen). reflexivity.
Qed.

(** C2. For the static payload [sample_warung] (tag 01 is 11, one
    anchor) [setPrice] at 10000 writes 010212 and 540510000 before the
    anchor, but the register of the new body is 0x6C and only the two
    characters 6C are appended: the last four characters, 046C, are not
    the CRC of what precedes them, which is 4A09. *)
Theorem setPrice_short_checksum :
  JS.indexOf "010211" (JS.slice sample_warung 0 (-4)) = Some 6%nat
  /\ count_occurrences "5802ID" (JS.slice sample_warung 0 (-4)) = 1%nat
  /\ setPrice sample_warung (Num 10000) = Ok warung_10000
  /\ JS.slice warung_10000 (-4) (Z.of_nat (String.length warung_10000)) = "046C"
  /\ computeCRC16 (JS.slice warung_10000 0 (-4)) = "4A09".
Proof. split_all; vm_compute; reflexivity. Qed.

(** ** [setPrice], [setTax], then [extractMetadata] *)

(** C3. After [setPrice] at 50000 and [setTax] at 5000 on
    [sample_static], the extractor reads the amount back as 50000, but
    its tax field is 02, the value of tag 55, and not 5000, which sits
    in tag 56; with the fee 10% it is 03. *)
Theorem extractMetadata_tax_is_indicator :
  setPriceThenTax sample_static (Num 50000) (TaxNumber (Num 5000))
  = Ok static_50000_5000
  /\ (price <$> extractMetadata 20 static_50000_5000) = Some (Some "50000")
  /\ (tax <$> extractMetadata 20 static_50000_5000) = Some (Some "02")
  /\ ((fun emv => emv !! "56") <$> parseEmv 20 static_50000_5000) = Some (Some "5000")
  /\ (match setPriceThenTax sample_static (Num 50000) (TaxString "10%") with
      | Ok out => tax <$> extractMetadata 20 out
      | Throw _ => None
      end)
     = Some (Some "03").
Proof. split_all; vm_compute; reflexivity. Qed.

(** ** The place of the fee field *)

(** C9. In [sample_pan54] the merchant account number holds the digits
    54321234567, followed by 0210 and a letter.  After [setPrice] at
    50000 and [setTax] at 5000 the fee field 55020256045000 stands at
    offset 61, inside tag 26, before the amount field 540550000 at
    offset 155 and the anchor at offset 164: line 86 matched the account
    number, not the amount field. *)
Theorem fee_lands_before_amount :
  setPrice sample_pan54 (Num 50000) = Ok pan54_50000
  /\ setTax pan54_50000 (TaxNumber (Num 5000)) = Ok pan54_50000_5000
  /\ setPriceThenTax sample_pan54 (Num 50000) (TaxNumber (Num 5000))
     = Ok pan54_50000_5000
  /\ JS.indexOf "55020256045000" pan54_50000_5000 = Some 61%nat
  /\ count_occurrences "55020256045000" pan54_50000_5000 = 1%nat
  /\ JS.indexOf "540550000" pan54_50000_5000 = Some 155%nat
  /\ count_occurrences "540550000" pan54_50000_5000 = 1%nat
  /\ JS.indexOf "5802ID" pan54_50000_5000 = Some 164%nat.
Proof. split_all; vm_compute; reflexivity. Qed.

(** ** Digits *)

Lemma all_digits_append a b : all_digits (a +:+ b) = all_digits a && all_digits b.
Proof.
  induction a as [|c a IH]; [reflexivity|]. norm_app. cbn [all_digits].
  rewrite IH, andb_assoc. reflexivity.
Qed.

Lemma leading_digits_all s : all_digits s = true -> leading_digits s = s.
Proof.
  induction s as [|c s IH]; intros H; [reflexivity|].
  cbn [all_digits] in H. apply andb_prop in H as [H1 H2].
  cbn [leading_digits]. rewrite H1, (IH H2). reflexivity.
Qed.

Lemma leading_digits_append t d :
  all_digits t = true -> leading_digits (t +:+ d) = t +:+ leading_digits d.
Proof.
  induction t as [|c t IH]; intros H; [reflexivity|].
  cbn [all_digits] in H. apply andb_prop in H as [H1 H2].
  norm_app. cbn [leading_digits]. rewrite H1, (IH H2). reflexivity.
Qed.

Lemma leading_digits_stop t d :
  all_digits t = false -> leading_digits (t +:+ d) = leading_digits t.
Proof.
  induction t as [|c t IH]; intros H; [discriminate|].
  cbn [all_digits] in H. norm_app. cbn [leading_digits].
  destruct (JS.is_digit c); [|reflexivity].
  cbn [andb] in H. rewrite (IH H). reflexivity.
Qed.

Lemma leading_digits_append_ge r x :
  (String.length (leading_digits r) <= String.length (leading_digits (r +:+ x)))%nat.
Proof.
  destruct (all_digits r) eqn:E.
  - rewrite leading_digits_append, leading_digits_all, length_append by assumption. lia.
  - rewrite leading_digits_stop by assumption. lia.
Qed.

Lemma digit_not_letter c d :
  JS.is_digit c = true -> JS.is_digit d = false -> Ascii.eqb c d = false.
Proof.
  intros Hc Hd. destruct (Ascii.eqb_spec c d) as [->|]; [congruence|reflexivity].
Qed.

Lemma digit_char_is_digit d : 0 <= d < 10 -> JS.is_digit (digit_char d) = true.
Proof.
  intros H.
  assert (Hall : all_from 10 0 (fun k => JS.is_digit (digit_char k)) = true)
    by (vm_compute; reflexivity).
  apply (all_from_spec _ _ _ Hall). lia.
Qed.

Lemma digits_fuel_all fuel n acc :
  all_digits acc = true -> all_digits (digits_fuel 10 fuel n acc) = true.
Proof.
  revert n acc. induction fuel as [|fuel IH]; intros n acc H; [exact H|].
  cbn [digits_fuel].
  assert (Hd : all_digits (String (digit_char (n mod 10)) acc) = true).
  { cbn [all_digits]. rewrite digit_char_is_digit, H by (apply Z.mod_pos_bound; lia).
    reflexivity. }
  destruct (n / 10 =? 0); [exact Hd|]. apply IH. exact Hd.
Qed.

Lemma digits_fuel_length radix fuel n acc :
  (String.length acc < String.length (digits_fuel radix (S fuel) n acc)
   <= S fuel + String.length acc)%nat.
Proof.
  revert n acc. induction fuel as [|fuel IH]; intros n acc.
  - cbn [digits_fuel]. destruct (n / radix =? 0); cbn [String.length]; lia.
  - change (digits_fuel radix (S (S fuel)) n acc)
      with (if n / radix =? 0 then String (digit_char (n mod radix)) acc
            else digits_fuel radix (S fuel) (n / radix)
                   (String (digit_char (n mod radix)) acc)).
    destruct (n / radix =? 0); [cbn [String.length]; lia|].
    specialize (IH (n / radix) (String (digit_char (n mod radix)) acc)).
    cbn [String.length] in IH. lia.
Qed.

(** [String] on some numbers: a safe integer in full; above 2^53 the
    shortest digits that read back, with zeros up to 21 digits and an
    exponent beyond. *)
Lemma String_examples :
  JS.String_ (Num 10000) = "10000"
  /\ JS.String_ (Num 0) = "0"
  /\ JS.String_ (Num (-5)) = "-5"
  /\ JS.String_ (Num (2 ^ 53)) = "9007199254740992"
  /\ JS.String_ (Num (2 ^ 60)) = "1152921504606847000"
  /\ JS.String_ (Num 123456789012345683968) = "123456789012345680000"
  /\ JS.String_ (Num (10 ^ 21)) = "1e+21"
  /\ JS.String_ (Num (2 ^ 332)) = "8.749002899132048e+99"
  /\ JS.String_ (Num huge_amount) = "1e+100"
  /\ JS.String_ NaN = "NaN".
Proof. split_all; vm_compute; reflexivity. Qed.

(** The decimal rendering of a safe integer: digits only, between 1 and
    54 of them. *)
Lemma String_safe a :
  0 <= a < 2 ^ 53 ->
  all_digits (JS.String_ (Num a)) = true
  /\ (1 <= String.length (JS.String_ (Num a)) < 100)%nat.
Proof.
  intros Ha. unfold JS.String_, JS.toString_nonneg.
  destruct (Z.ltb_spec a 0); [lia|]. destruct (Z.ltb_spec a (2 ^ 53)); [|lia].
  unfold JS.decimal, toStringRadix. split.
  - apply digits_fuel_all. reflexivity.
  - pose proof (digits_fuel_length 10 (Z.to_nat (Z.log2 a)) a EmptyString) as Hl.
    cbn [String.length] in Hl.
    assert (Z.log2 a < 53).
    { destruct (Z.eq_dec a 0) as [->|]; [reflexivity|].
      apply Z.log2_lt_pow2; lia. }
    pose proof (Z.log2_nonneg a). lia.
Qed.

Lemma two_digits_all n : (n < 100)%nat -> all_digits (two_digits n) = true.
Proof.
  intros H.
  assert (Hall : forallb (fun k => all_digits (two_digits k)) (seq 0 100) = true)
    by (vm_compute; reflexivity).
  rewrite forallb_forall in Hall. apply Hall. apply in_seq. lia.
Qed.

(** The amount field of a safe integer: 54, then digits, three at least. *)
Lemma priceTag_digits a :
  0 <= a < 2 ^ 53 ->
  all_digits (length_prefix (JS.String_ (Num a)) +:+ JS.String_ (Num a)) = true
  /\ (3 <= String.length (length_prefix (JS.String_ (Num a)) +:+ JS.String_ (Num a)))%nat.
Proof.
  intros Ha. destruct (String_safe a Ha) as [Hd [Hl1 Hl2]].
  destruct (two_digits_below_100 _ Hl2) as [H2 _].
  split.
  - rewrite all_digits_append, Hd. unfold length_prefix.
    change (JS.padStart (JS.nat_toString ?n) 2 "0") with (two_digits n).
    rewrite two_digits_all by assumption. reflexivity.
  - rewrite length_append. unfold length_prefix.
    change (JS.padStart (JS.nat_toString ?n) 2 "0") with (two_digits n).
    lia.
Qed.

(** ** Line 86 on a prefix that ends with the amount field *)

Lemma amount_at_startsWith m s :
  amount_at m = Some m -> JS.startsWith m s = true -> amount_at s <> None.
Proof.
  intros Hm Hs. apply startsWith_inv in Hs.
  destruct m as [|c1 [|c2 r]]; try discriminate.
  unfold amount_at in Hm.
  destruct (Ascii.eqb c1 "5" && Ascii.eqb c2 "4"
            && (3 <=? String.length (leading_digits r))%nat) eqn:E; [|discriminate].
  apply andb_prop in E as [E E3]. apply Nat.leb_le in E3.
  rewrite Hs. norm_app. unfold amount_at. rewrite E. cbn [andb].
  pose proof (leading_digits_append_ge r (JS.drop (String.length (String c1 (String c2 r))) s)).
  destruct (Nat.leb_spec 3 (String.length (leading_digits
              (r +:+ JS.drop (String.length (String c1 (String c2 r))) s)))); [|lia].
  discriminate.
Qed.

Lemma startsWith_refl s : JS.startsWith s s = true.
Proof. rewrite <- (append_nil_r s) at 2. apply startsWith_append. Qed.

(** When the prefix [p0] holds no match, the leftmost match in [p0]
    followed by an amount field starts in the last characters of [p0] at
    the earliest, and runs to the end. *)
Lemma match_amount_runs_to_end p0 rest :
  match_amount p0 = None ->
  all_digits rest = true ->
  (3 <= String.length rest)%nat ->
  exists pre m,
    p0 +:+ "54" +:+ rest = pre +:+ m
    /\ match_amount (p0 +:+ "54" +:+ rest) = Some m
    /\ amount_at m = Some m
    /\ all_digits m = true
    /\ JS.indexOf m (p0 +:+ "54" +:+ rest) = Some (String.length pre).
Proof.
  intros Hp0 Hrest Hlen.
  assert (Hbase : amount_at ("54" +:+ rest) = Some ("54" +:+ rest)).
  { norm_app. unfold amount_at. cbn [Ascii.eqb Bool.eqb andb].
    rewrite (leading_digits_all rest Hrest).
    destruct (Nat.leb_spec 3 (String.length rest)); [reflexivity|lia]. }
  assert (Hall : all_digits ("54" +:+ rest) = true).
  { norm_app. cbn [all_digits]. rewrite Hrest. reflexivity. }
  induction p0 as [|c p0 IH].
  - exists EmptyString, ("54" +:+ rest). rewrite !append_nil_l.
    split; [reflexivity|]. split.
    + norm_app. rewrite match_amount_cons. norm_app_in Hbase. rewrite Hbase. reflexivity.
    + split; [exact Hbase|]. split; [exact Hall|].
      norm_app. rewrite indexOf_cons.
      pose proof (startsWith_refl (String "5" (String "4" rest))) as Hr.
      rewrite Hr. reflexivity.
  - rewrite match_amount_cons in Hp0.
    destruct (amount_at (String c p0)) eqn:Ec; [discriminate|].
    specialize (IH Hp0). destruct IH as (pre & m & Heq & Hm & Hmm & Hmd & Hidx).
    rewrite (append_cons c p0).
    destruct (amount_at (String c (p0 +:+ "54" +:+ rest))) as [m0|] eqn:E.
    + (* a match starting at [c]: it runs over the rest of [p0] *)
      assert (Hwhole : m0 = String c (p0 +:+ "54" +:+ rest)
                       /\ all_digits (String c (p0 +:+ "54" +:+ rest)) = true).
      { destruct p0 as [|c2 t].
        - rewrite append_nil_l in E. norm_app_in E. unfold amount_at in E.
          cbn [Ascii.eqb Bool.eqb andb] in E. rewrite andb_false_r in E. discriminate.
        - rewrite (append_cons c2 t) in E. unfold amount_at in E, Ec.
          destruct (Ascii.eqb c "5") eqn:E1; [|discriminate].
          destruct (Ascii.eqb c2 "4") eqn:E2; [|discriminate].
          cbn [andb] in E, Ec.
          apply Ascii.eqb_eq in E1, E2. subst c c2.
          destruct (all_digits t) eqn:Et.
          + rewrite leading_digits_append in E by exact Et.
            rewrite (leading_digits_all _ Hall) in E.
            destruct (3 <=? String.length (t +:+ "54" +:+ rest))%nat; [|discriminate].
            injection E as <-. rewrite !(append_cons _ t). split; [reflexivity|].
            cbn [all_digits]. rewrite all_digits_append, Et, Hall. reflexivity.
          + rewrite leading_digits_stop in E by exact Et.
            destruct (3 <=? String.length (leading_digits t))%nat; discriminate. }
      destruct Hwhole as [-> Hd].
      exists EmptyString, (String c (p0 +:+ "54" +:+ rest)).
      split; [reflexivity|]. split; [rewrite match_amount_cons, E; reflexivity|].
      split; [exact E|]. split; [exact Hd|].
      rewrite indexOf_cons, startsWith_refl. reflexivity.
    + exists (String c pre), m. split; [rewrite Heq; reflexivity|].
      split; [rewrite match_amount_cons, E; exact Hm|].
      split; [exact Hmm|]. split; [exact Hmd|].
      rewrite indexOf_cons.
      destruct (JS.startsWith m (String c (p0 +:+ "54" +:+ rest))) eqn:Es.
      * exfalso. exact (amount_at_startsWith _ _ Hmm Es E).
      * rewrite Hidx. reflexivity.
Qed.

(** A replacement text of digits stands for itself. *)
Lemma substitution_digits matched before after rep :
  all_digits rep = true -> JS.substitution matched before after rep = rep.
Proof.
  induction rep as [|c rep IH]; intros H; [reflexivity|].
  cbn [all_digits] in H. apply andb_prop in H as [H1 H2].
  cbn [JS.substitution].
  rewrite (digit_not_letter c "$" H1 eq_refl). rewrite (IH H2). reflexivity.
Qed.

(** ** The anchor stays alone when the amount field is inserted *)

(** Evaluate the comparisons of two known characters. *)
Ltac ground_eqb :=
  repeat match goal with
         | |- context [Ascii.eqb ?a ?b] =>
             let v := eval vm_compute in (Ascii.eqb a b) in
             match v with
             | false => change (Ascii.eqb a b) with false
             | true => change (Ascii.eqb a b) with true
             end
         end;
  rewrite ?andb_false_r.

Lemma startsWith_anchor_in_digits d x :
  all_digits d = true -> d <> EmptyString ->
  JS.startsWith "5802ID" (d +:+ "5802ID" +:+ x) = false.
Proof.
  intros Hd Hne.
  destruct d as [|c1 [|c2 [|c3 [|c4 [|c5 d]]]]]; [congruence| | | | |];
    norm_app; cbn [JS.startsWith]; ground_eqb; try reflexivity.
  cbn [all_digits] in Hd. repeat (apply andb_prop in Hd as [? Hd]).
  rewrite (Ascii.eqb_sym "I" c5), (digit_not_letter c5 "I") by (assumption || reflexivity).
  rewrite ?andb_false_r. reflexivity.
Qed.

Lemma count_anchor_in_digits d x :
  all_digits d = true ->
  count_occurrences "5802ID" (d +:+ "5802ID" +:+ x)
  = count_occurrences "5802ID" ("5802ID" +:+ x).
Proof.
  induction d as [|c d IH]; intros Hd; [reflexivity|].
  rewrite (append_cons c d), count_occurrences_cons.
  rewrite <- (append_cons c d).
  rewrite startsWith_anchor_in_digits by (assumption || discriminate).
  cbn [all_digits] in Hd. apply andb_prop in Hd as [_ Hd]. rewrite (IH Hd). reflexivity.
Qed.

Lemma startsWith_anchor_before_5 c u z z' :
  JS.startsWith "5802ID" (String c (u +:+ String "5" z))
  = JS.startsWith "5802ID" (String c (u +:+ String "5" z')).
Proof.
  destruct u as [|c1 [|c2 [|c3 [|c4 [|c5 u]]]]];
    norm_app; cbn [JS.startsWith]; ground_eqb; reflexivity.
Qed.

Lemma count_anchor_prefix_indep p0 z z' :
  (count_occurrences "5802ID" (p0 +:+ String "5" z)
   + count_occurrences "5802ID" (String "5" z')
   = count_occurrences "5802ID" (p0 +:+ String "5" z')
     + count_occurrences "5802ID" (String "5" z))%nat.
Proof.
  induction p0 as [|c p0 IH]; [rewrite !append_nil_l; lia|].
  rewrite !(append_cons c p0).
  rewrite (count_occurrences_cons "5802ID" c (p0 +:+ String "5" z)).
  rewrite (count_occurrences_cons "5802ID" c (p0 +:+ String "5" z')).
  rewrite (startsWith_anchor_before_5 c p0 z z'). lia.
Qed.

Lemma count_anchor_insert p0 rest p1 :
  all_digits rest = true ->
  count_occurrences "5802ID" (p0 +:+ "5802ID" +:+ p1) = 1%nat ->
  count_occurrences "5802ID" ((p0 +:+ "54" +:+ rest) +:+ "5802ID" +:+ p1) = 1%nat.
Proof.
  intros Hrest Hc.
  assert (Hd : count_occurrences "5802ID" (("54" +:+ rest) +:+ "5802ID" +:+ p1)
               = count_occurrences "5802ID" ("5802ID" +:+ p1)).
  { apply count_anchor_in_digits. norm_app. cbn [all_digits]. rewrite Hrest. reflexivity. }
  rewrite append_assoc.
  pose proof (count_anchor_prefix_indep p0
                (String "4" rest +:+ "5802ID" +:+ p1) ("802ID" +:+ p1)) as Hi.
  change (String "5" ("802ID" +:+ p1)) with ("5802ID" +:+ p1) in Hi.
  change (String "5" (String "4" rest +:+ "5802ID" +:+ p1))
    with (("54" +:+ rest) +:+ "5802ID" +:+ p1) in Hi.
  lia.
Qed.

Lemma drop_all s : JS.drop (String.length s) s = EmptyString.
Proof. induction s as [|c s IH]; [reflexivity|]. cbn. exact IH. Qed.

(** ** [setPrice] then [setTax], when nothing misleads lines 77 and 86 *)

(** For a safe amount and a fee whose text is all digits, on a payload
    whose body holds the anchor once and no run that line 86 matches
    before it: when the CRC written by [setPrice] has four characters
    and the new body holds no run 010211, [setTax] puts the fee field
    right after the amount field and right before the anchor. *)
Lemma setPriceThenTax_in_order payload a tax tag p0 p1 :
  0 <= a < 2 ^ 53 ->
  taxTag tax = Ok tag ->
  all_digits tag = true ->
  count_occurrences "5802ID" (JS.slice payload 0 (-4)) = 1%nat ->
  JS.replace (JS.slice payload 0 (-4)) "010211" "010212" = p0 +:+ "5802ID" +:+ p1 ->
  match_amount p0 = None ->
  JS.indexOf "010211" (p0 +:+ priceTag (Num a) +:+ "5802ID" +:+ p1) = None ->
  0x100 <= crc_loop (p0 +:+ priceTag (Num a) +:+ "5802ID" +:+ p1) 0xffff ->
  setPriceThenTax payload (Num a) tax
  = Ok ((p0 +:+ priceTag (Num a) +:+ tag +:+ "5802ID" +:+ p1)
        +:+ computeCRC16 (p0 +:+ priceTag (Num a) +:+ tag +:+ "5802ID" +:+ p1)).
Proof.
  intros Ha Ht Htag Hc Hq Hm Hrun Hwide.
  destruct (priceTag_digits a Ha) as [Hpd Hpl].
  unfold setPriceThenTax.
  assert (Hneg : JS.lt (Num a) (Num 0) = false).
  { cbn [JS.lt]. apply Z.ltb_ge. lia. }
  rewrite (setPrice_shape payload (Num a) p0 p1 Hneg Hq Hc).
  change ("54" +:+ length_prefix (JS.String_ (Num a)) +:+ JS.String_ (Num a))
    with (priceTag (Num a)).
  assert (Hlen : String.length
                   (computeCRC16 (p0 +:+ priceTag (Num a) +:+ "5802ID" +:+ p1)) = 4%nat).
  { unfold computeCRC16. rewrite crc_hex_length by (apply crc_loop_range; lia).
    destruct (Z.ltb_spec (crc_loop (p0 +:+ priceTag (Num a) +:+ "5802ID" +:+ p1) 0xffff) 0x10);
      [lia|].
    destruct (Z.ltb_spec (crc_loop (p0 +:+ priceTag (Num a) +:+ "5802ID" +:+ p1) 0xffff) 0x100);
      [lia|reflexivity]. }
  assert (Hrep : JS.replace (p0 +:+ priceTag (Num a) +:+ "5802ID" +:+ p1) "010211" "010212"
                 = p0 +:+ priceTag (Num a) +:+ "5802ID" +:+ p1).
  { unfold JS.replace. rewrite Hrun. reflexivity. }
  unfold setTax. rewrite Ht. cbv zeta. rewrite (slice_body _ _ Hlen), Hrep.
  assert (Hc1 : count_occurrences "5802ID"
                  ((p0 +:+ priceTag (Num a)) +:+ "5802ID" +:+ p1) = 1%nat).
  { unfold priceTag. apply count_anchor_insert; [exact Hpd|].
    rewrite <- Hq, count_anchor_replace. exact Hc. }
  rewrite <- (append_assoc p0 (priceTag (Num a)) ("5802ID" +:+ p1)).
  rewrite (split_unique _ _ Hc1). cbn [length Nat.eqb negb nth].
  destruct (match_amount_runs_to_end p0 _ Hm Hpd Hpl)
    as (pre & m & Heq & Hma & _ & Hmd & Hidx).
  change ("54" +:+ length_prefix (JS.String_ (Num a)) +:+ JS.String_ (Num a))
    with (priceTag (Num a)) in *.
  rewrite Hma. unfold JS.replace. rewrite Hidx, Heq.
  rewrite take_append, drop_append_add, drop_all.
  rewrite substitution_digits by (rewrite all_digits_append, Hmd, Htag; reflexivity).
  rewrite append_nil_r, <- (append_assoc pre m tag), <- Heq.
  rewrite !append_assoc. reflexivity.
Qed.

(** So it is on the static sample, at 50000 and 5000. *)
Lemma setPriceThenTax_in_order_sample :
  setPriceThenTax sample_static (Num 50000) (TaxNumber (Num 5000))
  = Ok (("00020101021226620015COM.EXAMPLE.WWW01189360091431234567890210G1234567890303UMI51440014ID.CO.QRIS.WWW0215ID10200123456780303UMI520458125303360"
         +:+ priceTag (Num 50000) +:+ "55020256045000" +:+ "5802ID"
         +:+ "5917MERCHANT NATIONAL6011JAKARTA SEL61051215062070703A016304")
        +:+ computeCRC16
              ("00020101021226620015COM.EXAMPLE.WWW01189360091431234567890210G1234567890303UMI51440014ID.CO.QRIS.WWW0215ID10200123456780303UMI520458125303360"
               +:+ priceTag (Num 50000) +:+ "55020256045000" +:+ "5802ID"
               +:+ "5917MERCHANT NATIONAL6011JAKARTA SEL61051215062070703A016304")).
Proof.
  apply setPriceThenTax_in_order.
  - lia.
  - vm_compute. reflexivity.
  - vm_compute. reflexivity.
  - vm_compute. reflexivity.
  - vm_compute. reflexivity.
  - vm_compute. reflexivity.
  - vm_compute. reflexivity.
  - vm_compute. discriminate.
Qed.

(** ** The parser on well-formed fields *)

Lemma substring_mid pre mid post a b :
  a = Z.of_nat (String.length pre) ->
  b = Z.of_nat (String.length pre + String.length mid) ->
  JS.substring (pre +:+ mid +:+ post) (Num a) (Num b) = mid.
Proof.
  intros -> ->. unfold JS.substring, JS.clamp. rewrite !length_append.
  replace (Z.to_nat (Z.min (Z.max (Z.of_nat (String.length pre)) 0)
             (Z.of_nat (String.length pre + (String.length mid + String.length post)))))
    with (String.length pre) by lia.
  replace (Z.to_nat (Z.min (Z.max (Z.of_nat (String.length pre + String.length mid)) 0)
             (Z.of_nat (String.length pre + (String.length mid + String.length post)))))
    with (String.length pre + String.length mid)%nat by lia.
  replace (Nat.min (String.length pre) (String.length pre + String.length mid))
    with (String.length pre) by lia.
  replace (Nat.max (String.length pre) (String.length pre + String.length mid)
           - String.length pre)%nat with (String.length mid) by lia.
  rewrite drop_append. apply take_append.
Qed.

(** One turn of the loop on a well-formed field: the field is stored
    and the cursor moves to the next one. *)
Lemma parseEmv_step_field pre tag value rest result :
  field_ok (tag, value) ->
  parseEmv_step (pre +:+ tlv_field tag value +:+ rest)
                (Z.of_nat (String.length pre)) result
  = (Num (Z.of_nat (String.length pre + String.length (tlv_field tag value))),
     <[tag := value]> result).
Proof.
  intros [Htag Hval]. cbn [fst snd] in Htag, Hval.
  destruct (two_digits_below_100 _ Hval) as [Hl2 Hparse].
  change (two_digits (String.length value)) with (length_prefix value) in Hl2, Hparse.
  unfold parseEmv_step, tlv_field.
  assert (Htagsub : JS.substring (pre +:+ (tag +:+ length_prefix value +:+ value) +:+ rest)
                      (Num (Z.of_nat (String.length pre)))
                      (Num (Z.of_nat (String.length pre) + 2)) = tag).
  { rewrite (append_assoc tag). apply substring_mid; lia. }
  assert (Hlensub : JS.substring (pre +:+ (tag +:+ length_prefix value +:+ value) +:+ rest)
                      (Num (Z.of_nat (String.length pre) + 2))
                      (Num (Z.of_nat (String.length pre) + 4)) = length_prefix value).
  { rewrite (append_assoc tag), <- (append_assoc pre tag).
    rewrite (append_assoc (length_prefix value)).
    apply substring_mid; rewrite length_append; lia. }
  rewrite Htagsub, Hlensub, Hparse. cbn [JS.add].
  assert (Hvalsub : JS.substring (pre +:+ (tag +:+ length_prefix value +:+ value) +:+ rest)
                      (Num (Z.of_nat (String.length pre) + 4))
                      (Num (Z.of_nat (String.length pre) + 4
                            + Z.of_nat (String.length value))) = value).
  { rewrite (append_assoc tag), <- (append_assoc pre tag).
    rewrite (append_assoc (length_prefix value)).
    rewrite <- (append_assoc (pre +:+ tag) (length_prefix value)).
    apply substring_mid; rewrite !length_append; lia. }
  rewrite Hvalsub. f_equal. f_equal. rewrite !length_append. lia.
Qed.

(** The parser reads back a sequence of well-formed fields, in as many
    turns as there are fields. *)
Lemma parseEmv_loop_fields fields :
  Forall field_ok fields ->
  forall pre result,
    parseEmv_loop (length fields) (pre +:+ serialize fields)
                  (Num (Z.of_nat (String.length pre))) result
    = Some (store_fields fields result).
Proof.
  induction fields as [|[tag value] fields IH]; intros Hok pre result.
  - cbn [serialize length store_fields fold_left]. apply parseEmv_loop_end.
    rewrite append_nil_r. lia.
  - inversion Hok as [|f fs Hf Hfs]; subst.
    cbn [serialize length store_fields fold_left fst snd].
    rewrite parseEmv_loop_turn.
    2:{ rewrite !length_append. unfold tlv_field. rewrite !length_append.
        destruct Hf as [Ht _]. cbn [fst] in Ht. lia. }
    rewrite parseEmv_step_field by exact Hf. cbn [fst snd].
    rewrite <- length_append, <- append_assoc.
    apply (IH Hfs).
Qed.

Lemma parseEmv_serialize fields :
  Forall field_ok fields ->
  parseEmv (length fields) (serialize fields) = Some (store_fields fields ∅).
Proof.
  intros Hok. unfold parseEmv.
  exact (parseEmv_loop_fields fields Hok EmptyString ∅).
Qed.

(** The fee text of a safe nominal fee is read as two root-level fields:
    55 with the indicator 02, and 56 with the digits of the fee. *)
Lemma parseEmv_taxTag_nominal f tag :
  0 <= f < 2 ^ 53 ->
  taxTag (TaxNumber (Num f)) = Ok tag ->
  parseEmv 2 tag = Some (<["56" := JS.String_ (Num f)]> (<["55" := "02"]> ∅)).
Proof.
  intros Hf Ht.
  assert (Htag : tag = "55020256" +:+ length_prefix (JS.String_ (Num f))
                       +:+ JS.String_ (Num f))
    by (unfold taxTag in Ht; congruence).
  subst tag. clear Ht.
  destruct (String_safe f Hf) as [_ [_ Hlen]].
  pose proof (parseEmv_serialize [("55", "02"); ("56", JS.String_ (Num f))]) as Hp.
  cbn [serialize length store_fields fold_left fst snd] in Hp.
  rewrite append_nil_r in Hp.
  change (tlv_field "55" "02" +:+ tlv_field "56" (JS.String_ (Num f)))
    with ("55020256" +:+ length_prefix (JS.String_ (Num f)) +:+ JS.String_ (Num f)) in Hp.
  rewrite Hp; [reflexivity|].
  constructor; [split; cbn [fst snd String.length]; lia|].
  constructor; [split; cbn [fst snd String.length]; lia|constructor].
Qed.

(** ** The round trip on a well-formed payload *)

Lemma serialize_app l1 l2 : serialize (l1 ++ l2) = serialize l1 +:+ serialize l2.
Proof.
  induction l1 as [|[t v] l1 IH]; [reflexivity|].
  cbn [app serialize]. rewrite IH, append_assoc. reflexivity.
Qed.

Lemma store_fields_app l1 l2 m :
  store_fields (l1 ++ l2) m = store_fields l2 (store_fields l1 m).
Proof. unfold store_fields. apply fold_left_app. Qed.

Lemma store_fields_lookup_notin l t (m : gmap string string) :
  (forall fld, In fld l -> fst fld <> t) -> store_fields l m !! t = m !! t.
Proof.
  revert m. induction l as [|[t' v] l IH]; intros m H; [reflexivity|].
  cbn [store_fields fold_left fst snd].
  change (fold_left (fun r f => <[fst f := snd f]> r) l (<[t' := v]> m))
    with (store_fields l (<[t' := v]> m)).
  rewrite IH by (intros fld Hin; apply H; right; exact Hin).
  apply lookup_insert_ne. apply (H (t', v)). left. reflexivity.
Qed.

(** A field stored and not stored again later is found. *)
Lemma store_fields_lookup l1 t v l2 (m : gmap string string) :
  (forall fld, In fld l2 -> fst fld <> t) ->
  store_fields (l1 ++ (t, v) :: l2) m !! t = Some v.
Proof.
  intros H. rewrite store_fields_app.
  cbn [store_fields fold_left fst snd].
  change (fold_left (fun r f => <[fst f := snd f]> r) l2 ?x) with (store_fields l2 x).
  rewrite store_fields_lookup_notin by exact H.
  apply lookup_insert_eq.
Qed.

Lemma computeCRC16_length s :
  0x100 <= crc_loop s 0xffff -> String.length (computeCRC16 s) = 4%nat.
Proof.
  intros H. unfold computeCRC16. rewrite crc_hex_length by (apply crc_loop_range; lia).
  destruct (Z.ltb_spec (crc_loop s 0xffff) 0x10); [lia|].
  destruct (Z.ltb_spec (crc_loop s 0xffff) 0x100); [lia|reflexivity].
Qed.

Lemma tlv_field_crc crc :
  String.length crc = 4%nat -> "6304" +:+ crc = tlv_field "63" crc.
Proof. intros H. unfold tlv_field, length_prefix. rewrite H. reflexivity. Qed.

(** More turns do not change what the loop returns. *)
Lemma parseEmv_loop_more fuel qris i result m :
  parseEmv_loop fuel qris i result = Some m ->
  forall fuel', (fuel <= fuel')%nat -> parseEmv_loop fuel' qris i result = Some m.
Proof.
  revert i result. induction fuel as [|fuel IH]; intros i result H fuel' Hle.
  - destruct i as [z|]; [|rewrite parseEmv_loop_NaN in *; exact H].
    cbn [parseEmv_loop] in H.
    destruct (Z.ltb_spec z (Z.of_nat (String.length qris))); [discriminate|].
    rewrite parseEmv_loop_end by lia. exact H.
  - destruct i as [z|]; [|rewrite parseEmv_loop_NaN in *; exact H].
    destruct (Z.lt_ge_cases z (Z.of_nat (String.length qris))) as [Hlt|Hge].
    + destruct fuel' as [|fuel']; [lia|].
      rewrite parseEmv_loop_turn in * by exact Hlt.
      apply (IH _ _ H). lia.
    + rewrite parseEmv_loop_end in * by lia. exact H.
Qed.

Lemma parseEmv_unique fuel1 fuel2 qris m1 m2 :
  parseEmv fuel1 qris = Some m1 -> parseEmv fuel2 qris = Some m2 -> m1 = m2.
Proof.
  unfold parseEmv. intros H1 H2.
  pose proof (parseEmv_loop_more _ _ _ _ _ H1 (Nat.max fuel1 fuel2) (Nat.le_max_l _ _)) as E1.
  pose proof (parseEmv_loop_more _ _ _ _ _ H2 (Nat.max fuel1 fuel2) (Nat.le_max_r _ _)) as E2.
  congruence.
Qed.

(** On a payload whose body is a sequence of well-formed fields around
    the anchor and ends with 6304, with a safe amount [a] and a safe
    nominal fee [f], when nothing misleads lines 77 and 86 and both CRCs
    have four characters: the parser reads the output back with the
    digits of [a] in tag 54 and those of [f] in tag 56, and with the
    indicator 02 in tag 55; that indicator is what the extractor reports
    as the tax. *)
Lemma roundtrip_wellformed payload a f fs0 fs1 :
  0 <= a < 2 ^ 53 ->
  0 <= f < 2 ^ 53 ->
  Forall field_ok fs0 ->
  Forall field_ok fs1 ->
  (forall fld, In fld fs1 -> fst fld <> "54" /\ fst fld <> "55" /\ fst fld <> "56") ->
  count_occurrences "5802ID" (JS.slice payload 0 (-4)) = 1%nat ->
  JS.replace (JS.slice payload 0 (-4)) "010211" "010212"
  = serialize fs0 +:+ "5802ID" +:+ serialize fs1 +:+ "6304" ->
  match_amount (serialize fs0) = None ->
  JS.indexOf "010211"
    (serialize fs0 +:+ priceTag (Num a) +:+ "5802ID" +:+ serialize fs1 +:+ "6304") = None ->
  0x100 <= crc_loop (serialize fs0 +:+ priceTag (Num a) +:+ "5802ID"
                     +:+ serialize fs1 +:+ "6304") 0xffff ->
  0x100 <= crc_loop (serialize fs0 +:+ priceTag (Num a)
                     +:+ ("55020256" +:+ length_prefix (JS.String_ (Num f))
                          +:+ JS.String_ (Num f))
                     +:+ "5802ID" +:+ serialize fs1 +:+ "6304") 0xffff ->
  exists out emv,
    setPriceThenTax payload (Num a) (TaxNumber (Num f)) = Ok out
    /\ parseEmv (length fs0 + (4 + (length fs1 + 1))) out = Some emv
    /\ emv !! "54" = Some (JS.String_ (Num a))
    /\ emv !! "55" = Some "02"
    /\ emv !! "56" = Some (JS.String_ (Num f))
    /\ (forall fuel md,
          extractMetadata fuel out = Some md ->
          price md = Some (JS.String_ (Num a)) /\ tax md = Some "02").
Proof.
  intros Ha Hf Hok0 Hok1 Htags Hc Hq Hm Hrun Hw1 Hw2.
  destruct (String_safe a Ha) as [_ [Ha1 Ha2]].
  destruct (String_safe f Hf) as [Hfd [Hf1 Hf2]].
  set (tag := "55020256" +:+ length_prefix (JS.String_ (Num f)) +:+ JS.String_ (Num f)) in *.
  assert (Htagd : all_digits tag = true).
  { unfold tag. rewrite !all_digits_append, Hfd. unfold length_prefix.
    change (JS.padStart (JS.nat_toString ?n) 2 "0") with (two_digits n).
    rewrite two_digits_all by assumption. reflexivity. }
  pose proof (setPriceThenTax_in_order payload a (TaxNumber (Num f)) tag
                (serialize fs0) (serialize fs1 +:+ "6304")
                Ha eq_refl Htagd Hc Hq Hm Hrun Hw1) as Hout.
  pose proof (computeCRC16_length _ Hw2) as Hlen.
  set (crc := computeCRC16 (serialize fs0 +:+ priceTag (Num a) +:+ tag +:+ "5802ID"
                            +:+ serialize fs1 +:+ "6304")) in *.
  set (fields := fs0 ++ [("54", JS.String_ (Num a)); ("55", "02");
                         ("56", JS.String_ (Num f)); ("58", "ID")]
                 ++ fs1 ++ [("63", crc)]).
  assert (Hser : (serialize fs0 +:+ priceTag (Num a) +:+ tag +:+ "5802ID"
                  +:+ serialize fs1 +:+ "6304") +:+ crc = serialize fields).
  { unfold fields. rewrite !serialize_app. cbn [serialize].
    rewrite <- (tlv_field_crc crc Hlen), !append_nil_r, !append_assoc.
    reflexivity. }
  assert (Hokall : Forall field_ok fields).
  { unfold fields. apply Forall_app. split; [exact Hok0|].
    apply Forall_app. split.
    - repeat (apply Forall_cons; split; [split; cbn [fst snd String.length]; lia|]).
      apply Forall_nil. trivial.
    - apply Forall_app. split; [exact Hok1|].
      apply Forall_cons. split; [split; cbn [fst snd String.length]; lia|].
      apply Forall_nil. trivial. }
  assert (Hparse : parseEmv (length fs0 + (4 + (length fs1 + 1))) (serialize fields)
                   = Some (store_fields fields ∅)).
  { rewrite <- (parseEmv_serialize fields Hokall). unfold fields.
    rewrite !length_app. reflexivity. }
  assert (Hlater : forall t, t = "54" \/ t = "55" \/ t = "56" ->
                             forall fld, In fld (fs1 ++ [("63", crc)]) -> fst fld <> t).
  { intros t Ht fld Hin. apply in_app_or in Hin as [Hin|[<-|[]]].
    - destruct (Htags fld Hin) as (H1 & H2 & H3).
      destruct Ht as [->|[->| ->]]; assumption.
    - cbn [fst]. destruct Ht as [->|[->| ->]]; discriminate. }
  assert (H54 : store_fields fields ∅ !! "54" = Some (JS.String_ (Num a))).
  { unfold fields. apply store_fields_lookup.
    intros fld [<-|[<-|[<-|Hin]]]; try (cbn [fst]; discriminate).
    apply (Hlater "54"); [auto|exact Hin]. }
  assert (H55 : store_fields fields ∅ !! "55" = Some "02").
  { unfold fields.
    change (fs0 ++ [("54", JS.String_ (Num a)); ("55", "02");
                    ("56", JS.String_ (Num f)); ("58", "ID")] ++ fs1 ++ [("63", crc)])
      with (fs0 ++ [("54", JS.String_ (Num a))]
                ++ ("55", "02") :: [("56", JS.String_ (Num f)); ("58", "ID")]
                ++ fs1 ++ [("63", crc)]).
    rewrite app_assoc. apply store_fields_lookup.
    intros fld [<-|[<-|Hin]]; try (cbn [fst]; discriminate).
    apply (Hlater "55"); [auto|exact Hin]. }
  assert (H56 : store_fields fields ∅ !! "56" = Some (JS.String_ (Num f))).
  { unfold fields.
    change (fs0 ++ [("54", JS.String_ (Num a)); ("55", "02");
                    ("56", JS.String_ (Num f)); ("58", "ID")] ++ fs1 ++ [("63", crc)])
      with (fs0 ++ [("54", JS.String_ (Num a)); ("55", "02")]
                ++ ("56", JS.String_ (Num f)) :: [("58", "ID")]
                ++ fs1 ++ [("63", crc)]).
    rewrite app_assoc. apply store_fields_lookup.
    intros fld [<-|Hin]; try (cbn [fst]; discriminate).
    apply (Hlater "56"); [auto|exact Hin]. }
  exists (serialize fields), (store_fields fields ∅).
  split; [rewrite <- Hser; exact Hout|].
  split; [exact Hparse|]. split; [exact H54|]. split; [exact H55|]. split; [exact H56|].
  intros fuel md Hmd. unfold extractMetadata in Hmd.
  destruct (parseEmv fuel (serialize fields)) as [emv|] eqn:Eemv; [|discriminate].
  pose proof (parseEmv_unique _ _ _ _ _ Eemv Hparse) as ->.
  destruct (find_company fuel (store_fields fields ∅) ["26"; "27"; "51"])
    as [[co pan]|]; [|discriminate].
  injection Hmd as <-. cbn [price tax]. unfold get_or_null. rewrite H54, H55.
  split; [|reflexivity].
  destruct (JS.String_ (Num a)) as [|c s]; [cbn [String.length] in Ha1; lia|reflexivity].
Qed.

(** So it is on the static sample, at 50000 and 5000. *)
Lemma roundtrip_wellformed_sample :
  exists out emv,
    setPriceThenTax sample_static (Num 50000) (TaxNumber (Num 5000)) = Ok out
    /\ parseEmv (length sample_fields_before + (4 + (length sample_fields_after + 1))) out
       = Some emv
    /\ emv !! "54" = Some (JS.String_ (Num 50000))
    /\ emv !! "55" = Some "02"
    /\ emv !! "56" = Some (JS.String_ (Num 5000))
    /\ (forall fuel md,
          extractMetadata fuel out = Some md ->
          price md = Some (JS.String_ (Num 50000)) /\ tax md = Some "02").
Proof.
  apply (roundtrip_wellformed sample_static 50000 5000
           sample_fields_before sample_fields_after).
  - lia.
  - lia.
  - unfold sample_fields_before.
    repeat (apply Forall_cons; split; [split; vm_compute; lia|]). apply Forall_nil. trivial.
  - unfold sample_fields_after.
    repeat (apply Forall_cons; split; [split; vm_compute; lia|]). apply Forall_nil. trivial.
  - intros fld Hin. unfold sample_fields_after in Hin.
    repeat (destruct Hin as [<-|Hin]; [cbn [fst]; split_all; discriminate|]).
    destruct Hin.
  - vm_compute. reflexivity.
  - vm_compute. reflexivity.
  - vm_compute. reflexivity.
  - vm_compute. reflexivity.
  - vm_compute. discriminate.
  - vm_compute. discriminate.
Qed.

(** * Further properties of the code *)

(** ** The text that [computeCRC16] returns *)

(** X1. For every input, the text returned by [computeCRC16] has one
    character when the register is below 0x10, two when it is below
    0x100 and four otherwise; it never has three. *)
Theorem computeCRC16_length_cases str :
  String.length (computeCRC16 str)
  = (if crc_loop str 0xffff <? 0x10 then 1%nat
     else if crc_loop str 0xffff <? 0x100 then 2%nat else 4%nat)
  /\ String.length (computeCRC16 str) <> 3%nat.
Proof.
  assert (H : String.length (computeCRC16 str)
              = (if crc_loop str 0xffff <? 0x10 then 1%nat
                 else if crc_loop str 0xffff <? 0x100 then 2%nat else 4%nat)).
  { unfold computeCRC16. apply crc_hex_length. apply crc_loop_range. lia. }
  split; [exact H|]. rewrite H.
  destruct (crc_loop str 0xffff <? 0x10); [discriminate|].
  destruct (crc_loop str 0xffff <? 0x100); discriminate.
Qed.

(** X2. For every input, the text returned by [computeCRC16] is made
    of the digits 0-9 and the letters A-F only, and read as a
    hexadecimal numeral it is the register: the rendering in one, two
    or four characters loses nothing of the 16 bits, and two inputs get
    the same text exactly when their registers are equal. *)
Theorem computeCRC16_reads_back str :
  hex_value (computeCRC16 str) = Some (crc_loop str 0xffff)
  /\ (forall str',
        computeCRC16 str = computeCRC16 str'
        <-> crc_loop str 0xffff = crc_loop str' 0xffff).
Proof.
  split; [apply computeCRC16_reads_back_register|].
  intros str'. split; intros E.
  - pose proof (computeCRC16_reads_back_register str) as H.
    pose proof (computeCRC16_reads_back_register str') as H'.
    rewrite E in H. rewrite H in H'. injection H' as H'. exact H'.
  - unfold computeCRC16. rewrite E. reflexivity.
Qed.

(** ** What the checksum detects *)

Lemma crc_unshift_shift x : 0 <= x < 2 ^ 16 -> crc_unshift (crc_shift x) = x.
Proof.
  intros H.
  assert (Hall : all_from (Z.to_nat 65536) 0
                   (fun x => crc_unshift (crc_shift x) =? x) = true)
    by (vm_compute; reflexivity).
  assert (Hk : 0 <= x < 0 + Z.of_nat (Z.to_nat 65536)) by lia.
  apply Z.eqb_eq. exact (all_from_spec _ _ _ Hall x Hk).
Qed.

Lemma iter_crc_shift_inj n x y :
  0 <= x < 2 ^ 16 -> 0 <= y < 2 ^ 16 ->
  Nat.iter n crc_shift x = Nat.iter n crc_shift y -> x = y.
Proof.
  intros Hx Hy. induction n as [|n IH]; [intros E; exact E|].
  rewrite !Nat.iter_succ. intros E. apply IH.
  rewrite <- (crc_unshift_shift (Nat.iter n crc_shift x))
    by (apply iter_crc_shift_range; assumption).
  rewrite <- (crc_unshift_shift (Nat.iter n crc_shift y))
    by (apply iter_crc_shift_range; assumption).
  rewrite E. reflexivity.
Qed.

Lemma lxor_cancel_l a b c : Z.lxor a b = Z.lxor a c -> b = c.
Proof.
  intros E. apply (f_equal (Z.lxor a)) in E.
  rewrite <- !Z.lxor_assoc, Z.lxor_nilpotent, !Z.lxor_0_l in E. exact E.
Qed.

Lemma lxor_cancel_r a b c : Z.lxor a c = Z.lxor b c -> a = b.
Proof. rewrite !(Z.lxor_comm _ c). apply lxor_cancel_l. Qed.

(** *** The loop on 16-bit code units *)

(** The first turn on a register that holds a code unit in its bits 8
    to 23 does not leave the 32-bit range either. *)
Lemma crc_bit_shift_wide x : 0 <= x < 2 ^ 24 -> crc_bit x = crc_shift x.
Proof.
  intros Hx. unfold crc_bit, crc_shift, Int32.and, Int32.xor, Int32.shl.
  change (Z.land 1 31) with 1.
  rewrite (ToInt32_small x) by lia.
  rewrite (ToInt32_small 0x8000) by lia.
  rewrite (ToInt32_small 0x1021) by lia.
  rewrite (ToInt32_small 0xffff) by lia.
  assert (Hs : 0 <= Z.shiftl x 1 < 2 ^ 25).
  { rewrite Z.shiftl_mul_pow2 by lia. lia. }
  rewrite !(ToInt32_small (Z.shiftl x 1)) by lia.
  assert (Hl : 0 <= Z.lxor (Z.shiftl x 1) 0x1021 < 2 ^ 25).
  { apply lxor_range; lia. }
  rewrite land_0x8000 by lia.
  change 0xffff with (Z.ones 16).
  destruct (Z.testbit x 15).
  - rewrite (ToInt32_small 0x8000) by lia. change (negb (0x8000 =? 0)) with true. cbv iota.
    repeat rewrite (ToInt32_small (Z.lxor (Z.shiftl x 1) 0x1021)) by lia.
    apply ToInt32_small. pose proof (land_ones_range (Z.lxor (Z.shiftl x 1) 0x1021) 16). lia.
  - rewrite (ToInt32_small 0) by lia. change (negb (0 =? 0)) with false. cbv iota.
    repeat rewrite (ToInt32_small (Z.shiftl x 1)) by lia.
    apply ToInt32_small. pose proof (land_ones_range (Z.shiftl x 1) 16). lia.
Qed.

(** The turn reads the low 16 bits of the register only. *)
Lemma crc_shift_mod x : crc_shift x = crc_shift (x mod 2 ^ 16).
Proof.
  unfold crc_shift. rewrite (Z.mod_pow2_bits_low x 16 15) by lia.
  apply Z.bits_inj'. intros n Hn. rewrite !Z.land_spec.
  destruct (Z.ltb_spec n 16) as [Hlt|Hge].
  - rewrite Z.ones_spec_low, !andb_true_r by lia.
    destruct (Z.testbit x 15).
    + rewrite !Z.lxor_spec, !Z.shiftl_spec by lia.
      rewrite (Z.mod_pow2_bits_low x 16 (n - 1)) by lia. reflexivity.
    + rewrite !Z.shiftl_spec by lia.
      rewrite (Z.mod_pow2_bits_low x 16 (n - 1)) by lia. reflexivity.
  - rewrite Z.ones_spec_high, !andb_false_r by lia. reflexivity.
Qed.

(** Of the code unit, the low byte alone reaches the 16-bit register. *)
Lemma lxor_unit_mod crc code :
  0 <= crc < 2 ^ 16 -> 0 <= code ->
  Z.lxor crc (Z.shiftl code 8) mod 2 ^ 16 = Z.lxor crc (Z.shiftl (code mod 2 ^ 8) 8).
Proof.
  intros Hcrc Hcode. apply Z.bits_inj'. intros n Hn.
  destruct (Z.ltb_spec n 16) as [Hlt|Hge].
  - rewrite Z.mod_pow2_bits_low by lia.
    rewrite !Z.lxor_spec, !Z.shiftl_spec by lia.
    rewrite (Z.mod_pow2_bits_low code 8 (n - 8)) by lia. reflexivity.
  - rewrite Z.mod_pow2_bits_high by lia.
    rewrite Z.lxor_spec, Z.shiftl_spec by lia.
    rewrite (Z.mod_pow2_bits_high code 8 (n - 8)) by lia.
    rewrite (Z.bits_above_log2 crc n); [reflexivity|lia|].
    destruct (Z.eq_dec crc 0) as [->|Hne]; [cbn; lia|].
    apply Z.lt_le_trans with 16; [apply Z.log2_lt_pow2; lia|lia].
Qed.

Lemma crc_unit_shift crc code :
  0 <= crc < 2 ^ 16 -> 0 <= code < 2 ^ 16 ->
  crc_unit crc code
  = Nat.iter 8 crc_shift (Z.lxor crc (Z.shiftl (code mod 2 ^ 8) 8)).
Proof.
  intros Hcrc Hcode. unfold crc_unit, Int32.xor, Int32.shl.
  change (Z.land 8 31) with 8.
  assert (Hs : 0 <= Z.shiftl code 8 < 2 ^ 24).
  { rewrite Z.shiftl_mul_pow2 by lia. lia. }
  rewrite (ToInt32_small code) by lia.
  rewrite (ToInt32_small crc) by lia.
  repeat rewrite (ToInt32_small (Z.shiftl code 8)) by lia.
  assert (Hx : 0 <= Z.lxor crc (Z.shiftl code 8) < 2 ^ 24)
    by (apply lxor_range; lia).
  rewrite ToInt32_small by lia.
  rewrite <- lxor_unit_mod by lia.
  rewrite (Nat.iter_succ_r 7 crc_bit), (Nat.iter_succ_r 7 crc_shift).
  rewrite crc_bit_shift_wide by assumption.
  rewrite (crc_shift_mod (Z.lxor crc (Z.shiftl code 8))).
  apply iter_crc_bit_shift. apply crc_shift_range.
Qed.

(** Lines 112-120 on a code unit feed its low byte to the reference
    register. *)
Lemma crc_unit_feed_byte crc code :
  0 <= crc < 2 ^ 16 -> 0 <= code < 2 ^ 16 ->
  crc_unit crc code = CRCModel.feed_byte CRCModel.CCITT_FALSE crc (code mod 2 ^ 8).
Proof.
  intros Hcrc Hcode. rewrite crc_unit_shift by assumption.
  unfold CRCModel.feed_byte. cbn [CRCModel.refin CRCModel.CCITT_FALSE].
  rewrite feed_bits_shift by (auto; lia).
  change (Z.of_nat 8) with 8. change (16 - 8) with 8.
  rewrite Z.mod_mod by lia. reflexivity.
Qed.

Lemma crc_unit_range crc code :
  0 <= crc < 2 ^ 16 -> 0 <= code < 2 ^ 16 -> 0 <= crc_unit crc code < 2 ^ 16.
Proof.
  intros Hcrc Hcode. rewrite crc_unit_feed_byte by assumption.
  apply feed_byte_range. assumption.
Qed.

Lemma low_byte_shifted_range code : 0 <= Z.shiftl (code mod 2 ^ 8) 8 < 2 ^ 16.
Proof.
  assert (H : 0 <= code mod 2 ^ 8 < 2 ^ 8) by (apply Z.mod_pos_bound; lia).
  rewrite Z.shiftl_mul_pow2 by lia. lia.
Qed.

(** Two registers fed the same code unit stay apart; one register fed
    two code units gives the same result exactly when their low bytes
    are equal. *)
Lemma crc_unit_inj_register x y code :
  0 <= x < 2 ^ 16 -> 0 <= y < 2 ^ 16 -> 0 <= code < 2 ^ 16 ->
  crc_unit x code = crc_unit y code -> x = y.
Proof.
  intros Hx Hy Hc E. rewrite !crc_unit_shift in E by assumption.
  pose proof (low_byte_shifted_range code) as Hs.
  apply iter_crc_shift_inj in E; [|apply lxor_range; lia|apply lxor_range; lia].
  exact (lxor_cancel_r _ _ _ E).
Qed.

Lemma crc_unit_low_byte x a b :
  0 <= x < 2 ^ 16 -> 0 <= a < 2 ^ 16 -> 0 <= b < 2 ^ 16 ->
  crc_unit x a = crc_unit x b <-> a mod 2 ^ 8 = b mod 2 ^ 8.
Proof.
  intros Hx Ha Hb. rewrite !crc_unit_shift by assumption. split; intros E.
  - pose proof (low_byte_shifted_range a) as Hsa.
    pose proof (low_byte_shifted_range b) as Hsb.
    apply iter_crc_shift_inj in E; [|apply lxor_range; lia|apply lxor_range; lia].
    apply lxor_cancel_l in E.
    rewrite !Z.shiftl_mul_pow2 in E by lia. lia.
  - rewrite E. reflexivity.
Qed.

Lemma crc_loop_units_cons code codes crc :
  crc_loop_units (code :: codes) crc = crc_loop_units codes (crc_unit crc code).
Proof. unfold crc_loop_units. apply fold_left_cons_eq. Qed.

Lemma crc_loop_units_nil crc : crc_loop_units [] crc = crc.
Proof. reflexivity. Qed.

Lemma crc_loop_units_app pre post crc :
  crc_loop_units (pre ++ post) crc = crc_loop_units post (crc_loop_units pre crc).
Proof. unfold crc_loop_units. apply fold_left_app. Qed.

Lemma crc_loop_units_range codes crc :
  Forall (fun c => 0 <= c < 2 ^ 16) codes ->
  0 <= crc < 2 ^ 16 -> 0 <= crc_loop_units codes crc < 2 ^ 16.
Proof.
  intros H. revert crc. induction H as [|code codes Hc _ IH]; intros crc Hcrc;
    [rewrite crc_loop_units_nil; exact Hcrc|].
  rewrite crc_loop_units_cons. apply IH. apply crc_unit_range; assumption.
Qed.

Lemma crc_loop_units_inj codes x y :
  Forall (fun c => 0 <= c < 2 ^ 16) codes ->
  0 <= x < 2 ^ 16 -> 0 <= y < 2 ^ 16 ->
  crc_loop_units codes x = crc_loop_units codes y -> x = y.
Proof.
  intros H. revert x y. induction H as [|code codes Hc _ IH]; intros x y Hx Hy E;
    [rewrite !crc_loop_units_nil in E; exact E|].
  rewrite !crc_loop_units_cons in E.
  apply IH in E; [|apply crc_unit_range; assumption|apply crc_unit_range; assumption].
  exact (crc_unit_inj_register _ _ _ Hx Hy Hc E).
Qed.

(** On a text of 8-bit characters the loop on code units is the loop of
    the model. *)
Lemma crc_char_unit crc c : crc_char crc c = crc_unit crc (charCode c).
Proof. unfold crc_char, crc_unit. reflexivity. Qed.

Lemma crc_loop_units_charCodes str crc :
  crc_loop str crc = crc_loop_units (charCodes str) crc.
Proof.
  revert crc. induction str as [|c rest IH]; intros crc.
  - rewrite crc_loop_nil. reflexivity.
  - rewrite crc_loop_cons, charCodes_cons, crc_loop_units_cons, crc_char_unit. apply IH.
Qed.

Lemma hex_value_units codes :
  Forall (fun c => 0 <= c < 2 ^ 16) codes ->
  hex_value (computeCRC16_units codes) = Some (crc_loop_units codes 0xffff).
Proof.
  intros H. unfold computeCRC16_units. apply hex_value_crc_hex.
  apply crc_loop_units_range; [assumption|lia].
Qed.

(** X3. [charCodeAt] returns a 16-bit code unit, and of each unit the
    loop keeps the low byte only.  On texts given by their code units:
    the register at the end is the CRC-16/CCITT-FALSE of the low bytes
    of the units; when one unit of a text is replaced by another, the
    checksum stays the same exactly when the two units have the same
    low byte, so that a substitution is detected among the characters
    below 256 and missed between the units 0x20AC and 0x00AC, which
    both give 9596; and on a text of 8-bit characters the function of
    the model is the function on the code units. *)
Theorem computeCRC16_substitution_low_byte :
  (forall codes,
     Forall (fun c => 0 <= c < 2 ^ 16) codes ->
     crc_loop_units codes 0xffff
     = CRCModel.crc CRCModel.CCITT_FALSE (map (fun c => c mod 2 ^ 8) codes))
  /\ (forall pre a b post,
        Forall (fun c => 0 <= c < 2 ^ 16) (pre ++ a :: b :: post) ->
        computeCRC16_units (pre ++ a :: post) = computeCRC16_units (pre ++ b :: post)
        <-> a mod 2 ^ 8 = b mod 2 ^ 8)
  /\ computeCRC16_units [0x20AC] = "9596"
  /\ computeCRC16_units [0x00AC] = "9596"
  /\ (forall str, computeCRC16 str = computeCRC16_units (charCodes str)).
Proof.
  split; [|split; [|split; [|split]]].
  - intros codes H. unfold CRCModel.crc.
    cbn [CRCModel.refout CRCModel.xorout CRCModel.init CRCModel.CCITT_FALSE].
    rewrite Z.lxor_0_r.
    assert (Hg : forall crc, 0 <= crc < 2 ^ 16 ->
              crc_loop_units codes crc
              = fold_left (CRCModel.feed_byte CRCModel.CCITT_FALSE)
                          (map (fun c => c mod 2 ^ 8) codes) crc).
    { induction H as [|code codes Hc _ IH]; intros crc Hcrc; [reflexivity|].
      rewrite crc_loop_units_cons. cbn [map]. rewrite fold_left_cons_eq.
      rewrite <- crc_unit_feed_byte by assumption.
      apply IH. apply crc_unit_range; assumption. }
    apply Hg. lia.
  - intros pre a b post H.
    apply Forall_app in H as [Hpre H].
    apply Forall_cons_1 in H as [Ha H]. apply Forall_cons_1 in H as [Hb Hpost].
    assert (Hr : 0 <= crc_loop_units pre 0xffff < 2 ^ 16)
      by (apply crc_loop_units_range; [assumption|lia]).
    assert (Hfa : Forall (fun c => 0 <= c < 2 ^ 16) (pre ++ a :: post))
      by (apply Forall_app; split; [assumption|constructor; assumption]).
    assert (Hfb : Forall (fun c => 0 <= c < 2 ^ 16) (pre ++ b :: post))
      by (apply Forall_app; split; [assumption|constructor; assumption]).
    split; intros E.
    + assert (Hreg : crc_loop_units (pre ++ a :: post) 0xffff
                     = crc_loop_units (pre ++ b :: post) 0xffff).
      { pose proof (hex_value_units _ Hfa) as Ea.
        pose proof (hex_value_units _ Hfb) as Eb.
        rewrite E in Ea. rewrite Ea in Eb. injection Eb as Eb. exact Eb. }
      rewrite !crc_loop_units_app, !crc_loop_units_cons in Hreg.
      apply crc_loop_units_inj in Hreg;
        [|assumption|apply crc_unit_range; assumption|apply crc_unit_range; assumption].
      apply (crc_unit_low_byte _ a b Hr Ha Hb). exact Hreg.
    + unfold computeCRC16_units.
      rewrite !crc_loop_units_app, !crc_loop_units_cons.
      rewrite (proj2 (crc_unit_low_byte _ a b Hr Ha Hb) E). reflexivity.
  - vm_compute. reflexivity.
  - vm_compute. reflexivity.
  - intros str. unfold computeCRC16, computeCRC16_units.
    rewrite crc_loop_units_charCodes. reflexivity.
Qed.

Lemma computeCRC16_substitution_low_byte_witness :
  Forall (fun c => 0 <= c < 2 ^ 16) [0x35; 0x20AC; 0x00AC; 0x44]
  /\ 0x20AC mod 2 ^ 8 = 0x00AC mod 2 ^ 8
  /\ computeCRC16_units ([0x35] ++ 0x20AC :: [0x44])
     = computeCRC16_units ([0x35] ++ 0x00AC :: [0x44])
  /\ crc_loop_units [0x35; 0x20AC; 0x44] 0xffff
     = CRCModel.crc CRCModel.CCITT_FALSE (map (fun c => c mod 2 ^ 8) [0x35; 0x20AC; 0x44]).
Proof.
  destruct computeCRC16_substitution_low_byte as (Hcrc & Hsub & _).
  assert (H : Forall (fun c => 0 <= c < 2 ^ 16) [0x35; 0x20AC; 0x00AC; 0x44])
    by (repeat constructor; lia).
  split; [exact H|]. split; [reflexivity|]. split.
  - apply (proj2 (Hsub [0x35] 0x20AC 0x00AC [0x44] H)). reflexivity.
  - apply Hcrc. repeat constructor; lia.
Defined.

(** ** What [setPrice] and [setTax] accept *)

(** The first occurrence of the anchor found, the anchor occurs once
    more than in what follows it. *)
Lemma count_from_first s i :
  JS.indexOf "5802ID" s = Some i ->
  count_occurrences "5802ID" s
  = S (count_occurrences "5802ID" (JS.drop (i + String.length "5802ID") s)).
Proof.
  revert i. induction s as [|c s IH]; intros i H.
  - cbn in H. discriminate.
  - rewrite indexOf_cons in H.
    destruct (JS.startsWith "5802ID" (String c s)) eqn:Es.
    + injection H as <-. apply startsWith_inv in Es.
      rewrite Es at 1. rewrite count_after_anchor. reflexivity.
    + destruct (JS.indexOf "5802ID" s) as [j|] eqn:Ej; [|discriminate].
      cbn [option_map] in H. injection H as <-.
      rewrite count_occurrences_cons, Es. cbn [Nat.add].
      rewrite (IH j eq_refl). reflexivity.
Qed.

Lemma length_drop n s : String.length (JS.drop n s) = (String.length s - n)%nat.
Proof.
  revert s. induction n as [|n IH]; intros [|c s]; cbn [JS.drop String.length]; try lia.
  rewrite IH. lia.
Qed.

(** [split] cuts at every occurrence of the anchor. *)
Lemma split_fuel_length fuel s :
  (String.length s <= fuel)%nat ->
  length (JS.split_fuel fuel s "5802ID") = S (count_occurrences "5802ID" s).
Proof.
  revert s. induction fuel as [|fuel IH]; intros s Hlen.
  - destruct s; [reflexivity|cbn [String.length] in Hlen; lia].
  - cbn [JS.split_fuel].
    destruct (JS.indexOf "5802ID" s) as [i|] eqn:Ei.
    + cbn [length]. rewrite (count_from_first s i Ei). f_equal.
      apply IH. rewrite length_drop.
      destruct (indexOf_Some _ _ _ Ei) as [_ Hb].
      change (String.length "5802ID") with 6%nat in *. lia.
    + rewrite (indexOf_None_count _ _ Ei). reflexivity.
Qed.

Lemma split_length s :
  length (JS.split s "5802ID") = S (count_occurrences "5802ID" s).
Proof. unfold JS.split. apply split_fuel_length. lia. Qed.

(** X4. [setPrice] returns a payload exactly when the price is not
    below zero and the body (the input without its last four
    characters) holds the text 5802ID once.  It fails on the price when
    the price is below zero, whatever the payload, and on the country
    code when the price is not below zero and the body holds the text
    5802ID not at all or more than once. *)
Theorem setPrice_outcome payload price :
  (setPrice payload price = Throw PriceNegative <-> JS.lt price (Num 0) = true)
  /\ (setPrice payload price = Throw MissingCountryCode
      <-> JS.lt price (Num 0) = false
          /\ count_occurrences "5802ID" (JS.slice payload 0 (-4)) <> 1%nat)
  /\ ((exists out, setPrice payload price = Ok out)
      <-> JS.lt price (Num 0) = false
          /\ count_occurrences "5802ID" (JS.slice payload 0 (-4)) = 1%nat).
Proof.
  unfold setPrice.
  rewrite split_length, count_anchor_replace.
  destruct (JS.lt price (Num 0)).
  - split_all; split; try (intros [? ?]); try intros ?; try discriminate; reflexivity.
  - destruct (Nat.eq_dec (count_occurrences "5802ID" (JS.slice payload 0 (-4))) 1%nat)
      as [E|E].
    + rewrite E. cbn [Nat.eqb negb].
      split_all; split; try (intros [? ?]); try intros ?;
        try discriminate; try contradiction; eauto.
    + assert (Hn : (S (count_occurrences "5802ID" (JS.slice payload 0 (-4))) =? 2)%nat
                   = false) by (apply Nat.eqb_neq; lia).
      rewrite Hn. cbn [negb].
      split_all; split; try (intros [? ?]); try intros ?;
        try discriminate; try contradiction; auto.
Qed.

(** X5. [setTax] fails on the format of the fee exactly when the fee
    is a string that does not end with the percent sign, whatever the
    payload; it fails on the country code exactly when the fee has a
    valid form and the body holds the text 5802ID not at all or more
    than once, whether an amount is present or not. *)
Theorem setTax_outcome payload tax :
  (setTax payload tax = Throw InvalidTaxFormat
   <-> exists s, tax = TaxString s /\ JS.endsWith s "%" = false)
  /\ (setTax payload tax = Throw MissingCountryCode
      <-> (exists tag, taxTag tax = Ok tag)
          /\ count_occurrences "5802ID" (JS.slice payload 0 (-4)) <> 1%nat)
  /\ setTax payload tax <> Throw PriceNegative.
Proof.
  unfold setTax.
  rewrite split_length, count_anchor_replace.
  assert (Htag : (exists s, tax = TaxString s /\ JS.endsWith s "%" = false
                            /\ taxTag tax = Throw InvalidTaxFormat)
                 \/ exists tag, taxTag tax = Ok tag).
  { destruct tax as [n|s]; [right; eexists; reflexivity|].
    unfold taxTag. destruct (JS.endsWith s "%") eqn:Ee.
    - right. eexists. reflexivity.
    - left. exists s. auto. }
  destruct Htag as [(s & -> & He & Ht)|[tag Ht]].
  - rewrite Ht. split_all.
    + split; [intros _; exists s; auto|reflexivity].
    + split; [discriminate|]. intros [[tag Htag] _]. discriminate.
    + discriminate.
  - rewrite Ht.
    assert (Hfmt : ~ exists s, tax = TaxString s /\ JS.endsWith s "%" = false).
    { intros (s & -> & He). unfold taxTag in Ht. rewrite He in Ht. discriminate. }
    destruct (Nat.eq_dec (count_occurrences "5802ID" (JS.slice payload 0 (-4))) 1%nat)
      as [E|E].
    + rewrite E. cbn [Nat.eqb negb].
      destruct (match_amount _) as [m|].
      * split_all; [split; [discriminate|intros H; destruct (Hfmt H)]
                   |split; [discriminate|intros [_ H]; contradiction]
                   |discriminate].
      * split_all; [split; [discriminate|intros H; destruct (Hfmt H)]
                   |split; [discriminate|intros [_ H]; contradiction]
                   |discriminate].
    + assert (Hn : (S (count_occurrences "5802ID" (JS.slice payload 0 (-4))) =? 2)%nat
                   = false) by (apply Nat.eqb_neq; lia).
      rewrite Hn. cbn [negb].
      split_all; [split; [discriminate|intros H; destruct (Hfmt H)]
                 |split; [intros _; split; [exists tag; reflexivity|exact E]|reflexivity]
                 |discriminate].
Qed.

(** X6. Neither function reads the last four characters of its input:
    they are cut off whatever they are, and two inputs that differ in
    them only get the same result.  The checksum of the input is never
    verified. *)
Theorem old_checksum_ignored body c c' price tax :
  String.length c = 4%nat ->
  String.length c' = 4%nat ->
  setPrice (body +:+ c) price = setPrice (body +:+ c') price
  /\ setTax (body +:+ c) tax = setTax (body +:+ c') tax.
Proof.
  intros Hc Hc'. unfold setPrice, setTax.
  rewrite !(slice_body body c Hc), !(slice_body body c' Hc'). split; reflexivity.
Qed.

Lemma old_checksum_ignored_witness :
  setPrice ("0002010102115802ID6304" +:+ "ABCD") (Num 1)
  = setPrice ("0002010102115802ID6304" +:+ "0000") (Num 1)
  /\ setTax ("0002010102115802ID6304" +:+ "ABCD") (TaxString "10%")
     = setTax ("0002010102115802ID6304" +:+ "0000") (TaxString "10%").
Proof.
  apply (old_checksum_ignored "0002010102115802ID6304" "ABCD" "0000"); reflexivity.
Defined.

(** ** The parser on a sequence of fields *)

Lemma store_fields_cons t v l (m : gmap string string) :
  store_fields ((t, v) :: l) m = store_fields l (<[t := v]> m).
Proof. reflexivity. Qed.

Lemma store_fields_last_value l t (m : gmap string string) :
  store_fields l m !! t
  = match last_value t l with
    | Some v => Some v
    | None => m !! t
    end.
Proof.
  revert m. induction l as [|[t' v] l IH]; intros m; [reflexivity|].
  rewrite store_fields_cons, IH. cbn [last_value].
  destruct (last_value t l) as [v'|]; [reflexivity|].
  destruct (String.eqb_spec t' t) as [->|Hne].
  - apply lookup_insert_eq.
  - apply lookup_insert_ne. exact Hne.
Qed.

(** X7. Encoding then decoding: from a sequence of fields written one
    after the other (each a tag of two characters, the length of the
    value in two digits, and a value shorter than 100 characters), the
    parser returns, in as many turns as there are fields, a record that
    holds for every tag the value of the last field bearing it, and
    nothing for a tag that no field bears. *)
Theorem parseEmv_serialize_last_wins fields :
  Forall field_ok fields ->
  exists m,
    parseEmv (length fields) (serialize fields) = Some m
    /\ forall t, m !! t = last_value t fields.
Proof.
  intros Hok. exists (store_fields fields ∅). split.
  - apply parseEmv_serialize. exact Hok.
  - intros t. rewrite store_fields_last_value.
    destruct (last_value t fields); [reflexivity|apply lookup_empty].
Qed.

Lemma parseEmv_serialize_last_wins_witness :
  exists m,
    parseEmv (length [("54", "10000"); ("58", "ID"); ("54", "20000")])
             (serialize [("54", "10000"); ("58", "ID"); ("54", "20000")]) = Some m
    /\ forall t, m !! t = last_value t [("54", "10000"); ("58", "ID"); ("54", "20000")].
Proof.
  apply (parseEmv_serialize_last_wins [("54", "10000"); ("58", "ID"); ("54", "20000")]).
  repeat (apply Forall_cons; split; [split; vm_compute; lia|]).
  apply Forall_nil. trivial.
Defined.

(** ** Inputs on which the parser and the extractor return *)

Lemma no_minus_take n s : no_minus s = true -> no_minus (JS.take n s) = true.
Proof.
  revert s. induction n as [|n IH]; intros [|c s] H; try reflexivity.
  cbn [no_minus JS.take] in *. apply andb_prop in H as [Hc Hs].
  rewrite Hc, (IH s Hs). reflexivity.
Qed.

Lemma no_minus_drop n s : no_minus s = true -> no_minus (JS.drop n s) = true.
Proof.
  revert s. induction n as [|n IH]; intros [|c s] H; try exact H.
  cbn [no_minus JS.drop] in *. apply andb_prop in H as [_ Hs]. exact (IH s Hs).
Qed.

Lemma no_minus_substring s a b :
  no_minus s = true -> no_minus (JS.substring s a b) = true.
Proof. intros H. unfold JS.substring. apply no_minus_take, no_minus_drop, H. Qed.

Lemma no_minus_skip_whitespace s :
  no_minus s = true -> no_minus (JS.skip_whitespace s) = true.
Proof.
  induction s as [|c s IH]; intros H; [reflexivity|].
  cbn [JS.skip_whitespace]. destruct (JS.is_whitespace c); [|exact H].
  cbn [no_minus] in H. apply andb_prop in H as [_ Hs]. exact (IH Hs).
Qed.

Lemma parse_digits_nonneg s acc :
  match acc with Some a => 0 <= a | None => True end ->
  match JS.parse_digits s acc with Some v => 0 <= v | None => True end.
Proof.
  revert acc. induction s as [|c s IH]; intros acc Hacc; [exact Hacc|].
  cbn [JS.parse_digits]. destruct (JS.is_digit c) eqn:Ed; [|exact Hacc].
  apply IH. unfold JS.is_digit in Ed. apply andb_prop in Ed as [E1 _].
  apply Z.leb_le in E1.
  destruct acc as [a|]; unfold default; cbn [from_option id]; lia.
Qed.

(** Without a minus sign, [parseInt] reads no number below zero. *)
Lemma parseInt_no_minus s n :
  no_minus s = true -> JS.parseInt s = Num n -> 0 <= n.
Proof.
  intros H E. unfold JS.parseInt in E.
  apply no_minus_skip_whitespace in H.
  destruct (JS.skip_whitespace s) as [|c rest].
  - cbn in E. discriminate.
  - cbn [no_minus] in H. apply andb_prop in H as [Hc _].
    apply negb_true_iff in Hc. rewrite Hc in E.
    destruct (Ascii.eqb c "+").
    + pose proof (parse_digits_nonneg rest None I) as Hp.
      destruct (JS.parse_digits rest None) as [v|]; [|discriminate].
      injection E as <-. exact Hp.
    + pose proof (parse_digits_nonneg (String c rest) None I) as Hp.
      destruct (JS.parse_digits (String c rest) None) as [v|]; [|discriminate].
      injection E as <-. exact Hp.
Qed.

Lemma parseEmv_loop_no_minus qris :
  no_minus qris = true ->
  forall fuel i result,
    0 <= i ->
    Z.of_nat (String.length qris) - i <= Z.of_nat fuel ->
    exists m, parseEmv_loop fuel qris (Num i) result = Some m.
Proof.
  intros H. apply parseEmv_loop_terminates.
  intros i n _ E.
  pose proof (parseInt_no_minus _ _ (no_minus_substring qris _ _ H) E). lia.
Qed.

(** X8. On an input without a minus sign, the parser returns, after
    at most as many turns as the input has characters. *)
Theorem parseEmv_returns_without_minus qris :
  no_minus qris = true ->
  exists m, parseEmv (String.length qris) qris = Some m.
Proof.
  intros H. unfold parseEmv.
  apply (parseEmv_loop_no_minus qris H); lia.
Qed.

Lemma parseEmv_returns_without_minus_witness :
  exists m, parseEmv (String.length sample_static) sample_static = Some m.
Proof.
  apply (parseEmv_returns_without_minus sample_static). vm_compute. reflexivity.
Defined.

(** Every value that the loop stores is a piece of the input. *)
Lemma parseEmv_loop_values (P : string -> Prop) qris :
  (forall a b, P (JS.substring qris a b)) ->
  forall fuel i result m,
    map_Forall (fun _ v => P v) result ->
    parseEmv_loop fuel qris i result = Some m ->
    map_Forall (fun _ v => P v) m.
Proof.
  intros Hsub. induction fuel as [|fuel IH]; intros i result m Hres E.
  - destruct i as [z|]; cbn [parseEmv_loop] in E.
    + destruct (z <? Z.of_nat (String.length qris)); [discriminate|].
      injection E as <-. exact Hres.
    + injection E as <-. exact Hres.
  - destruct i as [z|]; [|rewrite parseEmv_loop_NaN in E; injection E as <-; exact Hres].
    destruct (Z.lt_ge_cases z (Z.of_nat (String.length qris))) as [Hlt|Hge].
    + rewrite parseEmv_loop_turn in E by exact Hlt.
      revert E. apply IH. unfold parseEmv_step. cbn [snd].
      apply map_Forall_insert_2; [apply Hsub|exact Hres].
    + rewrite parseEmv_loop_end in E by lia. injection E as <-. exact Hres.
Qed.

Lemma length_substring s a b : (String.length (JS.substring s a b) <= String.length s)%nat.
Proof.
  unfold JS.substring. rewrite length_take, length_drop. lia.
Qed.

Lemma parseEmv_values_no_minus qris fuel m :
  no_minus qris = true ->
  parseEmv fuel qris = Some m ->
  map_Forall (fun _ v => no_minus v = true
                         /\ (String.length v <= String.length qris)%nat) m.
Proof.
  intros H E. unfold parseEmv in E.
  refine (parseEmv_loop_values _ qris _ fuel (Num 0) ∅ m _ E).
  - intros a b. split; [apply no_minus_substring, H|apply length_substring].
  - apply map_Forall_empty.
Qed.

Lemma parseEmv_more fuel fuel' qris m :
  parseEmv fuel qris = Some m -> (fuel <= fuel')%nat -> parseEmv fuel' qris = Some m.
Proof. unfold parseEmv. intros E H. exact (parseEmv_loop_more _ _ _ _ _ E _ H). Qed.

Lemma find_company_returns fuel emv tags :
  (forall tag v, emv !! tag = Some v ->
                 no_minus v = true /\ (String.length v <= fuel)%nat) ->
  exists r, find_company fuel emv tags = Some r.
Proof.
  intros Hval. induction tags as [|tag tags IH]; [eexists; reflexivity|].
  cbn [find_company].
  destruct (String.eqb (get_or emv tag EmptyString) EmptyString) eqn:Ee; [exact IH|].
  assert (Hv : no_minus (get_or emv tag EmptyString) = true
               /\ (String.length (get_or emv tag EmptyString) <= fuel)%nat).
  { unfold get_or in *. destruct (emv !! tag) as [v|] eqn:El; [|discriminate].
    destruct (String.eqb v EmptyString); [discriminate|]. exact (Hval tag v El). }
  destruct Hv as [Hm Hl].
  destruct (parseEmv_loop_no_minus _ Hm (String.length (get_or emv tag EmptyString))
              0 ∅ ltac:(lia) ltac:(lia)) as [nested Hn].
  change (parseEmv (String.length (get_or emv tag EmptyString))
                   (get_or emv tag EmptyString) = Some nested) in Hn.
  rewrite (parseEmv_more _ fuel _ _ Hn Hl).
  destruct (negb (String.eqb (get_or nested "00" EmptyString) EmptyString)
            && negb (String.eqb (toUpperCase (get_or nested "00" EmptyString))
                                "ID.CO.QRIS.WWW"));
    [eexists; reflexivity|exact IH].
Qed.

(** X9. On an input without a minus sign, the extractor returns: the
    parse of the input and the parses of the merchant account values
    (tags 26, 27 and 51) all end, within as many turns as the input has
    characters. *)
Theorem extractMetadata_returns_without_minus qris :
  no_minus qris = true ->
  exists md, extractMetadata (String.length qris) qris = Some md.
Proof.
  intros H. unfold extractMetadata.
  destruct (parseEmv_loop_no_minus qris H (String.length qris) 0 ∅
              ltac:(lia) ltac:(lia)) as [emv Hemv].
  change (parseEmv (String.length qris) qris = Some emv) in Hemv.
  rewrite Hemv.
  pose proof (parseEmv_values_no_minus _ _ _ H Hemv) as Hval.
  destruct (find_company_returns (String.length qris) emv ["26"; "27"; "51"])
    as [[co pan] Hr].
  { intros tag v El. exact (Hval tag v El). }
  rewrite Hr. eexists. reflexivity.
Qed.

Lemma extractMetadata_returns_without_minus_witness :
  exists md, extractMetadata (String.length sample_static) sample_static = Some md.
Proof.
  apply (extractMetadata_returns_without_minus sample_static). vm_compute. reflexivity.
Defined.

(** ** What the extractor reports *)

Lemma find_company_result fuel emv tags co pan :
  find_company fuel emv tags = Some (co, pan) ->
  toUpperCase co <> "ID.CO.QRIS.WWW"
  /\ (co = EmptyString -> pan = EmptyString).
Proof.
  induction tags as [|tag tags IH]; cbn [find_company]; intros E.
  - injection E as <- <-. split; [discriminate|reflexivity].
  - destruct (String.eqb (get_or emv tag EmptyString) EmptyString); [exact (IH E)|].
    destruct (parseEmv fuel (get_or emv tag EmptyString)) as [nested|]; [|discriminate].
    destruct (String.eqb (get_or nested "00" EmptyString) EmptyString) eqn:Eg;
      cbn [negb andb] in E; [exact (IH E)|].
    destruct (String.eqb (toUpperCase (get_or nested "00" EmptyString)) "ID.CO.QRIS.WWW")
      eqn:Eu; cbn [negb] in E; [exact (IH E)|].
    injection E as <- <-. split.
    + apply String.eqb_neq. exact Eu.
    + intros E0. rewrite E0 in Eg. discriminate.
Qed.

(** X10. Whatever the input, when the extractor returns: the company
    is never the national identifier ID.CO.QRIS.WWW, in any letter
    case; a merchant PAN is reported only together with a company; the
    country is never empty (an absent or empty tag 58 gives ID); and
    the price and the tax are never the empty text (an absent or empty
    tag 54 or 55 gives null). *)
Theorem extractMetadata_invariants fuel qris md :
  extractMetadata fuel qris = Some md ->
  toUpperCase (company md) <> "ID.CO.QRIS.WWW"
  /\ (company md = EmptyString -> merchant_pan md = EmptyString)
  /\ country md <> EmptyString
  /\ price md <> Some EmptyString
  /\ tax md <> Some EmptyString.
Proof.
  unfold extractMetadata. intros E.
  destruct (parseEmv fuel qris) as [emv|]; [|discriminate].
  destruct (find_company fuel emv ["26"; "27"; "51"]) as [[co pan]|] eqn:Ec; [|discriminate].
  injection E as <-. cbn [company merchant_pan country price tax].
  destruct (find_company_result _ _ _ _ _ Ec) as [H1 H2].
  split; [exact H1|]. split; [exact H2|].
  unfold get_or, get_or_null.
  split_all.
  - destruct (emv !! "58") as [v|]; [|discriminate].
    destruct (String.eqb_spec v EmptyString); [discriminate|assumption].
  - destruct (emv !! "54") as [v|]; [|discriminate].
    destruct (String.eqb_spec v EmptyString); [discriminate|congruence].
  - destruct (emv !! "55") as [v|]; [|discriminate].
    destruct (String.eqb_spec v EmptyString); [discriminate|congruence].
Qed.

Lemma extractMetadata_invariants_witness :
  toUpperCase (company sample_static_metadata) <> "ID.CO.QRIS.WWW"
  /\ (company sample_static_metadata = EmptyString ->
      merchant_pan sample_static_metadata = EmptyString)
  /\ country sample_static_metadata <> EmptyString
  /\ price sample_static_metadata <> Some EmptyString
  /\ tax sample_static_metadata <> Some EmptyString.
Proof.
  apply (extractMetadata_invariants 20 sample_static). vm_compute. reflexivity.
Defined.

(** ** The class [DynamicQris] *)

(** X11. A method of the class that returns has replaced the payload by
    what the function of DynamicUtils.ts makes of it (and [setPrice]
    has recorded the price); a method that throws has left the payload
    as it was.  [fromString] refuses the empty text and takes any other
    text as it is, without a check: the instance holds the text, the
    price 0 and the tax amount 0. *)
Theorem DynamicQris_payload_update this price' tax text :
  match DynamicQris.fromString text with
  | DynamicQris.Returned this' =>
      text <> EmptyString /\ DynamicQris.toString this' = text
      /\ DynamicQris.price this' = Num 0
      /\ DynamicQris.taxAmount this' = Double.zero
  | DynamicQris.Thrown e => text = EmptyString /\ e = DynamicQris.QrisInputInvalid
  end
  /\ match DynamicQris.setPrice this price' with
  | (this', DynamicQris.Returned _) =>
      setPrice (DynamicQris.toString this) price' = Ok (DynamicQris.toString this')
      /\ DynamicQris.price this' = price'
  | (this', DynamicQris.Thrown _) =>
      DynamicQris.toString this' = DynamicQris.toString this
  end
  /\ match DynamicQris.setTax this tax with
     | (this', DynamicQris.Returned _) =>
         setTax (DynamicQris.toString this) tax = Ok (DynamicQris.toString this')
         /\ DynamicQris.price this' = DynamicQris.price this
     | (this', DynamicQris.Thrown _) =>
         DynamicQris.toString this' = DynamicQris.toString this
     end.
Proof.
  split.
  { unfold DynamicQris.fromString.
    destruct (String.eqb_spec text EmptyString) as [E|E]; [auto|].
    cbn. auto. }
  split.
  - unfold DynamicQris.setPrice, DynamicQris.setPriceQR, DynamicQris.toString.
    destruct (JS.lt price' (Num 0)); [reflexivity|].
    cbn [DynamicQris.qris DynamicQris.price DynamicQris.taxAmount].
    destruct (setPrice (DynamicQris.qris this) price') as [q|e];
      cbn [DynamicQris.qris DynamicQris.price]; [split; reflexivity|reflexivity].
  - assert (Hw : forall amt,
               match DynamicQris.setTax_write
                       {| DynamicQris.qris := DynamicQris.qris this;
                          DynamicQris.price := DynamicQris.price this;
                          DynamicQris.taxAmount := amt |} tax with
               | (this', DynamicQris.Returned _) =>
                   setTax (DynamicQris.toString this) tax
                   = Ok (DynamicQris.toString this')
                   /\ DynamicQris.price this' = DynamicQris.price this
               | (this', DynamicQris.Thrown _) =>
                   DynamicQris.toString this' = DynamicQris.toString this
               end).
    { intros amt.
      unfold DynamicQris.setTax_write, DynamicQris.setTaxQR, DynamicQris.toString.
      cbn [DynamicQris.qris DynamicQris.price DynamicQris.taxAmount].
      destruct (setTax (DynamicQris.qris this) tax) as [q|e];
        cbn [DynamicQris.qris DynamicQris.price]; [split; reflexivity|reflexivity]. }
    unfold DynamicQris.setTax. destruct tax as [n|s].
    + destruct (JS.lt n (Num 0)); [reflexivity|]. apply Hw.
    + destruct (JS.endsWith s "%"); [|reflexivity].
      destruct (Double.isNaN (Double.parseFloat s)
                || Double.lt (Double.parseFloat s) Double.zero); [reflexivity|].
      apply Hw.
Qed.

Lemma parseFloat_cannot_start c rest :
  cannot_start_number c = true -> Double.parseFloat (String c rest) = Double.nan.
Proof.
  unfold cannot_start_number. intros H. apply negb_true_iff in H.
  apply orb_false_iff in H as [H HI].
  apply orb_false_iff in H as [H Hdot].
  apply orb_false_iff in H as [H Hminus].
  apply orb_false_iff in H as [H Hplus].
  apply orb_false_iff in H as [Hws Hdig].
  unfold Double.parseFloat. cbn [JS.skip_whitespace]. rewrite Hws.
  unfold Double.span_sign. rewrite Hminus, Hplus.
  assert (Hinf : JS.startsWith "Infinity" (String c rest) = false).
  { cbn [JS.startsWith]. rewrite Ascii.eqb_sym, HI. reflexivity. }
  rewrite Hinf. cbn [Double.span_digits]. rewrite Hdig, Hdot.
  reflexivity.
Qed.

(** X12. What the class refuses before it changes anything: a fee
    that is a number below zero; a text that ends with the percent sign
    but begins with a character that cannot begin a number (the
    function [setTax] would accept it and write it); and a text that
    does not end with the percent sign.  Each is refused with an error
    of its own, and the instance is left as it was. *)
Theorem DynamicQris_setTax_refuses this :
  (forall n, n < 0 ->
     DynamicQris.setTax this (TaxNumber (Num n))
     = (this, DynamicQris.Thrown DynamicQris.TaxMustBeNonneg))
  /\ (forall c rest,
        cannot_start_number c = true ->
        JS.endsWith (String c rest) "%" = true ->
        DynamicQris.setTax this (TaxString (String c rest))
        = (this, DynamicQris.Thrown DynamicQris.TaxPercentageInvalid)
        /\ exists tag, taxTag (TaxString (String c rest)) = Ok tag)
  /\ (forall s, JS.endsWith s "%" = false ->
        DynamicQris.setTax this (TaxString s)
        = (this, DynamicQris.Thrown DynamicQris.TaxFormatInvalid)).
Proof.
  split_all.
  - intros n Hn. unfold DynamicQris.setTax, JS.lt.
    destruct (Z.ltb_spec n 0); [reflexivity|lia].
  - intros c rest Hc He. split.
    + unfold DynamicQris.setTax. rewrite He, (parseFloat_cannot_start c rest Hc).
      reflexivity.
    + unfold taxTag. rewrite He. eexists. reflexivity.
  - intros s He. unfold DynamicQris.setTax. rewrite He. reflexivity.
Qed.

Lemma DynamicQris_setTax_refuses_witness :
  DynamicQris.setTax (DynamicQris.new sample_static) (TaxNumber (Num (-5)))
  = (DynamicQris.new sample_static, DynamicQris.Thrown DynamicQris.TaxMustBeNonneg)
  /\ (DynamicQris.setTax (DynamicQris.new sample_static) (TaxString "%")
      = (DynamicQris.new sample_static,
         DynamicQris.Thrown DynamicQris.TaxPercentageInvalid)
      /\ exists tag, taxTag (TaxString "%") = Ok tag)
  /\ DynamicQris.setTax (DynamicQris.new sample_static) (TaxString "10")
     = (DynamicQris.new sample_static, DynamicQris.Thrown DynamicQris.TaxFormatInvalid).
Proof.
  destruct (DynamicQris_setTax_refuses (DynamicQris.new sample_static))
    as (H1 & H2 & H3).
  split; [apply H1; lia|].
  split; [apply H2; reflexivity|apply H3; reflexivity].
Defined.

(** A call of [setPrice] that the function accepts. *)
Lemma DynamicQris_setPrice_returns this p q :
  JS.lt p (Num 0) = false ->
  setPrice (DynamicQris.qris this) p = Ok q ->
  DynamicQris.setPrice this p
  = ({| DynamicQris.qris := q; DynamicQris.price := p;
        DynamicQris.taxAmount := DynamicQris.taxAmount this |},
     DynamicQris.Returned tt).
Proof.
  intros Hlt Hq. unfold DynamicQris.setPrice, DynamicQris.setPriceQR.
  rewrite Hlt. cbn [DynamicQris.qris DynamicQris.price DynamicQris.taxAmount].
  rewrite Hq. reflexivity.
Qed.

(** ** A payload as a sequence of fields, closed by the checksum *)

(** The parser on a sequence of well-formed fields followed by anything
    else: after as many turns as there are fields, the fields are
    stored and the cursor is behind them. *)
Lemma parseEmv_loop_fields_then fields :
  Forall field_ok fields ->
  forall k pre tail result,
    parseEmv_loop (length fields + k) (pre +:+ serialize fields +:+ tail)
                  (Num (Z.of_nat (String.length pre))) result
    = parseEmv_loop k (pre +:+ serialize fields +:+ tail)
                    (Num (Z.of_nat (String.length (pre +:+ serialize fields))))
                    (store_fields fields result).
Proof.
  induction fields as [|[tag value] fields IH]; intros Hok k pre tail result.
  - cbn [serialize length store_fields fold_left Nat.add].
    rewrite append_nil_r. reflexivity.
  - inversion Hok as [|f fs Hf Hfs]; subst.
    cbn [serialize length Nat.add]. rewrite store_fields_cons.
    rewrite (append_assoc (tlv_field tag value)).
    rewrite parseEmv_loop_turn.
    2:{ rewrite !length_append. unfold tlv_field. rewrite !length_append.
        destruct Hf as [Ht _]. cbn [fst] in Ht. lia. }
    rewrite parseEmv_step_field by exact Hf. cbn [fst snd].
    rewrite <- length_append.
    rewrite <- (append_assoc pre (tlv_field tag value)).
    rewrite (IH Hfs k (pre +:+ tlv_field tag value) tail).
    rewrite (append_assoc pre (tlv_field tag value) (serialize fields)).
    reflexivity.
Qed.

Lemma substring_tail pre v n :
  (String.length v <= n)%nat ->
  JS.substring (pre +:+ v) (Num (Z.of_nat (String.length pre)))
               (Num (Z.of_nat (String.length pre) + Z.of_nat n)) = v.
Proof.
  intros Hn. unfold JS.substring, JS.clamp. rewrite length_append.
  replace (Z.to_nat (Z.min (Z.max (Z.of_nat (String.length pre)) 0)
             (Z.of_nat (String.length pre + String.length v))))
    with (String.length pre) by lia.
  replace (Z.to_nat (Z.min (Z.max (Z.of_nat (String.length pre) + Z.of_nat n) 0)
             (Z.of_nat (String.length pre + String.length v))))
    with (String.length pre + String.length v)%nat by lia.
  replace (Nat.min (String.length pre) (String.length pre + String.length v))
    with (String.length pre) by lia.
  rewrite drop_append. apply take_all. lia.
Qed.

(** The last field, tag 63, whose value may be shorter than the four
    characters that its length announces. *)
Lemma parseEmv_loop_crc pre crc result :
  (String.length crc <= 4)%nat ->
  parseEmv_loop 1 (pre +:+ "6304" +:+ crc) (Num (Z.of_nat (String.length pre))) result
  = Some (<["63" := crc]> result).
Proof.
  intros Hc. rewrite parseEmv_loop_turn.
  2:{ rewrite !length_append. cbn [String.length]. lia. }
  unfold parseEmv_step. cbn [fst snd].
  assert (Htag : JS.substring (pre +:+ "6304" +:+ crc)
                   (Num (Z.of_nat (String.length pre)))
                   (Num (Z.of_nat (String.length pre) + 2)) = "63").
  { change ("6304" +:+ crc) with ("63" +:+ "04" +:+ crc).
    apply substring_mid; cbn [String.length]; lia. }
  assert (Hlen : JS.substring (pre +:+ "6304" +:+ crc)
                   (Num (Z.of_nat (String.length pre) + 2))
                   (Num (Z.of_nat (String.length pre) + 4)) = "04").
  { change ("6304" +:+ crc) with ("63" +:+ "04" +:+ crc).
    rewrite <- (append_assoc pre "63").
    apply substring_mid; rewrite length_append; cbn [String.length]; lia. }
  assert (Hval : JS.substring (pre +:+ "6304" +:+ crc)
                   (Num (Z.of_nat (String.length pre) + 4))
                   (Num (Z.of_nat (String.length pre) + 4 + 4)) = crc).
  { rewrite <- (append_assoc pre "6304").
    replace (Z.of_nat (String.length pre) + 4)
      with (Z.of_nat (String.length (pre +:+ "6304")))
      by (rewrite length_append; cbn [String.length]; lia).
    apply (substring_tail (pre +:+ "6304") crc 4 Hc). }
  rewrite Htag, Hlen.
  change (JS.parseInt "04") with (Num 4). cbn [JS.add].
  rewrite Hval.
  apply parseEmv_loop_end. rewrite !length_append. cbn [String.length]. lia.
Qed.

Lemma parseEmv_sealed fields crc :
  Forall field_ok fields ->
  (String.length crc <= 4)%nat ->
  parseEmv (length fields + 1) (serialize fields +:+ "6304" +:+ crc)
  = Some (<["63" := crc]> (store_fields fields ∅)).
Proof.
  intros Hok Hc. unfold parseEmv.
  pose proof (parseEmv_loop_fields_then fields Hok 1 EmptyString ("6304" +:+ crc) ∅) as H.
  rewrite !append_nil_l in H. cbn [String.length] in H.
  change (Z.of_nat 0) with 0 in H. rewrite H.
  apply parseEmv_loop_crc. exact Hc.
Qed.

Lemma computeCRC16_length_le s : (String.length (computeCRC16 s) <= 4)%nat.
Proof.
  unfold computeCRC16. rewrite crc_hex_length by (apply crc_loop_range; lia).
  destruct (crc_loop s 0xffff <? 0x10); [lia|].
  destruct (crc_loop s 0xffff <? 0x100); lia.
Qed.

(** ** What the extractor reads of the record *)

Lemma get_or_ext (emv emv' : gmap string string) t d :
  emv !! t = emv' !! t -> get_or emv t d = get_or emv' t d.
Proof. unfold get_or. intros ->. reflexivity. Qed.

Lemma get_or_null_ext (emv emv' : gmap string string) t :
  emv !! t = emv' !! t -> get_or_null emv t = get_or_null emv' t.
Proof. unfold get_or_null. intros ->. reflexivity. Qed.

Lemma find_company_ext fuel (emv emv' : gmap string string) tags :
  (forall t, In t tags -> emv !! t = emv' !! t) ->
  find_company fuel emv tags = find_company fuel emv' tags.
Proof.
  induction tags as [|tag tags IH]; intros H; [reflexivity|].
  cbn [find_company].
  rewrite (get_or_ext emv emv' tag EmptyString (H tag (or_introl eq_refl))).
  rewrite IH by (intros t Ht; apply H; right; exact Ht).
  reflexivity.
Qed.

Lemma find_company_more fuel fuel' emv tags r :
  find_company fuel emv tags = Some r -> (fuel <= fuel')%nat ->
  find_company fuel' emv tags = Some r.
Proof.
  intros E Hle. induction tags as [|tag tags IH]; [exact E|].
  cbn [find_company] in *.
  destruct (String.eqb (get_or emv tag EmptyString) EmptyString); [exact (IH E)|].
  destruct (parseEmv fuel (get_or emv tag EmptyString)) as [nested|] eqn:En; [|discriminate].
  rewrite (parseEmv_more _ _ _ _ En Hle).
  destruct (negb (String.eqb (get_or nested "00" EmptyString) EmptyString)
            && negb (String.eqb (toUpperCase (get_or nested "00" EmptyString))
                                "ID.CO.QRIS.WWW"));
    [exact E|exact (IH E)].
Qed.

Lemma last_value_app t l1 l2 :
  last_value t (l1 ++ l2)
  = match last_value t l2 with
    | Some v => Some v
    | None => last_value t l1
    end.
Proof.
  induction l1 as [|[t' v] l1 IH]; cbn [app last_value].
  - destruct (last_value t l2); reflexivity.
  - rewrite IH. destruct (last_value t l2); reflexivity.
Qed.

Lemma last_value_notin t l :
  (forall fld, In fld l -> fst fld <> t) -> last_value t l = None.
Proof.
  induction l as [|[t' v] l IH]; intros H; [reflexivity|].
  cbn [last_value]. rewrite IH by (intros fld Hin; apply H; right; exact Hin).
  destruct (String.eqb_spec t' t) as [E|_]; [|reflexivity].
  exfalso. apply (H (t', v)); [left; reflexivity|exact E].
Qed.

(** The record read from a sealed sequence of fields. *)
Lemma sealed_lookup fields crc t :
  t <> "63" ->
  (<["63" := crc]> (store_fields fields ∅) : gmap string string) !! t
  = last_value t fields.
Proof.
  intros Hne. rewrite lookup_insert_ne by congruence.
  rewrite store_fields_last_value.
  destruct (last_value t fields); [reflexivity|apply lookup_empty].
Qed.

(** ** The report before and after fields are inserted *)

Lemma body_fields poi before after :
  body_of poi before after = serialize (all_fields poi before after) +:+ "6304".
Proof.
  unfold body_of, all_fields. rewrite !serialize_app. cbn [serialize].
  change (tlv_field "58" "ID") with "5802ID".
  rewrite append_nil_r, !append_assoc. reflexivity.
Qed.

Lemma body_insert poi before ins after :
  body_of poi (before ++ ins) after
  = serialize (header poi ++ before) +:+ serialize ins +:+ "5802ID"
    +:+ serialize after +:+ "6304".
Proof.
  unfold body_of. rewrite app_assoc, serialize_app, !append_assoc. reflexivity.
Qed.

Lemma all_fields_ok poi before after :
  (String.length poi < 100)%nat ->
  Forall field_ok before -> Forall field_ok after ->
  Forall field_ok (all_fields poi before after).
Proof.
  intros Hp Hb Ha. unfold all_fields, header.
  apply Forall_app. split.
  - apply Forall_cons. split; [split; cbn [fst snd String.length]; lia|].
    apply Forall_cons. split; [split; cbn [fst snd String.length]; lia|].
    apply Forall_nil. trivial.
  - apply Forall_app. split; [exact Hb|].
    apply Forall_app. split; [|exact Ha].
    apply Forall_cons. split; [split; cbn [fst snd String.length]; lia|].
    apply Forall_nil. trivial.
Qed.

(** The record that the parser reads from a payload made of fields. *)
Lemma parseEmv_payload poi before after crc :
  (String.length poi < 100)%nat ->
  Forall field_ok before -> Forall field_ok after ->
  (String.length crc <= 4)%nat ->
  parseEmv (length (all_fields poi before after) + 1) (body_of poi before after +:+ crc)
  = Some (<["63" := crc]> (store_fields (all_fields poi before after) ∅)).
Proof.
  intros Hp Hb Ha Hc. rewrite body_fields, append_assoc.
  apply parseEmv_sealed; [apply all_fields_ok; assumption|exact Hc].
Qed.

(** A tag other than 01 and than those of the inserted fields reads the
    same before and after. *)
Lemma last_value_insert t poi poi' before ins after :
  t <> "01" ->
  (forall fld, In fld ins -> fst fld <> t) ->
  last_value t (all_fields poi (before ++ ins) after)
  = last_value t (all_fields poi' before after).
Proof.
  intros H01 Hins. unfold all_fields, header.
  rewrite !last_value_app. rewrite (last_value_notin t ins Hins).
  destruct (last_value t after); [reflexivity|].
  destruct (last_value t [("58", "ID")]); [reflexivity|].
  destruct (last_value t before); [reflexivity|].
  cbn [last_value]. destruct (String.eqb_spec "01" t) as [E|_]; [congruence|].
  reflexivity.
Qed.

(** The value of an inserted tag is the last one inserted. *)
Lemma last_value_inserted t poi before ins after v :
  t <> "58" ->
  (forall fld, In fld after -> fst fld <> t) ->
  last_value t ins = Some v ->
  last_value t (all_fields poi (before ++ ins) after) = Some v.
Proof.
  intros H58 Hafter Hv. unfold all_fields.
  rewrite !last_value_app. rewrite (last_value_notin t after Hafter).
  cbn [last_value]. destruct (String.eqb_spec "58" t) as [E|_]; [congruence|].
  rewrite Hv. reflexivity.
Qed.

Lemma extractMetadata_of_record fuel qris emv :
  parseEmv fuel qris = Some emv ->
  extractMetadata fuel qris
  = match find_company fuel emv ["26"; "27"; "51"] with
    | None => None
    | Some (company, merchant_pan) =>
        Some {| merchant := get_or emv "59" EmptyString;
                company := company;
                region := get_or emv "60" EmptyString;
                country := get_or emv "58" "ID";
                postal_code := get_or emv "61" EmptyString;
                merchant_pan := merchant_pan;
                price := get_or_null emv "54";
                tax := get_or_null emv "55" |}
    end.
Proof. intros E. unfold extractMetadata. rewrite E. reflexivity. Qed.

(** Fields of tags 54 to 57 inserted before the country code of a
    static payload, and tag 01 set to 12: the extractor, which returned
    on the payload, returns on the new one, and reports the same but
    for the price and the tax, which are those of the inserted fields
    when these hold them. *)
Lemma metadata_insert before after ins c crc fuel md0 :
  Forall field_ok before -> Forall field_ok after -> Forall field_ok ins ->
  (String.length c <= 4)%nat -> (String.length crc <= 4)%nat ->
  (forall fld, In fld ins ->
     fst fld = "54" \/ fst fld = "55" \/ fst fld = "56" \/ fst fld = "57") ->
  (forall fld, In fld after -> fst fld <> "54" /\ fst fld <> "55") ->
  extractMetadata fuel (body_of "11" before after +:+ c) = Some md0 ->
  exists fuel',
    extractMetadata fuel' (body_of "12" (before ++ ins) after +:+ crc)
    = Some (set_price_tax md0
              (match last_value "54" ins with
               | Some v => or_null (Some v)
               | None => price md0
               end)
              (match last_value "55" ins with
               | Some v => or_null (Some v)
               | None => tax md0
               end)).
Proof.
  intros Hb Ha Hi Hc Hcrc Htags Hafter Hmd.
  set (emv0 := <["63" := c]> (store_fields (all_fields "11" before after) ∅)
               : gmap string string).
  set (emv1 := <["63" := crc]> (store_fields (all_fields "12" (before ++ ins) after) ∅)
               : gmap string string).
  assert (Hp0 : parseEmv (length (all_fields "11" before after) + 1)
                         (body_of "11" before after +:+ c) = Some emv0)
    by (apply parseEmv_payload; cbn [String.length]; auto; lia).
  assert (Hp1 : parseEmv (length (all_fields "12" (before ++ ins) after) + 1)
                         (body_of "12" (before ++ ins) after +:+ crc) = Some emv1).
  { apply parseEmv_payload; cbn [String.length]; auto; try lia.
    apply Forall_app. split; assumption. }
  assert (Hsame : forall t, t <> "01" -> t <> "63" -> t <> "54" -> t <> "55" ->
                            t <> "56" -> t <> "57" -> emv1 !! t = emv0 !! t).
  { intros t H01 H63 H54 H55 H56 H57. unfold emv0, emv1.
    rewrite !sealed_lookup by exact H63.
    apply last_value_insert; [exact H01|].
    intros fld Hin. destruct (Htags fld Hin) as [E|[E|[E|E]]]; congruence. }
  assert (Hins : forall t, t = "54" \/ t = "55" ->
                   emv1 !! t = match last_value t ins with
                               | Some v => Some v
                               | None => emv0 !! t
                               end).
  { intros t Ht. unfold emv0, emv1.
    rewrite !sealed_lookup by (destruct Ht as [-> | ->]; discriminate).
    destruct (last_value t ins) as [v|] eqn:Ev.
    - apply last_value_inserted; [destruct Ht as [-> | ->]; discriminate| |exact Ev].
      intros fld Hin. destruct (Hafter fld Hin) as [H1 H2].
      destruct Ht as [-> | ->]; assumption.
    - unfold all_fields, header. rewrite !last_value_app, Ev.
      destruct (last_value t after); [reflexivity|].
      destruct (last_value t [("58", "ID")]); [reflexivity|].
      destruct (last_value t before); [reflexivity|].
      destruct Ht as [-> | ->]; reflexivity. }
  (* the report on the payload *)
  unfold extractMetadata in Hmd.
  destruct (parseEmv fuel (body_of "11" before after +:+ c)) as [e0|] eqn:Ee0;
    [|discriminate].
  pose proof (parseEmv_unique _ _ _ _ _ Ee0 Hp0) as ->.
  destruct (find_company fuel emv0 ["26"; "27"; "51"]) as [[co pan]|] eqn:Ec;
    [|discriminate].
  injection Hmd as <-.
  (* the report on the new payload *)
  set (fuel' := Nat.max fuel (length (all_fields "12" (before ++ ins) after) + 1)).
  exists fuel'.
  rewrite (extractMetadata_of_record fuel' _ emv1)
    by (apply (parseEmv_more _ _ _ _ Hp1); apply Nat.le_max_r).
  assert (Hco : find_company fuel' emv1 ["26"; "27"; "51"] = Some (co, pan)).
  { rewrite (find_company_ext fuel' emv1 emv0).
    - apply (find_company_more fuel); [exact Ec|apply Nat.le_max_l].
    - intros t [<-|[<-|[<-|[]]]]; apply Hsame; discriminate. }
  rewrite Hco. unfold set_price_tax. cbn [merchant company region country postal_code
                                            merchant_pan price tax].
  f_equal. f_equal.
  - apply get_or_ext, Hsame; discriminate.
  - apply get_or_ext, Hsame; discriminate.
  - apply get_or_ext, Hsame; discriminate.
  - apply get_or_ext, Hsame; discriminate.
  - unfold get_or_null. rewrite (Hins "54") by auto.
    destruct (last_value "54" ins); reflexivity.
  - unfold get_or_null. rewrite (Hins "55") by auto.
    destruct (last_value "55" ins); reflexivity.
Qed.

(** ** The calls of the class on a static payload made of fields *)

Lemma replace_poi r :
  JS.replace ("000201010211" +:+ r) "010211" "010212" = "000201010212" +:+ r.
Proof.
  unfold JS.replace.
  assert (Hi : JS.indexOf "010211" ("000201010211" +:+ r) = Some 6%nat).
  { norm_app.
    repeat (rewrite indexOf_cons; cbn [JS.startsWith Ascii.eqb Bool.eqb andb option_map]).
    reflexivity. }
  rewrite Hi. cbv zeta.
  rewrite (substitution_digits "010211" _ _ "010212") by reflexivity.
  norm_app. cbn [JS.take JS.drop Nat.add String.length]. norm_app. reflexivity.
Qed.

Lemma body_static before after :
  body_of "11" before after
  = "000201010211" +:+ serialize before +:+ "5802ID" +:+ serialize after +:+ "6304".
Proof.
  unfold body_of, header. cbn [app serialize].
  change (tlv_field "00" "01") with "000201".
  change (tlv_field "01" "11") with "010211".
  rewrite !append_assoc. reflexivity.
Qed.

Lemma body_dynamic before after :
  body_of "12" before after
  = "000201010212" +:+ serialize before +:+ "5802ID" +:+ serialize after +:+ "6304".
Proof.
  unfold body_of, header. cbn [app serialize].
  change (tlv_field "00" "01") with "000201".
  change (tlv_field "01" "12") with "010212".
  rewrite !append_assoc. reflexivity.
Qed.

(** Line 19 on a static payload made of fields: tag 01 becomes 12. *)
Lemma replace_body before after :
  JS.replace (body_of "11" before after) "010211" "010212" = body_of "12" before after.
Proof. rewrite body_static, body_dynamic. apply replace_poi. Qed.

(** [setPrice] on a static payload made of fields: the amount is one
    more field before the country code. *)
Lemma setPrice_payload before after c a :
  String.length c = 4%nat ->
  count_occurrences "5802ID" (body_of "11" before after) = 1%nat ->
  JS.lt a (Num 0) = false ->
  setPrice (body_of "11" before after +:+ c) a
  = Ok (body_of "12" (before ++ [("54", JS.String_ a)]) after
        +:+ computeCRC16 (body_of "12" (before ++ [("54", JS.String_ a)]) after)).
Proof.
  intros Hc Hcount Ha.
  rewrite (setPrice_shape _ a (serialize (header "12" ++ before))
             (serialize after +:+ "6304")).
  - rewrite body_insert. cbn [serialize]. rewrite append_nil_r.
    unfold tlv_field at 1 2. rewrite !append_assoc. reflexivity.
  - exact Ha.
  - rewrite slice_body by exact Hc. apply replace_body.
  - rewrite slice_body by exact Hc. exact Hcount.
Qed.

(** X13. A static payload made of well-formed fields (format
    indicator, tag 01 = 11, other fields, the country code 5802ID
    occurring once in the body, fields without tag 54, and tag 63 with
    a checksum of four characters), on which [getMetadata] returns a
    report: [setPrice] at a safe integer amount returns, the payload
    becomes the same fields with tag 01 = 12 and the amount field right
    before the country code, closed by its checksum, and [getMetadata]
    returns the same report with the amount as its price. *)
Theorem DynamicQris_setPrice_report before after c a fuel md0 :
  Forall field_ok before ->
  Forall field_ok after ->
  String.length c = 4%nat ->
  count_occurrences "5802ID" (body_of "11" before after) = 1%nat ->
  (forall fld, In fld after -> fst fld <> "54" /\ fst fld <> "55") ->
  0 <= a < 2 ^ 53 ->
  DynamicQris.getMetadata fuel (DynamicQris.new (body_of "11" before after +:+ c))
  = Some md0 ->
  exists fuel',
    DynamicQris.setPrice (DynamicQris.new (body_of "11" before after +:+ c)) (Num a)
    = ({| DynamicQris.qris :=
            body_of "12" (before ++ [("54", JS.String_ (Num a))]) after
            +:+ computeCRC16
                  (body_of "12" (before ++ [("54", JS.String_ (Num a))]) after);
          DynamicQris.price := Num a;
          DynamicQris.taxAmount := Double.zero |},
       DynamicQris.Returned tt)
    /\ DynamicQris.getMetadata fuel'
         (fst (DynamicQris.setPrice
                 (DynamicQris.new (body_of "11" before after +:+ c)) (Num a)))
       = Some (set_price_tax md0 (Some (JS.String_ (Num a))) (tax md0)).
Proof.
  intros Hb Hafter Hc Hcount Htags Ha Hmd.
  destruct (String_safe a Ha) as [_ [Ha1 Ha2]].
  assert (Hset : DynamicQris.setPrice
                   (DynamicQris.new (body_of "11" before after +:+ c)) (Num a)
                 = ({| DynamicQris.qris :=
                         body_of "12" (before ++ [("54", JS.String_ (Num a))]) after
                         +:+ computeCRC16
                               (body_of "12" (before ++ [("54", JS.String_ (Num a))]) after);
                       DynamicQris.price := Num a;
                       DynamicQris.taxAmount := Double.zero |},
                    DynamicQris.Returned tt)).
  { unfold DynamicQris.setPrice, DynamicQris.setPriceQR, DynamicQris.new, JS.lt.
    destruct (Z.ltb_spec a 0) as [Hneg|_]; [lia|].
    cbn [DynamicQris.qris DynamicQris.price DynamicQris.taxAmount].
    rewrite (setPrice_payload before after c (Num a) Hc Hcount).
    - reflexivity.
    - unfold JS.lt. destruct (Z.ltb_spec a 0); [lia|reflexivity]. }
  unfold DynamicQris.getMetadata, DynamicQris.new in Hmd.
  cbn [DynamicQris.qris] in Hmd.
  destruct (metadata_insert before after [("54", JS.String_ (Num a))] c
              (computeCRC16 (body_of "12" (before ++ [("54", JS.String_ (Num a))]) after))
              fuel md0 Hb Hafter) as [fuel' Hout].
  - apply Forall_cons. split; [split; cbn [fst snd String.length]; lia|].
    apply Forall_nil. trivial.
  - lia.
  - apply computeCRC16_length_le.
  - intros fld [<-|[]]. left. reflexivity.
  - exact Htags.
  - exact Hmd.
  - exists fuel'. split; [exact Hset|].
    rewrite Hset. unfold DynamicQris.getMetadata. cbn [fst DynamicQris.qris].
    rewrite Hout. cbn [last_value String.eqb Ascii.eqb Bool.eqb].
    unfold or_null.
    destruct (JS.String_ (Num a)) as [|ch s];
      [cbn [String.length] in Ha1; lia|reflexivity].
Qed.

Lemma DynamicQris_setPrice_report_witness :
  body_of "11" sample_fields_middle sample_fields_after +:+ "B37B" = sample_static
  /\ exists fuel',
       DynamicQris.setPrice
         (DynamicQris.new (body_of "11" sample_fields_middle sample_fields_after +:+ "B37B"))
         (Num 50000)
       = ({| DynamicQris.qris :=
               body_of "12" (sample_fields_middle ++ [("54", JS.String_ (Num 50000))])
                       sample_fields_after
               +:+ computeCRC16
                     (body_of "12"
                        (sample_fields_middle ++ [("54", JS.String_ (Num 50000))])
                        sample_fields_after);
             DynamicQris.price := Num 50000;
             DynamicQris.taxAmount := Double.zero |},
          DynamicQris.Returned tt)
       /\ DynamicQris.getMetadata fuel'
            (fst (DynamicQris.setPrice
                    (DynamicQris.new
                       (body_of "11" sample_fields_middle sample_fields_after +:+ "B37B"))
                    (Num 50000)))
          = Some (set_price_tax sample_static_metadata
                    (Some (JS.String_ (Num 50000))) (tax sample_static_metadata)).
Proof.
  split; [vm_compute; reflexivity|].
  apply (DynamicQris_setPrice_report sample_fields_middle sample_fields_after "B37B"
           50000 20 sample_static_metadata).
  - unfold sample_fields_middle.
    repeat (apply Forall_cons; split; [split; vm_compute; lia|]). apply Forall_nil. trivial.
  - unfold sample_fields_after.
    repeat (apply Forall_cons; split; [split; vm_compute; lia|]). apply Forall_nil. trivial.
  - reflexivity.
  - vm_compute. reflexivity.
  - intros fld Hin. unfold sample_fields_after in Hin.
    repeat (destruct Hin as [<-|Hin]; [cbn [fst]; split; discriminate|]).
    destruct Hin.
  - lia.
  - vm_compute. reflexivity.
Defined.

(** [setPrice] then [setTax] on a static payload made of fields, for a
    fee text made of an indicator field and a value field. *)
Lemma setPriceThenTax_payload before after c a tax ind k v :
  String.length c = 4%nat ->
  count_occurrences "5802ID" (body_of "11" before after) = 1%nat ->
  0 <= a < 2 ^ 53 ->
  taxTag tax = Ok (tlv_field "55" ind +:+ tlv_field k v) ->
  all_digits (tlv_field "55" ind +:+ tlv_field k v) = true ->
  match_amount (serialize (header "12" ++ before)) = None ->
  JS.indexOf "010211" (body_of "12" (before ++ [("54", JS.String_ (Num a))]) after) = None ->
  0x100 <= crc_loop (body_of "12" (before ++ [("54", JS.String_ (Num a))]) after) 0xffff ->
  setPriceThenTax (body_of "11" before after +:+ c) (Num a) tax
  = Ok (body_of "12" (before ++ [("54", JS.String_ (Num a)); ("55", ind); (k, v)]) after
        +:+ computeCRC16
              (body_of "12"
                 (before ++ [("54", JS.String_ (Num a)); ("55", ind); (k, v)]) after)).
Proof.
  intros Hc Hcount Ha Htag Hdig Hm Hrun Hw.
  assert (Hone : body_of "12" (before ++ [("54", JS.String_ (Num a))]) after
                 = serialize (header "12" ++ before) +:+ priceTag (Num a) +:+ "5802ID"
                   +:+ serialize after +:+ "6304").
  { rewrite body_insert. cbn [serialize]. rewrite append_nil_r. reflexivity. }
  rewrite Hone in Hrun, Hw.
  rewrite (setPriceThenTax_in_order _ a tax _ (serialize (header "12" ++ before))
             (serialize after +:+ "6304") Ha Htag Hdig).
  - rewrite body_insert. cbn [serialize]. rewrite append_nil_r.
    change (tlv_field "54" (JS.String_ (Num a))) with (priceTag (Num a)).
    rewrite !append_assoc. reflexivity.
  - rewrite slice_body by exact Hc. exact Hcount.
  - rewrite slice_body by exact Hc. apply replace_body.
  - exact Hm.
  - exact Hrun.
  - exact Hw.
Qed.

(** The two calls chained, for a fee that the class accepts and sets
    [taxAmount] to [amt]. *)
Lemma chain_price_fee before after c a tax ind k v amt fuel md0 :
  Forall field_ok before ->
  Forall field_ok after ->
  String.length c = 4%nat ->
  count_occurrences "5802ID" (body_of "11" before after) = 1%nat ->
  (forall fld, In fld after -> fst fld <> "54" /\ fst fld <> "55") ->
  0 <= a < 2 ^ 53 ->
  taxTag tax = Ok (tlv_field "55" ind +:+ tlv_field k v) ->
  all_digits (tlv_field "55" ind +:+ tlv_field k v) = true ->
  String.length ind = 2%nat ->
  k = "56" \/ k = "57" ->
  (String.length v < 100)%nat ->
  (forall q,
     DynamicQris.setTax
       {| DynamicQris.qris := q; DynamicQris.price := Num a;
          DynamicQris.taxAmount := Double.zero |} tax
     = DynamicQris.setTax_write
         {| DynamicQris.qris := q; DynamicQris.price := Num a;
            DynamicQris.taxAmount := amt |} tax) ->
  match_amount (serialize (header "12" ++ before)) = None ->
  JS.indexOf "010211" (body_of "12" (before ++ [("54", JS.String_ (Num a))]) after) = None ->
  0x100 <= crc_loop (body_of "12" (before ++ [("54", JS.String_ (Num a))]) after) 0xffff ->
  DynamicQris.getMetadata fuel (DynamicQris.new (body_of "11" before after +:+ c))
  = Some md0 ->
  exists fuel',
    DynamicQris.chain
      (DynamicQris.setPrice (DynamicQris.new (body_of "11" before after +:+ c)) (Num a))
      (fun this => DynamicQris.setTax this tax)
    = ({| DynamicQris.qris :=
            body_of "12" (before ++ [("54", JS.String_ (Num a)); ("55", ind); (k, v)]) after
            +:+ computeCRC16
                  (body_of "12"
                     (before ++ [("54", JS.String_ (Num a)); ("55", ind); (k, v)]) after);
          DynamicQris.price := Num a;
          DynamicQris.taxAmount := amt |},
       DynamicQris.Returned tt)
    /\ DynamicQris.getMetadata fuel'
         (fst (DynamicQris.chain
                 (DynamicQris.setPrice
                    (DynamicQris.new (body_of "11" before after +:+ c)) (Num a))
                 (fun this => DynamicQris.setTax this tax)))
       = Some (set_price_tax md0 (Some (JS.String_ (Num a))) (Some ind)).
Proof.
  intros Hb Hafter Hc Hcount Htags Ha Htag Hdig Hind Hk Hv Hvalid Hm Hrun Hw Hmd.
  destruct (String_safe a Ha) as [_ [Ha1 Ha2]].
  assert (Hlt : JS.lt (Num a) (Num 0) = false)
    by (unfold JS.lt; destruct (Z.ltb_spec a 0); [lia|reflexivity]).
  pose proof (setPrice_payload before after c (Num a) Hc Hcount Hlt) as Hp1.
  pose proof (setPriceThenTax_payload before after c a tax ind k v
                Hc Hcount Ha Htag Hdig Hm Hrun Hw) as Hp2.
  unfold setPriceThenTax in Hp2. rewrite Hp1 in Hp2.
  assert (Hchain : DynamicQris.chain
                     (DynamicQris.setPrice
                        (DynamicQris.new (body_of "11" before after +:+ c)) (Num a))
                     (fun this => DynamicQris.setTax this tax)
                   = ({| DynamicQris.qris :=
                           body_of "12"
                             (before ++ [("54", JS.String_ (Num a)); ("55", ind); (k, v)])
                             after
                           +:+ computeCRC16
                                 (body_of "12"
                                    (before ++ [("54", JS.String_ (Num a)); ("55", ind);
                                                (k, v)]) after);
                         DynamicQris.price := Num a;
                         DynamicQris.taxAmount := amt |},
                      DynamicQris.Returned tt)).
  { unfold DynamicQris.setPrice, DynamicQris.setPriceQR, DynamicQris.new.
    rewrite Hlt. cbn [DynamicQris.qris DynamicQris.price DynamicQris.taxAmount].
    rewrite Hp1. cbn [DynamicQris.chain DynamicQris.qris DynamicQris.price
                        DynamicQris.taxAmount].
    rewrite Hvalid. unfold DynamicQris.setTax_write, DynamicQris.setTaxQR.
    cbn [DynamicQris.qris DynamicQris.price DynamicQris.taxAmount].
    rewrite Hp2. reflexivity. }
  unfold DynamicQris.getMetadata, DynamicQris.new in Hmd.
  cbn [DynamicQris.qris] in Hmd.
  destruct (metadata_insert before after
              [("54", JS.String_ (Num a)); ("55", ind); (k, v)] c
              (computeCRC16
                 (body_of "12"
                    (before ++ [("54", JS.String_ (Num a)); ("55", ind); (k, v)]) after))
              fuel md0 Hb Hafter) as [fuel' Hout].
  - apply Forall_cons. split; [split; cbn [fst snd String.length]; lia|].
    apply Forall_cons. split; [split; cbn [fst snd String.length]; lia|].
    apply Forall_cons. split;
      [split; cbn [fst snd]; [destruct Hk as [-> | ->]; reflexivity|exact Hv]|].
    apply Forall_nil. trivial.
  - lia.
  - apply computeCRC16_length_le.
  - intros fld [<-|[<-|[<-|[]]]]; cbn [fst]; auto; destruct Hk as [-> | ->]; auto.
  - exact Htags.
  - exact Hmd.
  - exists fuel'. split; [exact Hchain|].
    rewrite Hchain. unfold DynamicQris.getMetadata. cbn [fst DynamicQris.qris].
    rewrite Hout.
    assert (H54 : last_value "54" [("54", JS.String_ (Num a)); ("55", ind); (k, v)]
                  = Some (JS.String_ (Num a))).
    { cbn [last_value]. destruct Hk as [-> | ->]; reflexivity. }
    assert (H55 : last_value "55" [("54", JS.String_ (Num a)); ("55", ind); (k, v)]
                  = Some ind).
    { cbn [last_value]. destruct Hk as [-> | ->]; reflexivity. }
    rewrite H54, H55. unfold or_null.
    destruct (JS.String_ (Num a)) as [|ch s]; [cbn [String.length] in Ha1; lia|].
    destruct ind as [|ch' s']; [cbn [String.length] in Hind; lia|reflexivity].
Qed.

(** ** Numbers that [parseFloat] reads without a sign *)

Lemma shr_1_nonneg mrs :
  0 <= SpecFloat.shr_m mrs -> 0 <= SpecFloat.shr_m (SpecFloat.shr_1 mrs).
Proof.
  destruct mrs as [m r s]. cbn [SpecFloat.shr_m]. intros H.
  destruct m as [|p|p]; [cbn; lia|destruct p; cbn; lia|lia].
Qed.

Lemma iter_pos_nonneg n mrs :
  0 <= SpecFloat.shr_m mrs ->
  0 <= SpecFloat.shr_m (SpecFloat.iter_pos SpecFloat.shr_1 n mrs).
Proof.
  revert mrs. induction n as [n IH|n IH|]; intros mrs H; cbn [SpecFloat.iter_pos].
  - apply IH, IH, shr_1_nonneg, H.
  - apply IH, IH, H.
  - apply shr_1_nonneg, H.
Qed.

Lemma shr_fexp_nonneg m e l :
  0 <= m ->
  0 <= SpecFloat.shr_m (fst (SpecFloat.shr_fexp Double.prec Double.emax m e l)).
Proof.
  intros H. unfold SpecFloat.shr_fexp, SpecFloat.shr.
  assert (H0 : 0 <= SpecFloat.shr_m (SpecFloat.shr_record_of_loc m l))
    by (destruct l as [|[]]; exact H).
  destruct (SpecFloat.fexp Double.prec Double.emax (SpecFloat.Zdigits2 m + e) - e)
    as [|p|p]; cbn [fst]; [exact H0| |exact H0].
  apply iter_pos_nonneg, H0.
Qed.

Lemma round_nearest_even_nonneg m l : 0 <= m -> 0 <= SpecFloat.round_nearest_even m l.
Proof.
  intros H. unfold SpecFloat.round_nearest_even.
  destruct l as [|[]]; try exact H; [destruct (Z.even m)|]; lia.
Qed.

(** Rounding a magnitude gives a zero, a finite number or an infinity
    of the sign asked for, never [NaN]. *)
Lemma binary_round_aux_sign m e l :
  0 <= m ->
  Double.isNaN (SpecFloat.binary_round_aux Double.prec Double.emax false m e l) = false
  /\ Double.lt (SpecFloat.binary_round_aux Double.prec Double.emax false m e l)
               Double.zero = false.
Proof.
  intros H. unfold SpecFloat.binary_round_aux.
  pose proof (shr_fexp_nonneg m e l H) as H1.
  destruct (SpecFloat.shr_fexp Double.prec Double.emax m e l) as [mrs' e'].
  cbn [fst] in H1.
  pose proof (shr_fexp_nonneg _ e' SpecFloat.loc_Exact
                (round_nearest_even_nonneg (SpecFloat.shr_m mrs')
                   (SpecFloat.loc_of_shr_record mrs') H1)) as H2.
  destruct (SpecFloat.shr_fexp Double.prec Double.emax
              (SpecFloat.round_nearest_even (SpecFloat.shr_m mrs')
                 (SpecFloat.loc_of_shr_record mrs')) e' SpecFloat.loc_Exact)
    as [mrs'' e''].
  cbn [fst] in H2.
  destruct (SpecFloat.shr_m mrs'') as [|p|p]; [split; reflexivity| |lia].
  destruct (e'' <=? Double.emax - Double.prec); split; reflexivity.
Qed.

Lemma of_decimal_sign m scale :
  Double.isNaN (Double.of_decimal false m scale) = false
  /\ Double.lt (Double.of_decimal false m scale) Double.zero = false.
Proof.
  unfold Double.of_decimal.
  destruct m as [|p|p]; [split; reflexivity| |split; reflexivity].
  destruct (0 <=? scale).
  - unfold SpecFloat.binary_round.
    destruct (SpecFloat.shl_align _ _ _) as [mz ez].
    apply binary_round_aux_sign. lia.
  - unfold Double.div, SpecFloat.SFdiv, SpecFloat.SFdiv_core_binary. cbn [xorb].
    set (m' := match _ - _ - _ with Z.pos _ => _ | 0 => _ | Z.neg _ => _ end).
    assert (Hm' : 0 <= m').
    { unfold m'. destruct (_ - _ - _); [lia|apply Z.shiftl_nonneg; lia|lia]. }
    pose proof (Z.div_pos m' (Z.pos (Z.to_pos (10 ^ (- scale)))) Hm' ltac:(lia)) as Hq.
    unfold Z.div in Hq.
    destruct (Z.div_eucl m' (Z.pos (Z.to_pos (10 ^ (- scale))))) as [q r].
    cbn [fst] in Hq. apply binary_round_aux_sign. exact Hq.
Qed.

Lemma digit_not_whitespace c : JS.is_digit c = true -> JS.is_whitespace c = false.
Proof.
  unfold JS.is_digit, JS.is_whitespace. intros H.
  apply andb_prop in H as [H1 H2]. apply Z.leb_le in H1, H2.
  destruct (Z.leb_spec 9 (charCode c)), (Z.leb_spec (charCode c) 13),
    (Z.eqb_spec (charCode c) 32), (Z.eqb_spec (charCode c) 160); try reflexivity; lia.
Qed.

Lemma span_digits_stop d c r :
  all_digits d = true -> JS.is_digit c = false ->
  Double.span_digits (d +:+ String c r) = (d, String c r).
Proof.
  intros Hd Hc. induction d as [|x d IH].
  - rewrite append_nil_l. cbn [Double.span_digits]. rewrite Hc. reflexivity.
  - cbn [all_digits] in Hd. apply andb_prop in Hd as [Hx Hd].
    rewrite append_cons. cbn [Double.span_digits]. rewrite Hx, (IH Hd). reflexivity.
Qed.

(** A text of digits followed by the percent sign is read as the
    number that the digits write. *)
Lemma parseFloat_percent d :
  all_digits d = true -> d <> EmptyString ->
  Double.parseFloat (d +:+ "%") = Double.of_decimal false (Double.digits_value d) 0.
Proof.
  intros Hd Hne. destruct d as [|x d]; [congruence|].
  pose proof Hd as Hd'. cbn [all_digits] in Hd'. apply andb_prop in Hd' as [Hx _].
  unfold Double.parseFloat. rewrite append_cons. cbn [JS.skip_whitespace].
  rewrite (digit_not_whitespace x Hx). unfold Double.span_sign.
  rewrite (digit_not_letter x "-" Hx eq_refl), (digit_not_letter x "+" Hx eq_refl).
  assert (Hinf : JS.startsWith "Infinity" (String x (d +:+ "%")) = false).
  { cbn [JS.startsWith]. rewrite Ascii.eqb_sym, (digit_not_letter x "I" Hx eq_refl).
    reflexivity. }
  rewrite Hinf. rewrite <- append_cons.
  rewrite (span_digits_stop (String x d) "%" EmptyString Hd eq_refl).
  cbn [Ascii.eqb Bool.eqb]. rewrite append_nil_r.
  reflexivity.
Qed.

(** The class accepts a fee written as digits and the percent sign. *)
Lemma DynamicQris_setTax_percent_valid this d :
  all_digits d = true -> d <> EmptyString ->
  DynamicQris.setTax this (TaxString (d +:+ "%"))
  = DynamicQris.setTax_write
      {| DynamicQris.qris := DynamicQris.qris this;
         DynamicQris.price := DynamicQris.price this;
         DynamicQris.taxAmount :=
           Double.round
             (Double.mul (Double.div (Double.parseFloat (d +:+ "%")) (Double.of_Z 100))
                         (Double.of_number (DynamicQris.price this))) |}
      (TaxString (d +:+ "%")).
Proof.
  intros Hd Hne. unfold DynamicQris.setTax.
  assert (He : JS.endsWith (d +:+ "%") "%" = true).
  { unfold JS.endsWith. rewrite length_append. cbn [String.length].
    replace (String.length d + 1 - 1)%nat with (String.length d) by lia.
    rewrite drop_append.
    destruct (Nat.leb_spec 1 (String.length d + 1)); [reflexivity|lia]. }
  rewrite He.
  destruct (of_decimal_sign (Double.digits_value d) 0) as [H1 H2].
  rewrite (parseFloat_percent d Hd Hne), H1, H2. reflexivity.
Qed.

Lemma indexOf_percent d :
  all_digits d = true -> JS.indexOf "%" (d +:+ "%") = Some (String.length d).
Proof.
  intros Hd. induction d as [|x d IH]; [reflexivity|].
  cbn [all_digits] in Hd. apply andb_prop in Hd as [Hx Hd].
  rewrite append_cons, indexOf_cons. cbn [JS.startsWith].
  rewrite Ascii.eqb_sym, (digit_not_letter x "%" Hx eq_refl). cbn [andb].
  rewrite (IH Hd). reflexivity.
Qed.

(** The text that [setTax] writes for such a fee: the indicator 03 in
    tag 55, and the digits in tag 57. *)
Lemma taxTag_percent d :
  all_digits d = true ->
  taxTag (TaxString (d +:+ "%")) = Ok (tlv_field "55" "03" +:+ tlv_field "57" d).
Proof.
  intros Hd. unfold taxTag.
  assert (He : JS.endsWith (d +:+ "%") "%" = true).
  { unfold JS.endsWith. rewrite length_append. cbn [String.length].
    replace (String.length d + 1 - 1)%nat with (String.length d) by lia.
    rewrite drop_append.
    destruct (Nat.leb_spec 1 (String.length d + 1)); [reflexivity|lia]. }
  rewrite He.
  assert (Hr : JS.replace (d +:+ "%") "%" EmptyString = d).
  { unfold JS.replace. rewrite (indexOf_percent d Hd). cbv zeta.
    cbn [JS.substitution String.length]. rewrite take_append.
    rewrite (drop_append_add d "%" 1). cbn [JS.drop].
    rewrite append_nil_l, append_nil_r. reflexivity. }
  rewrite Hr. reflexivity.
Qed.

(** ** The amount, then the fee *)

Lemma two_digit_field_digits v :
  all_digits v = true -> (String.length v < 100)%nat ->
  all_digits (length_prefix v +:+ v) = true.
Proof.
  intros Hv Hl. rewrite all_digits_append, Hv. unfold length_prefix.
  change (JS.padStart (JS.nat_toString ?n) 2 "0") with (two_digits n).
  rewrite two_digits_all by exact Hl. reflexivity.
Qed.

(** X14. The chained calls [setPrice(a).setTax(f)] of the class, for
    safe integers [a] and [f], on a static payload made of well-formed
    fields (the country code once in the body, no tag 54 or 55 after
    it, a checksum of four characters), when no run of digits before
    the country code can be taken for an amount field, no text 010211
    is left after the first call, and the first call writes a checksum
    of four characters: both calls return; the payload becomes the same
    fields with tag 01 = 12 and, right before the country code, the
    amount in tag 54, the indicator 02 in tag 55 and the fee in tag 56,
    closed by its checksum; [taxAmount] is the fee; and [getMetadata]
    returns the former report with the amount as its price and the
    indicator 02 as its tax. *)
Theorem DynamicQris_price_then_nominal_fee before after c a f fuel md0 :
  Forall field_ok before ->
  Forall field_ok after ->
  String.length c = 4%nat ->
  count_occurrences "5802ID" (body_of "11" before after) = 1%nat ->
  (forall fld, In fld after -> fst fld <> "54" /\ fst fld <> "55") ->
  0 <= a < 2 ^ 53 ->
  0 <= f < 2 ^ 53 ->
  match_amount (serialize (header "12" ++ before)) = None ->
  JS.indexOf "010211" (body_of "12" (before ++ [("54", JS.String_ (Num a))]) after) = None ->
  0x100 <= crc_loop (body_of "12" (before ++ [("54", JS.String_ (Num a))]) after) 0xffff ->
  DynamicQris.getMetadata fuel (DynamicQris.new (body_of "11" before after +:+ c))
  = Some md0 ->
  exists fuel',
    DynamicQris.chain
      (DynamicQris.setPrice (DynamicQris.new (body_of "11" before after +:+ c)) (Num a))
      (fun this => DynamicQris.setTax this (TaxNumber (Num f)))
    = ({| DynamicQris.qris :=
            body_of "12"
              (before ++ [("54", JS.String_ (Num a)); ("55", "02");
                          ("56", JS.String_ (Num f))]) after
            +:+ computeCRC16
                  (body_of "12"
                     (before ++ [("54", JS.String_ (Num a)); ("55", "02");
                                 ("56", JS.String_ (Num f))]) after);
          DynamicQris.price := Num a;
          DynamicQris.taxAmount := Double.of_Z f |},
       DynamicQris.Returned tt)
    /\ DynamicQris.getMetadata fuel'
         (fst (DynamicQris.chain
                 (DynamicQris.setPrice
                    (DynamicQris.new (body_of "11" before after +:+ c)) (Num a))
                 (fun this => DynamicQris.setTax this (TaxNumber (Num f)))))
       = Some (set_price_tax md0 (Some (JS.String_ (Num a))) (Some "02")).
Proof.
  intros Hb Hafter Hc Hcount Htags Ha Hf Hm Hrun Hw Hmd.
  destruct (String_safe f Hf) as [Hfd [Hf1 Hf2]].
  apply (chain_price_fee before after c a (TaxNumber (Num f)) "02" "56"
           (JS.String_ (Num f)) (Double.of_Z f) fuel md0); auto.
  - change (tlv_field "55" "02" +:+ tlv_field "56" (JS.String_ (Num f)))
      with ("55020256" +:+ length_prefix (JS.String_ (Num f)) +:+ JS.String_ (Num f)).
    rewrite all_digits_append. rewrite two_digit_field_digits by assumption. reflexivity.
  - intros q. unfold DynamicQris.setTax, JS.lt.
    destruct (Z.ltb_spec f 0) as [Hneg|_]; [lia|reflexivity].
Qed.

Lemma DynamicQris_price_then_nominal_fee_witness :
  body_of "11" sample_fields_middle sample_fields_after +:+ "B37B" = sample_static
  /\ exists fuel',
       DynamicQris.chain
         (DynamicQris.setPrice
            (DynamicQris.new (body_of "11" sample_fields_middle sample_fields_after
                              +:+ "B37B")) (Num 50000))
         (fun this => DynamicQris.setTax this (TaxNumber (Num 5000)))
       = ({| DynamicQris.qris :=
               body_of "12"
                 (sample_fields_middle
                  ++ [("54", JS.String_ (Num 50000)); ("55", "02");
                      ("56", JS.String_ (Num 5000))]) sample_fields_after
               +:+ computeCRC16
                     (body_of "12"
                        (sample_fields_middle
                         ++ [("54", JS.String_ (Num 50000)); ("55", "02");
                             ("56", JS.String_ (Num 5000))]) sample_fields_after);
             DynamicQris.price := Num 50000;
             DynamicQris.taxAmount := Double.of_Z 5000 |},
          DynamicQris.Returned tt)
       /\ DynamicQris.getMetadata fuel'
            (fst (DynamicQris.chain
                    (DynamicQris.setPrice
                       (DynamicQris.new
                          (body_of "11" sample_fields_middle sample_fields_after
                           +:+ "B37B")) (Num 50000))
                    (fun this => DynamicQris.setTax this (TaxNumber (Num 5000)))))
          = Some (set_price_tax sample_static_metadata
                    (Some (JS.String_ (Num 50000))) (Some "02")).
Proof.
  split; [vm_compute; reflexivity|].
  apply (DynamicQris_price_then_nominal_fee sample_fields_middle sample_fields_after
           "B37B" 50000 5000 20 sample_static_metadata).
  - unfold sample_fields_middle.
    repeat (apply Forall_cons; split; [split; vm_compute; lia|]). apply Forall_nil. trivial.
  - unfold sample_fields_after.
    repeat (apply Forall_cons; split; [split; vm_compute; lia|]). apply Forall_nil. trivial.
  - reflexivity.
  - vm_compute. reflexivity.
  - intros fld Hin. unfold sample_fields_after in Hin.
    repeat (destruct Hin as [<-|Hin]; [cbn [fst]; split; discriminate|]).
    destruct Hin.
  - lia.
  - lia.
  - vm_compute. reflexivity.
  - vm_compute. reflexivity.
  - vm_compute. discriminate.
  - vm_compute. reflexivity.
Defined.

(** X15. The same chain with the fee written as digits and the
    percent sign, [setPrice(a).setTax(d%)]: both calls return; the
    payload holds, right before the country code, the amount in tag 54,
    the indicator 03 in tag 55 and the digits [d] in tag 57;
    [taxAmount] is [Math.round((parseFloat(tax) / 100) * a)], computed
    on doubles; and [getMetadata] returns the former report with
    the amount as its price and the indicator 03 as its tax. *)
Theorem DynamicQris_price_then_percent_fee before after c a d fuel md0 :
  Forall field_ok before ->
  Forall field_ok after ->
  String.length c = 4%nat ->
  count_occurrences "5802ID" (body_of "11" before after) = 1%nat ->
  (forall fld, In fld after -> fst fld <> "54" /\ fst fld <> "55") ->
  0 <= a < 2 ^ 53 ->
  all_digits d = true ->
  (1 <= String.length d < 100)%nat ->
  match_amount (serialize (header "12" ++ before)) = None ->
  JS.indexOf "010211" (body_of "12" (before ++ [("54", JS.String_ (Num a))]) after) = None ->
  0x100 <= crc_loop (body_of "12" (before ++ [("54", JS.String_ (Num a))]) after) 0xffff ->
  DynamicQris.getMetadata fuel (DynamicQris.new (body_of "11" before after +:+ c))
  = Some md0 ->
  exists fuel',
    DynamicQris.chain
      (DynamicQris.setPrice (DynamicQris.new (body_of "11" before after +:+ c)) (Num a))
      (fun this => DynamicQris.setTax this (TaxString (d +:+ "%")))
    = ({| DynamicQris.qris :=
            body_of "12"
              (before ++ [("54", JS.String_ (Num a)); ("55", "03"); ("57", d)]) after
            +:+ computeCRC16
                  (body_of "12"
                     (before ++ [("54", JS.String_ (Num a)); ("55", "03"); ("57", d)])
                     after);
          DynamicQris.price := Num a;
          DynamicQris.taxAmount :=
            Double.round
              (Double.mul
                 (Double.div (Double.parseFloat (d +:+ "%")) (Double.of_Z 100))
                 (Double.of_Z a)) |},
       DynamicQris.Returned tt)
    /\ DynamicQris.getMetadata fuel'
         (fst (DynamicQris.chain
                 (DynamicQris.setPrice
                    (DynamicQris.new (body_of "11" before after +:+ c)) (Num a))
                 (fun this => DynamicQris.setTax this (TaxString (d +:+ "%")))))
       = Some (set_price_tax md0 (Some (JS.String_ (Num a))) (Some "03")).
Proof.
  intros Hb Hafter Hc Hcount Htags Ha Hd Hl Hm Hrun Hw Hmd.
  assert (Hne : d <> EmptyString)
    by (intros ->; cbn [String.length] in Hl; lia).
  apply (chain_price_fee before after c a (TaxString (d +:+ "%")) "03" "57" d
           (Double.round
              (Double.mul
                 (Double.div (Double.parseFloat (d +:+ "%")) (Double.of_Z 100))
                 (Double.of_Z a))) fuel md0); auto; try lia.
  - apply taxTag_percent. exact Hd.
  - change (tlv_field "55" "03" +:+ tlv_field "57" d)
      with ("55020357" +:+ length_prefix d +:+ d).
    rewrite all_digits_append. rewrite two_digit_field_digits by (auto; lia). reflexivity.
  - intros q. rewrite (DynamicQris_setTax_percent_valid _ d Hd Hne). reflexivity.
Qed.

Lemma DynamicQris_price_then_percent_fee_witness :
  body_of "11" sample_fields_middle sample_fields_after +:+ "B37B" = sample_static
  /\ Double.round
       (Double.mul
          (Double.div (Double.parseFloat ("10" +:+ "%")) (Double.of_Z 100))
          (Double.of_Z 15000))
     = Double.of_Z 1500
  /\ exists fuel',
       DynamicQris.chain
         (DynamicQris.setPrice
            (DynamicQris.new (body_of "11" sample_fields_middle sample_fields_after
                              +:+ "B37B")) (Num 15000))
         (fun this => DynamicQris.setTax this (TaxString ("10" +:+ "%")))
       = ({| DynamicQris.qris :=
               body_of "12"
                 (sample_fields_middle
                  ++ [("54", JS.String_ (Num 15000)); ("55", "03"); ("57", "10")])
                 sample_fields_after
               +:+ computeCRC16
                     (body_of "12"
                        (sample_fields_middle
                         ++ [("54", JS.String_ (Num 15000)); ("55", "03"); ("57", "10")])
                        sample_fields_after);
             DynamicQris.price := Num 15000;
             DynamicQris.taxAmount :=
               Double.round
                 (Double.mul
                    (Double.div (Double.parseFloat ("10" +:+ "%")) (Double.of_Z 100))
                    (Double.of_Z 15000)) |},
          DynamicQris.Returned tt)
       /\ DynamicQris.getMetadata fuel'
            (fst (DynamicQris.chain
                    (DynamicQris.setPrice
                       (DynamicQris.new
                          (body_of "11" sample_fields_middle sample_fields_after
                           +:+ "B37B")) (Num 15000))
                    (fun this => DynamicQris.setTax this (TaxString ("10" +:+ "%")))))
          = Some (set_price_tax sample_static_metadata
                    (Some (JS.String_ (Num 15000))) (Some "03")).
Proof.
  split; [vm_compute; reflexivity|].
  split; [vm_compute; reflexivity|].
  apply (DynamicQris_price_then_percent_fee sample_fields_middle sample_fields_after
           "B37B" 15000 "10" 20 sample_static_metadata).
  - unfold sample_fields_middle.
    repeat (apply Forall_cons; split; [split; vm_compute; lia|]). apply Forall_nil. trivial.
  - unfold sample_fields_after.
    repeat (apply Forall_cons; split; [split; vm_compute; lia|]). apply Forall_nil. trivial.
  - reflexivity.
  - vm_compute. reflexivity.
  - intros fld Hin. unfold sample_fields_after in Hin.
    repeat (destruct Hin as [<-|Hin]; [cbn [fst]; split; discriminate|]).
    destruct Hin.
  - lia.
  - reflexivity.
  - cbn [String.length]. lia.
  - vm_compute. reflexivity.
  - vm_compute. reflexivity.
  - vm_compute. discriminate.
  - vm_compute. reflexivity.
Defined.

(** ** A second amount *)

(** [setPrice] on a dynamic payload made of fields in which no text
    010211 is left. *)
Lemma setPrice_payload_dynamic before after c a :
  String.length c = 4%nat ->
  count_occurrences "5802ID" (body_of "12" before after) = 1%nat ->
  JS.indexOf "010211" (body_of "12" before after) = None ->
  JS.lt a (Num 0) = false ->
  setPrice (body_of "12" before after +:+ c) a
  = Ok (body_of "12" (before ++ [("54", JS.String_ a)]) after
        +:+ computeCRC16 (body_of "12" (before ++ [("54", JS.String_ a)]) after)).
Proof.
  intros Hc Hcount Hrun Ha.
  rewrite (setPrice_shape _ a (serialize (header "12" ++ before))
             (serialize after +:+ "6304")).
  - rewrite body_insert. cbn [serialize]. rewrite append_nil_r.
    unfold tlv_field at 1 2. rewrite !append_assoc. reflexivity.
  - exact Ha.
  - rewrite slice_body by exact Hc. unfold JS.replace. rewrite Hrun. reflexivity.
  - rewrite slice_body by exact Hc. exact Hcount.
Qed.

(** X16. [setPrice] called a second time does not replace the amount:
    on a static payload made of well-formed fields (as in X13), with
    safe integer amounts [a] then [b], when no text 010211 is left
    after the first call and the first call writes a checksum of four
    characters, both calls return, the payload keeps the field of [a]
    and gets the field of [b] right after it, before the country code,
    and [getMetadata] reports [b] as the price. *)
Theorem DynamicQris_setPrice_twice before after c a b fuel md0 :
  Forall field_ok before ->
  Forall field_ok after ->
  String.length c = 4%nat ->
  count_occurrences "5802ID" (body_of "11" before after) = 1%nat ->
  (forall fld, In fld after -> fst fld <> "54" /\ fst fld <> "55") ->
  0 <= a < 2 ^ 53 ->
  0 <= b < 2 ^ 53 ->
  JS.indexOf "010211" (body_of "12" (before ++ [("54", JS.String_ (Num a))]) after) = None ->
  0x100 <= crc_loop (body_of "12" (before ++ [("54", JS.String_ (Num a))]) after) 0xffff ->
  DynamicQris.getMetadata fuel (DynamicQris.new (body_of "11" before after +:+ c))
  = Some md0 ->
  exists fuel',
    DynamicQris.chain
      (DynamicQris.setPrice (DynamicQris.new (body_of "11" before after +:+ c)) (Num a))
      (fun this => DynamicQris.setPrice this (Num b))
    = ({| DynamicQris.qris :=
            body_of "12"
              (before ++ [("54", JS.String_ (Num a)); ("54", JS.String_ (Num b))]) after
            +:+ computeCRC16
                  (body_of "12"
                     (before ++ [("54", JS.String_ (Num a)); ("54", JS.String_ (Num b))])
                     after);
          DynamicQris.price := Num b;
          DynamicQris.taxAmount := Double.zero |},
       DynamicQris.Returned tt)
    /\ DynamicQris.getMetadata fuel'
         (fst (DynamicQris.chain
                 (DynamicQris.setPrice
                    (DynamicQris.new (body_of "11" before after +:+ c)) (Num a))
                 (fun this => DynamicQris.setPrice this (Num b))))
       = Some (set_price_tax md0 (Some (JS.String_ (Num b))) (tax md0)).
Proof.
  intros Hb Hafter Hc Hcount Htags Ha Hbb Hrun Hw Hmd.
  destruct (String_safe a Ha) as [Had [Ha1 Ha2]].
  destruct (String_safe b Hbb) as [_ [Hb1 Hb2]].
  assert (Hlta : JS.lt (Num a) (Num 0) = false)
    by (unfold JS.lt; destruct (Z.ltb_spec a 0); [lia|reflexivity]).
  assert (Hltb : JS.lt (Num b) (Num 0) = false)
    by (unfold JS.lt; destruct (Z.ltb_spec b 0); [lia|reflexivity]).
  pose proof (setPrice_payload before after c (Num a) Hc Hcount Hlta) as Hp1.
  assert (Hcount1 : count_occurrences "5802ID"
                      (body_of "12" (before ++ [("54", JS.String_ (Num a))]) after)
                    = 1%nat).
  { rewrite body_insert. cbn [serialize]. rewrite append_nil_r.
    unfold tlv_field.
    rewrite <- (append_assoc (serialize (header "12" ++ before))).
    apply (count_anchor_insert (serialize (header "12" ++ before))
             (length_prefix (JS.String_ (Num a)) +:+ JS.String_ (Num a))
             (serialize after +:+ "6304")).
    - apply two_digit_field_digits; assumption.
    - change (serialize (header "12" ++ before) +:+ "5802ID" +:+ serialize after +:+ "6304")
        with (body_of "12" before after).
      rewrite <- replace_body, count_anchor_replace. exact Hcount. }
  pose proof (setPrice_payload_dynamic (before ++ [("54", JS.String_ (Num a))]) after
                (computeCRC16
                   (body_of "12" (before ++ [("54", JS.String_ (Num a))]) after))
                (Num b) (computeCRC16_length _ Hw) Hcount1 Hrun Hltb) as Hp2.
  rewrite <- app_assoc in Hp2. cbn [app] in Hp2.
  assert (Hchain : DynamicQris.chain
                     (DynamicQris.setPrice
                        (DynamicQris.new (body_of "11" before after +:+ c)) (Num a))
                     (fun this => DynamicQris.setPrice this (Num b))
                   = ({| DynamicQris.qris :=
                           body_of "12"
                             (before ++ [("54", JS.String_ (Num a));
                                         ("54", JS.String_ (Num b))]) after
                           +:+ computeCRC16
                                 (body_of "12"
                                    (before ++ [("54", JS.String_ (Num a));
                                                ("54", JS.String_ (Num b))]) after);
                         DynamicQris.price := Num b;
                         DynamicQris.taxAmount := Double.zero |},
                      DynamicQris.Returned tt)).
  { rewrite (DynamicQris_setPrice_returns
               (DynamicQris.new (body_of "11" before after +:+ c)) (Num a)
               (body_of "12" (before ++ [("54", JS.String_ (Num a))]) after
                +:+ computeCRC16
                      (body_of "12" (before ++ [("54", JS.String_ (Num a))]) after))
               Hlta Hp1).
    cbn [DynamicQris.chain DynamicQris.new DynamicQris.taxAmount].
    apply (DynamicQris_setPrice_returns
             {| DynamicQris.qris :=
                  body_of "12" (before ++ [("54", JS.String_ (Num a))]) after
                  +:+ computeCRC16
                        (body_of "12" (before ++ [("54", JS.String_ (Num a))]) after);
                DynamicQris.price := Num a;
                DynamicQris.taxAmount := Double.zero |} (Num b) _ Hltb Hp2). }
  unfold DynamicQris.getMetadata, DynamicQris.new in Hmd.
  cbn [DynamicQris.qris] in Hmd.
  destruct (metadata_insert before after
              [("54", JS.String_ (Num a)); ("54", JS.String_ (Num b))] c
              (computeCRC16
                 (body_of "12"
                    (before ++ [("54", JS.String_ (Num a)); ("54", JS.String_ (Num b))])
                    after))
              fuel md0 Hb Hafter) as [fuel' Hout].
  - apply Forall_cons. split; [split; cbn [fst snd String.length]; lia|].
    apply Forall_cons. split; [split; cbn [fst snd String.length]; lia|].
    apply Forall_nil. trivial.
  - lia.
  - apply computeCRC16_length_le.
  - intros fld [<-|[<-|[]]]; cbn [fst]; auto.
  - exact Htags.
  - exact Hmd.
  - exists fuel'. split; [exact Hchain|].
    rewrite Hchain. unfold DynamicQris.getMetadata. cbn [fst DynamicQris.qris].
    rewrite Hout. cbn [last_value String.eqb Ascii.eqb Bool.eqb].
    unfold or_null.
    destruct (JS.String_ (Num b)) as [|ch s];
      [cbn [String.length] in Hb1; lia|reflexivity].
Qed.

Lemma DynamicQris_setPrice_twice_witness :
  body_of "11" sample_fields_middle sample_fields_after +:+ "B37B" = sample_static
  /\ exists fuel',
       DynamicQris.chain
         (DynamicQris.setPrice
            (DynamicQris.new (body_of "11" sample_fields_middle sample_fields_after
                              +:+ "B37B")) (Num 50000))
         (fun this => DynamicQris.setPrice this (Num 20000))
       = ({| DynamicQris.qris :=
               body_of "12"
                 (sample_fields_middle
                  ++ [("54", JS.String_ (Num 50000)); ("54", JS.String_ (Num 20000))])
                 sample_fields_after
               +:+ computeCRC16
                     (body_of "12"
                        (sample_fields_middle
                         ++ [("54", JS.String_ (Num 50000));
                             ("54", JS.String_ (Num 20000))]) sample_fields_after);
             DynamicQris.price := Num 20000;
             DynamicQris.taxAmount := Double.zero |},
          DynamicQris.Returned tt)
       /\ DynamicQris.getMetadata fuel'
            (fst (DynamicQris.chain
                    (DynamicQris.setPrice
                       (DynamicQris.new
                          (body_of "11" sample_fields_middle sample_fields_after
                           +:+ "B37B")) (Num 50000))
                    (fun this => DynamicQris.setPrice this (Num 20000))))
          = Some (set_price_tax sample_static_metadata
                    (Some (JS.String_ (Num 20000))) (tax sample_static_metadata)).
Proof.
  split; [vm_compute; reflexivity|].
  apply (DynamicQris_setPrice_twice sample_fields_middle sample_fields_after
           "B37B" 50000 20000 20 sample_static_metadata).
  - unfold sample_fields_middle.
    repeat (apply Forall_cons; split; [split; vm_compute; lia|]). apply Forall_nil. trivial.
  - unfold sample_fields_after.
    repeat (apply Forall_cons; split; [split; vm_compute; lia|]). apply Forall_nil. trivial.
  - reflexivity.
  - vm_compute. reflexivity.
  - intros fld Hin. unfold sample_fields_after in Hin.
    repeat (destruct Hin as [<-|Hin]; [cbn [fst]; split; discriminate|]).
    destruct Hin.
  - lia.
  - lia.
  - vm_compute. reflexivity.
  - vm_compute. discriminate.
  - vm_compute. reflexivity.
Defined.

(** ** The checksum that closes the result *)

(** X17. Whatever [setPrice] or [setTax] returns is a body followed
    by the checksum of that body; when the register of the checksum is
    0x100 at least, the last four characters of the result are the
    checksum of what precedes them. *)
Theorem results_are_sealed payload price tax out :
  setPrice payload price = Ok out \/ setTax payload tax = Ok out ->
  exists body,
    out = body +:+ computeCRC16 body
    /\ (0x100 <= crc_loop body 0xffff ->
        JS.slice out 0 (-4) = body
        /\ JS.slice out (-4) (Z.of_nat (String.length out)) = computeCRC16 body
        /\ JS.slice out (-4) (Z.of_nat (String.length out))
           = computeCRC16 (JS.slice out 0 (-4))).
Proof.
  intros Hout.
  assert (Hbody : exists body, out = body +:+ computeCRC16 body).
  { destruct Hout as [H|H].
    - unfold setPrice in H.
      destruct (JS.lt price (Num 0)); [discriminate|].
      destruct (negb _); [discriminate|].
      injection H as <-. eexists. reflexivity.
    - unfold setTax in H.
      destruct (taxTag tax); [|discriminate].
      destruct (negb _); [discriminate|].
      destruct (match_amount _); [|discriminate].
      injection H as <-. eexists. reflexivity. }
  destruct Hbody as [body ->]. exists body. split; [reflexivity|].
  intros Hw. pose proof (computeCRC16_length body Hw) as Hl.
  rewrite (slice_body body _ Hl), (slice_tail body _ Hl). auto.
Qed.

Lemma results_are_sealed_witness :
  exists body,
    pan54_50000 = body +:+ computeCRC16 body
    /\ (0x100 <= crc_loop body 0xffff ->
        JS.slice pan54_50000 0 (-4) = body
        /\ JS.slice pan54_50000 (-4) (Z.of_nat (String.length pan54_50000))
           = computeCRC16 body
        /\ JS.slice pan54_50000 (-4) (Z.of_nat (String.length pan54_50000))
           = computeCRC16 (JS.slice pan54_50000 0 (-4))).
Proof.
  apply (results_are_sealed sample_pan54 (Num 50000) (TaxNumber (Num 5000)) pan54_50000).
  left. vm_compute. reflexivity.
Defined.

(** ** The report on a payload made of fields *)

Lemma get_or_lookup (emv : gmap string string) t d :
  get_or emv t d = or_else (emv !! t) d.
Proof. reflexivity. Qed.

Lemma get_or_null_lookup (emv : gmap string string) t :
  get_or_null emv t = or_null (emv !! t).
Proof. reflexivity. Qed.

Lemma last_value_Some_length t l v :
  last_value t l = Some v -> (1 <= length l)%nat.
Proof. destruct l; [discriminate|cbn [length]; lia]. Qed.

Lemma serialize_nonempty l : (1 <= length l)%nat -> serialize l <> EmptyString.
Proof.
  destruct l as [|[t v] l]; cbn [length]; [lia|]. intros _ E.
  apply (f_equal String.length) in E. cbn [serialize] in E.
  unfold tlv_field in E. rewrite !length_append in E.
  pose proof (length_prefix_ge_2 v). cbn [String.length] in E. lia.
Qed.

(** X18. What the extractor reports of a payload made of well-formed
    fields and closed by tag 63, when its tag 26 holds well-formed
    sub-fields whose sub-tag 00 is not empty and is not the national
    identifier: the extractor returns; the company is that sub-tag 00
    and the merchant PAN the sub-tag 01 of tag 26 (nothing when it is
    absent); the merchant, the region, the postal code, the price and
    the tax are the values of the last fields of tags 59, 60, 61, 54
    and 55 (nothing when absent or empty), and the country that of tag
    58 (ID when absent or empty). *)
Theorem extractMetadata_of_fields fields crc sub gui :
  Forall field_ok fields ->
  (String.length crc <= 4)%nat ->
  last_value "26" fields = Some (serialize sub) ->
  Forall field_ok sub ->
  last_value "00" sub = Some gui ->
  gui <> EmptyString ->
  toUpperCase gui <> "ID.CO.QRIS.WWW" ->
  extractMetadata (length fields + 1 + length sub) (serialize fields +:+ "6304" +:+ crc)
  = Some {| merchant := or_else (last_value "59" fields) EmptyString;
            company := gui;
            region := or_else (last_value "60" fields) EmptyString;
            country := or_else (last_value "58" fields) "ID";
            postal_code := or_else (last_value "61" fields) EmptyString;
            merchant_pan := or_else (last_value "01" sub) EmptyString;
            price := or_null (last_value "54" fields);
            tax := or_null (last_value "55" fields) |}.
Proof.
  intros Hok Hcrc H26 Hsub H00 Hgui Hnat.
  set (emv := <["63" := crc]> (store_fields fields ∅) : gmap string string).
  assert (Hp : parseEmv (length fields + 1 + length sub)
                        (serialize fields +:+ "6304" +:+ crc) = Some emv).
  { apply (parseEmv_more (length fields + 1)); [|lia].
    apply parseEmv_sealed; assumption. }
  assert (Hl : forall t, t <> "63" -> emv !! t = last_value t fields)
    by (intros t Ht; apply sealed_lookup; exact Ht).
  assert (Hn : parseEmv (length fields + 1 + length sub) (serialize sub)
               = Some (store_fields sub ∅)).
  { apply (parseEmv_more (length sub)); [|lia]. apply parseEmv_serialize. exact Hsub. }
  assert (Hs : forall t, (store_fields sub ∅ : gmap string string) !! t = last_value t sub).
  { intros t. rewrite store_fields_last_value.
    destruct (last_value t sub); [reflexivity|apply lookup_empty]. }
  assert (Hne : serialize sub <> EmptyString)
    by (apply serialize_nonempty; exact (last_value_Some_length _ _ _ H00)).
  rewrite (extractMetadata_of_record _ _ emv Hp).
  assert (Hb1 : String.eqb (serialize sub) EmptyString = false)
    by (apply String.eqb_neq; exact Hne).
  assert (Hb2 : String.eqb gui EmptyString = false)
    by (apply String.eqb_neq; exact Hgui).
  assert (Hb3 : String.eqb (toUpperCase gui) "ID.CO.QRIS.WWW" = false)
    by (apply String.eqb_neq; exact Hnat).
  assert (Hc : find_company (length fields + 1 + length sub) emv ["26"; "27"; "51"]
               = Some (gui, or_else (last_value "01" sub) EmptyString)).
  { cbn [find_company]. rewrite (get_or_lookup emv "26").
    rewrite Hl by discriminate. rewrite H26. cbn [or_else]. rewrite Hb1, Hb1.
    rewrite Hn. rewrite !get_or_lookup, !Hs, H00. cbn [or_else].
    rewrite Hb2, Hb2, Hb3. reflexivity. }
  rewrite Hc. rewrite !get_or_lookup, !get_or_null_lookup.
  rewrite !Hl by discriminate. reflexivity.
Qed.

Lemma extractMetadata_of_fields_witness :
  serialize (all_fields "11" sample_fields_middle sample_fields_after) +:+ "6304" +:+ "B37B"
  = sample_static
  /\ extractMetadata
       (length (all_fields "11" sample_fields_middle sample_fields_after) + 1
        + length [("00", "COM.EXAMPLE.WWW"); ("01", "936009143123456789");
                  ("02", "G123456789"); ("03", "UMI")])
       (serialize (all_fields "11" sample_fields_middle sample_fields_after)
        +:+ "6304" +:+ "B37B")
     = Some {| merchant :=
                 or_else (last_value "59"
                            (all_fields "11" sample_fields_middle sample_fields_after))
                         EmptyString;
               company := "COM.EXAMPLE.WWW";
               region :=
                 or_else (last_value "60"
                            (all_fields "11" sample_fields_middle sample_fields_after))
                         EmptyString;
               country :=
                 or_else (last_value "58"
                            (all_fields "11" sample_fields_middle sample_fields_after))
                         "ID";
               postal_code :=
                 or_else (last_value "61"
                            (all_fields "11" sample_fields_middle sample_fields_after))
                         EmptyString;
               merchant_pan :=
                 or_else (last_value "01"
                            [("00", "COM.EXAMPLE.WWW"); ("01", "936009143123456789");
                             ("02", "G123456789"); ("03", "UMI")])
                         EmptyString;
               price :=
                 or_null (last_value "54"
                            (all_fields "11" sample_fields_middle sample_fields_after));
               tax :=
                 or_null (last_value "55"
                            (all_fields "11" sample_fields_middle sample_fields_after)) |}.
Proof.
  split; [vm_compute; reflexivity|].
  apply (extractMetadata_of_fields
           (all_fields "11" sample_fields_middle sample_fields_after) "B37B"
           [("00", "COM.EXAMPLE.WWW"); ("01", "936009143123456789");
            ("02", "G123456789"); ("03", "UMI")] "COM.EXAMPLE.WWW").
  - unfold all_fields, header, sample_fields_middle, sample_fields_after. cbn [app].
    repeat (apply Forall_cons; split; [split; vm_compute; lia|]). apply Forall_nil. trivial.
  - cbn [String.length]. lia.
  - vm_compute. reflexivity.
  - repeat (apply Forall_cons; split; [split; vm_compute; lia|]). apply Forall_nil. trivial.
  - vm_compute. reflexivity.
  - discriminate.
  - vm_compute. discriminate.
Defined.

(** ** An amount that holds the text 010211 *)







(** ** The errors of the functions that come out of the class *)

(** X21. Through the class, the function [setPrice] can fail on the
    country code only, and the function [setTax] on the country code or
    on the missing amount only: the class has made its own checks of
    the price and of the form of the fee first, so the price check of
    line 13 and the format check of lines 69-73 of DynamicUtils.ts
    never fire. *)
Theorem DynamicQris_errors_let_through this price' tax :
  match snd (DynamicQris.setPrice this price') with
  | DynamicQris.Thrown (DynamicQris.FromUtils e) => e = MissingCountryCode
  | _ => True
  end
  /\ match snd (DynamicQris.setTax this tax) with
     | DynamicQris.Thrown (DynamicQris.FromUtils e) =>
         e = MissingCountryCode \/ e = MissingAmount
     | _ => True
     end.
Proof.
  split.
  - unfold DynamicQris.setPrice, DynamicQris.setPriceQR.
    destruct (JS.lt price' (Num 0)) eqn:Hlt; [exact I|].
    cbn [DynamicQris.qris DynamicQris.price DynamicQris.taxAmount].
    unfold setPrice. rewrite Hlt.
    destruct (negb _); cbn [snd]; [reflexivity|exact I].
  - assert (Hw : forall amt tag,
               taxTag tax = Ok tag ->
               match snd (DynamicQris.setTax_write
                            {| DynamicQris.qris := DynamicQris.qris this;
                               DynamicQris.price := DynamicQris.price this;
                               DynamicQris.taxAmount := amt |} tax) with
               | DynamicQris.Thrown (DynamicQris.FromUtils e) =>
                   e = MissingCountryCode \/ e = MissingAmount
               | _ => True
               end).
    { intros amt tag Ht. unfold DynamicQris.setTax_write, DynamicQris.setTaxQR.
      cbn [DynamicQris.qris DynamicQris.price DynamicQris.taxAmount].
      unfold setTax. rewrite Ht.
      destruct (negb _); cbn [snd]; [left; reflexivity|].
      destruct (match_amount _); cbn [snd]; [exact I|right; reflexivity]. }
    unfold DynamicQris.setTax. destruct tax as [n|s].
    + destruct (JS.lt n (Num 0)); [exact I|]. eapply Hw. reflexivity.
    + destruct (JS.endsWith s "%") eqn:He; [|exact I].
      destruct (Double.isNaN (Double.parseFloat s)
                || Double.lt (Double.parseFloat s) Double.zero); [exact I|].
      eapply Hw. unfold taxTag. rewrite He. reflexivity.
Qed.

(** * The fee text in the payload that [setTax] returns *)

(** ** Replacement texts without a dollar sign *)














(** ** The text that line 86 matches *)





(** ** What [setTax] returns *)




